(** * Remote command session layer of network-auto-configuration

    A shallow embedding of [router_tools/backend/router_manager.py]
    (classes [RouterConnection] and [RouterManager]) and of the console
    bridge and backup download endpoints of
    [router_tools/backend/main_router.py].

    Conventions of the model:
    - a Python [str] is a list of Unicode code points; the string methods
      used by the source ([strip], [splitlines], [endswith], [in], ...)
      are written out after CPython;
    - a result [dict] is an association list in the order of its literal;
      the registry [self.connections] is a finite map;
    - the clock readings that [_read_until_quiet] and the token bucket of
      the console compare are Python floats: they are binary64 numbers
      here too, with the subtraction, product and comparisons of the
      machine; the times kept in a session are integers, in milliseconds;
    - the SSH library, the devices, the clock and the file system are an
      interface ([Outside]); what the program does to them is kept in a
      trace of events;
    - [print] calls are left out.

    Part I holds the model, Part II the lemmas about it and the
    properties stated in the specification, Part III further properties
    of the code. *)

From Stdlib Require Import NArith ZArith QArith Lqa Lia Ascii String List Floats.
From stdpp Require Import gmap list pretty.
Close Scope Q_scope.
Close Scope string_scope.
Local Open Scope N_scope.
#[local] Set Warnings "-inexact-float".

(* ===================================================================== *)
(** * Part I: the model                                                    *)
(* ===================================================================== *)

(** ** Python text

    A Python [str] is a sequence of Unicode code points; the text read
    from the shell is decoded UTF-8, so a character is a code point
    ([N]) and a text a list of them. *)

Definition char : Type := N.
Definition str : Type := list char.

(** A literal of the source, written as a Rocq string. *)
Definition py (s : String.string) : str :=
  map N_of_ascii (String.list_ascii_of_string s).

Definition LF : char := 10.
Definition CR : char := 13.

(** [str.isspace] of one character (CPython's [_PyUnicode_IsWhitespace]). *)
Definition is_space (c : char) : bool :=
  ((9 <=? c) && (c <=? 13)) || ((28 <=? c) && (c <=? 31)) || (c =? 32)
  || (c =? 133) || (c =? 160) || (c =? 5760)
  || ((8192 <=? c) && (c <=? 8202)) || (c =? 8232) || (c =? 8233)
  || (c =? 8239) || (c =? 8287) || (c =? 12288).

(** The line boundaries of [str.splitlines] (CPython's
    [_PyUnicode_IsLinebreak]): LF, VT, FF, CR, FS, GS, RS, NEL, LS, PS. *)
Definition is_linebreak (c : char) : bool :=
  ((10 <=? c) && (c <=? 13)) || ((28 <=? c) && (c <=? 30))
  || (c =? 133) || (c =? 8232) || (c =? 8233).

(** [a == b] on texts. *)
Fixpoint str_eqb (a b : str) : bool :=
  match a, b with
  | [], [] => true
  | x :: a', y :: b' => (x =? y) && str_eqb a' b'
  | _, _ => false
  end.

(** [s.startswith(p)]. *)
Fixpoint startswith (s p : str) : bool :=
  match p, s with
  | [], _ => true
  | x :: p', y :: s' => (x =? y) && startswith s' p'
  | _ :: _, [] => false
  end.

(** [s.endswith(p)]. *)
Definition endswith (s p : str) : bool := startswith (rev s) (rev p).

(** [sub in s]. *)
Fixpoint contains (sub s : str) : bool :=
  startswith s sub ||
  match s with
  | [] => false
  | _ :: s' => contains sub s'
  end.

(** [s.lstrip(chars)] and [s.rstrip(chars)], the set of characters given
    as a predicate. *)
Fixpoint lstrip_with (p : char -> bool) (s : str) : str :=
  match s with
  | [] => []
  | c :: s' => if p c then lstrip_with p s' else s
  end.

Fixpoint rstrip_with (p : char -> bool) (s : str) : str :=
  match s with
  | [] => []
  | c :: s' =>
      match rstrip_with p s' with
      | [] => if p c then [] else [c]
      | r => c :: r
      end
  end.

(** [s.strip()]: white space removed at both ends. *)
Definition strip (s : str) : str := lstrip_with is_space (rstrip_with is_space s).

(** [s.rstrip('\r')]. *)
Definition rstrip_cr (s : str) : str := rstrip_with (N.eqb CR) s.

(** [s[1:]]. *)
Definition slice_from_1 (s : str) : str := tl s.

(** [s[:n]]. *)
Definition slice_to (n : nat) (s : str) : str := firstn n s.

(** [sep.join(parts)]. *)
Fixpoint join (sep : str) (parts : list str) : str :=
  match parts with
  | [] => []
  | [p] => p
  | p :: rest => p ++ sep ++ join sep rest
  end.

(** [s.splitlines()]: the lines of [s] without their boundaries; CR LF is
    one boundary, and a boundary at the very end opens no further line. *)
Fixpoint splitlines_from (cur : str) (s : str) : list str :=
  match s with
  | [] => match cur with [] => [] | _ => [rev cur] end
  | c :: rest =>
      if is_linebreak c then
        rev cur ::
        match rest with
        | c2 :: rest2 =>
            if (c =? CR) && (c2 =? LF) then splitlines_from [] rest2
            else splitlines_from [] rest
        | [] => []
        end
      else splitlines_from (c :: cur) rest
  end.

Definition splitlines (s : str) : list str := splitlines_from [] s.

(** [any(k in s for k in keys)]. *)
Definition any_in (keys : list str) (s : str) : bool :=
  existsb (fun k => contains k s) keys.

(** ** Output cleaning of [RouterConnection.send_command] *)

(** [RouterConnection._looks_like_prompt]. *)
Definition _looks_like_prompt (line : str) : bool :=
  let line := strip line in
  match line with
  | [] => false
  | _ => endswith line (py "#") || endswith line (py ">")
  end.

(** The echo test of the cleaning loop:
    [li == command_clean or li.endswith(command_clean) or
     command_clean in li or command_clean[1:] in li]. *)
Definition is_echo (command_clean li : str) : bool :=
  str_eqb li command_clean || endswith li command_clean
  || contains command_clean li || contains (slice_from_1 command_clean) li.

(** The state of the cleaning loop: the lines kept so far (in order), the
    flag [seen_echo] and the prompt cache [self.prompt]. *)
Record clean_state := CleanState {
  cleaned : list str;
  seen_echo : bool;
  prompt_cache : option str
}.

(** One turn of [for line in raw_output.splitlines()]. *)
Definition clean_step (command_clean : str) (st : clean_state) (line : str)
  : clean_state :=
  let li := strip (rstrip_cr line) in
  match li with
  | [] => st                                              (* continue *)
  | _ =>
      if negb (seen_echo st) && is_echo command_clean li then
        CleanState (cleaned st) true (prompt_cache st)    (* continue *)
      else if _looks_like_prompt li then
        CleanState (cleaned st) (seen_echo st)
          (match prompt_cache st with None => Some li | Some p => Some p end)
      else
        CleanState (cleaned st ++ [li]) (seen_echo st) (prompt_cache st)
  end.

(** The whole cleaning step (lines 283-299): from the command as given,
    the raw text and the prompt cache to the [output] and the new cache. *)
Definition clean_output (command raw_output : str) (prompt : option str)
  : str * option str :=
  let command_clean := strip command in
  let st := fold_left (clean_step command_clean) (splitlines raw_output)
              (CleanState [] false prompt) in
  (strip (join [LF] (cleaned st)), prompt_cache st).

(** ** Captured texts

    The shape of a captured text that the cleaning properties speak of:
    lines, each closed by a line terminator, and a last line (the prompt)
    that is not closed. *)

(** No line boundary inside a line. *)
Definition no_linebreak (s : str) : bool :=
  forallb (fun c => negb (is_linebreak c)) s.

(** [not li] for [li = line.strip()]. *)
Definition blank (s : str) : bool :=
  match strip s with [] => true | _ => false end.

(** The line terminators a device sends: LF or CR LF. *)
Definition is_eol (eol : str) : bool :=
  match eol with
  | [a] => a =? LF
  | [a; b] => (a =? CR) && (b =? LF)
  | _ => false
  end.

Definition captured (eol : str) (lines : list str) (last : str) : str :=
  concat (map (fun l => l ++ eol) lines) ++ last.

(** A text is trimmed when it is not empty and neither starts nor ends
    with white space. *)
Definition trimmed (s : str) : Prop :=
  (exists c t, s = c :: t /\ is_space c = false) /\
  (exists t c, s = t ++ [c] /\ is_space c = false).

(** A line of genuine output: one line, not blank, not taken for a prompt. *)
Definition genuine_line (o : str) : bool :=
  no_linebreak o && negb (blank o) && negb (_looks_like_prompt o).

(** ** Device detection: [RouterConnection._detect_device_type] *)

(** [str.upper] on ASCII text.  On other code points CPython applies the
    Unicode case tables; the detection lemmas below do not depend on what
    [upper] does, so they take it as a variable, and only the examples
    use this function. *)
Definition ascii_upper (s : str) : str :=
  map (fun c => if (97 <=? c) && (c <=? 122) then c - 32 else c) s.

Definition ios_xe_keywords : list str :=
  map py ["IOS XE"; "IOS-XE"; "IOSXE"; "CATALYST L3 SWITCH";
          "CAT9K"; "CAT3K"; "C9300"; "C9200"; "C9400"; "C9500";
          "C3850"; "C3650"; "CSR1000V"; "ISR4"; "ASR1000";
          "CISCO NEXUS"; "NX-OS"]%string.

Definition ios_keywords : list str :=
  map py ["CISCO IOS"; "IOS SOFTWARE"; "INTERNETWORK OPERATING SYSTEM";
          "C2960"; "C3560"; "C2950"; "C1900"; "C2900"; "C800"; "C1800";
          "CISCO ROUTER"; "CISCO SWITCH"]%string.

Definition prompt_chars : list str := map py ["#"; ">"]%string.

Section Detection.
Variable upper : str -> str.

(** The [if any(prompt in version_output ...)] block (lines 139-171):
    [Some d] when it returns with [device_type = d], [None] when
    control falls through to the other vendors. *)
Definition detect_cisco (version_output : str) : option str :=
  let version_upper := upper version_output in
  if any_in prompt_chars version_output then
    if any_in ios_xe_keywords version_upper then Some (py "cisco_ios_xe")
    else if any_in ios_keywords version_upper then Some (py "cisco_ios")
    else if contains (py "CISCO") version_upper
            && (contains (py "SOFTWARE") version_upper
                || contains (py "VERSION") version_upper)
         then Some (py "cisco_ios_xe")
    else None
  else None.

(** Lines 136-186: the device type chosen for a response text. *)
Definition detect_from_output (version_output : str) : str :=
  let version_upper := upper version_output in
  match detect_cisco version_output with
  | Some d => d
  | None =>
      if contains (py "MIKROTIK") version_upper
         || contains (py "] >") version_output then py "mikrotik"
      else if any_in (map py ["HUAWEI"; "VRP"; "QUIDWAY"]%string) version_upper
           then py "huawei"
      else if any_in (map py ["JUNIPER"; "JUNOS"]%string) version_upper
           then py "juniper"
      else if any_in prompt_chars version_output then py "cisco_ios_xe"
      else py "generic"
  end.

(** The decision of [_detect_device_type]: the response is the text
    gathered by the read loop (lines 120-131), or nothing when sending or
    reading raised; the handler (lines 188-191) then settles on
    [cisco_ios_xe]. *)
Definition _detect_device_type (response : option str) : str :=
  match response with
  | Some version_output => detect_from_output version_output
  | None => py "cisco_ios_xe"
  end.
End Detection.

(** ** Backup download: [download_backup_file] *)

(** The two guards at the head of the endpoint (lines 814-817). *)
Definition has_traversal (filename : str) : bool :=
  contains (py "/") filename || contains (py "..") filename
  || contains [92] filename.                               (* backslash *)

Definition has_backup_shape (filename : str) : bool :=
  endswith filename (py ".txt") && contains (py "_config_") filename.

Definition filename_accepted (filename : str) : bool :=
  negb (has_traversal filename) && has_backup_shape filename.

(** What the logs directory answers for a name: whether the resolved path
    still lies in the directory, and the file's content when it exists;
    [None] when looking raises. *)
Record dir_answer := DirAnswer {
  resolved_inside : bool;
  file_content : option str
}.

Inductive http_response :=
| HTTPError (status : N) (detail : str)
| FileResponse (filename : str) (content : str).

Definition download_backup_file (logs_dir : str -> option dir_answer)
    (filename : str) : http_response :=
  if has_traversal filename then HTTPError 400 (py "Invalid filename")
  else if negb (has_backup_shape filename)
       then HTTPError 400 (py "Unsupported file pattern")
  else
    match logs_dir filename with
    | None => HTTPError 500 (py "error")
    | Some a =>
        if negb (resolved_inside a)
        then HTTPError 400 (py "Path traversal detected")
        else match file_content a with
             | None => HTTPError 404 (py "File not found")
             | Some c => FileResponse filename c
             end
    end.

(** The name [backup_config] gives a backup (lines 639-640):
    [f"{router_name}_config_{timestamp}.txt"] with the timestamp written
    by [strftime("%Y%m%d_%H%M%S")]: eight digits, [_], six digits. *)
Definition is_digit (c : char) : bool := (48 <=? c) && (c <=? 57).

Definition is_timestamp (ts : str) : bool :=
  (length ts =? 15)%nat
  && forallb is_digit (firstn 8 ts)
  && str_eqb (firstn 1 (skipn 8 ts)) (py "_")
  && forallb is_digit (skipn 9 ts).

Definition backup_filename (router_name ts : str) : str :=
  router_name ++ py "_config_" ++ ts ++ py ".txt".

(** ** Console bridge: the token bucket of [websocket_ssh_console] *)

(** The three notices of the receive loop and those of its two handlers
    (lines 763 and 767). *)
Definition ws_warn_rate : str :=
  py "[WARN] Rate limit exceeded, input dropped" ++ [LF].
Definition ws_warn_large : str :=
  py "[WARN] Input too large, truncated." ++ [LF].
Definition ws_info_detach : str :=
  py "[INFO] Detaching console..." ++ [LF].
Definition ws_send_failed (e : str) : str :=
  py "[ERROR] send failed: " ++ e ++ [LF].
Definition ws_error (e : str) : str :=
  [LF] ++ py "[ERROR] " ++ e ++ [LF].

(** What the receive loop does with a message: a call of
    [websocket.send_text], with the text for the operator, or a call of
    [shell.send], with the message for the shell. *)
Inductive ws_event :=
| ToClient (text : str)
| ToShell (msg : str).

(** *** The bucket in exact arithmetic

    The closure variables [available] and [last_refill] and the function
    [take_tokens] over the rationals, for the bounds of the bucket that
    do not depend on how the machine rounds.  The bucket as the
    interpreter computes it is [Binary64.take_tokens] below. *)

(** The bucket's two constants (lines 711-712). *)
Definition bucket_capacity : Q := 4096%Q.
Definition refill_rate : Q := 1024%Q.

Record bucket := Bucket {
  available : Q;
  last_refill : Q
}.

(** [a < b] and [min(a, b)] on these numbers. *)
Definition Qlt_bool (a b : Q) : bool := negb (Qle_bool b a).
Definition py_min (a b : Q) : Q := if Qlt_bool b a then b else a.

Section TokenBucket.
(** The endpoint fixes both at [bucket_capacity] and [refill_rate];
    they are variables here so that other settings can be examined. *)
Variables (capacity rate : Q).

(** [take_tokens(n)], with the clock reading [now] of [time.time()]. *)
Definition take_tokens (now : Q) (n : nat) (b : bucket) : bool * bucket :=
  let elapsed := (now - last_refill b)%Q in
  let b1 :=
    if Qlt_bool 0 elapsed
    then Bucket (py_min capacity (available b + elapsed * rate)%Q) now
    else b in
  if Qle_bool (inject_Z (Z.of_nat n)) (available b1)
  then (true, Bucket (available b1 - inject_Z (Z.of_nat n))%Q (last_refill b1))
  else (false, b1).
End TokenBucket.

(** *** The bucket and the receive loop as the interpreter runs them

    [time.time()] returns a float and [elapsed * refill_rate] is one, so
    [available] and [last_refill] are binary64 numbers (the integers
    4096, 1024 and [len(msg)] that meet them are converted exactly). *)

(** A failure of the web socket: [WebSocketDisconnect], or another
    exception with its text. *)
Inductive ws_failure :=
| Disconnected
| Failed (text : str).

(** A message of the operator as the loop meets it: the text that
    [receive_text()] returned, the reading of [time.time()] in
    [take_tokens], what [shell.send] raises for it if it is called and
    raises (the text of the exception), and what the calls of
    [websocket.send_text] made for it raise, by their number. *)
Record arrival := Arrival {
  message : str;
  at_time : float;
  send_error : option str;
  notice_error : nat -> option ws_failure
}.

Module Binary64.

(** An [int] met by a float: [len(msg)]. *)
Definition of_nat (n : nat) : float :=
  PrimFloat.of_uint63 (Uint63.of_Z (Z.of_nat n)).

(** The bucket's two constants (lines 711-712). *)
Definition bucket_capacity : float := 4096.
Definition refill_rate : float := 1024.

(** The closure variables [available] and [last_refill]. *)
Record bucket := Bucket {
  available : float;
  last_refill : float
}.

(** [min(a, b)]. *)
Definition py_min (a b : float) : float := if (b <? a)%float then b else a.

Section TokenBucket.
(** The endpoint fixes both at [bucket_capacity] and [refill_rate];
    they are variables here so that other settings can be examined. *)
Variables (capacity rate : float).

(** [take_tokens(n)], with the clock reading [now] of [time.time()]
    (lines 716-726). *)
Definition take_tokens (now : float) (n : nat) (b : bucket) : bool * bucket :=
  let elapsed := (now - last_refill b)%float in
  let b1 :=
    if (0 <? elapsed)%float
    then Bucket (py_min capacity (available b + elapsed * rate)%float) now
    else b in
  if (of_nat n <=? available b1)%float
  then (true, Bucket (available b1 - of_nat n)%float (last_refill b1))
  else (false, b1).

(** The handlers that end the loop (lines 764-770): a disconnect is
    passed over; another exception is reported to the operator, and what
    that report raises is dropped. *)
Definition on_failure (f : ws_failure) : list ws_event :=
  match f with
  | Disconnected => []
  | Failed e => [ToClient (ws_error e)]
  end.

(** [await websocket.send_text(notice)], the [i]-th for the message [a],
    and [next] when it went through. *)
Definition notify (a : arrival) (i : nat) (notice : str)
    (next : list ws_event) : list ws_event :=
  ToClient notice ::
  match notice_error a i with
  | Some f => on_failure f
  | None => next
  end.

(** The receive loop with its handlers (lines 745-770) over the messages
    that arrive; [ending] is what [receive_text()] raises after the last
    of them. *)
Fixpoint console_loop (msgs : list arrival) (ending : ws_failure) (b : bucket)
  : list ws_event :=
  match msgs with
  | [] => on_failure ending
  | a :: rest =>
      let msg := message a in
      let (ok, b') := take_tokens (at_time a) (length msg) b in
      if negb ok then notify a 0 ws_warn_rate (console_loop rest ending b')
      else if str_eqb (strip msg) (py "/exit") || str_eqb (strip msg) (py "exit")
      then notify a 0 ws_info_detach []
      else
        let large := (2000 <? length msg)%nat in
        let sent :=
          ToShell (if large then slice_to 2000 msg else msg) ::
          match send_error a with
          | Some e =>
              notify a (if large then 1 else 0) (ws_send_failed e)
                (console_loop rest ending b')
          | None => console_loop rest ending b'
          end in
        if large then notify a 0 ws_warn_large sent else sent
  end.
End TokenBucket.

End Binary64.

(** What the receive loop may do for the messages [msgs]: hand to the
    shell one of them, cut to its first 2000 characters, or send the
    operator one of its notices. *)
Definition console_event (msgs : list arrival) (ev : ws_event) : Prop :=
  match ev with
  | ToShell m =>
      (length m <= 2000)%nat /\
      exists a, In a msgs /\ m = slice_to 2000 (message a)
  | ToClient t =>
      t = ws_warn_rate \/ t = ws_warn_large \/ t = ws_info_detach \/
      (exists e, t = ws_send_failed e) \/ (exists e, t = ws_error e)
  end.

(** Nothing follows the notice of detaching but, when sending it failed,
    the report of that failure. *)
Definition ends_at_detach (evs : list ws_event) : Prop :=
  forall before after,
    evs = before ++ ToClient ws_info_detach :: after ->
    after = [] \/ exists e, after = [ToClient (ws_error e)].

(** The bridge as the endpoint runs it: a full bucket at the time [t0]
    the connection is accepted. *)
Definition websocket_ssh_console (t0 : float) (msgs : list arrival)
    (ending : ws_failure) : list ws_event :=
  Binary64.console_loop Binary64.bucket_capacity Binary64.refill_rate msgs ending
    (Binary64.Bucket Binary64.bucket_capacity t0).


(** ** Quiet-period reader: [RouterConnection._read_until_quiet]

    The reader compares readings of [time.time()], which are floats: they
    are binary64 numbers here, subtracted and compared as the machine
    does.  The clock is seen through its readings: [clock i] is what the
    [i]-th call of [time.time()] made by the reader returns; the time
    that polls and [time.sleep(0.05)] take shows in the later readings
    only.  The shell is seen through its polls: what the [k]-th turn of
    the loop finds. *)

Inductive poll :=
| NotReady                      (* recv_ready() is False *)
| Chunk (text : str)            (* recv_ready() is True; recv(4096), decoded *)
| Broken (error : str).         (* recv_ready() or recv() raises *)

Inductive outcome :=
| Returned (data : str)
| Raised (error : str).

Record read_result := ReadResult {
  read_outcome : outcome;
  left_at : nat                 (* the turn of the loop at which the call is left *)
}.

(** The [while True] loop (lines 227-236), at its [k]-th turn, with
    [fuel] turns allowed; [c] readings of the clock have been made. *)
Fixpoint read_loop (fuel : nat) (shell : nat -> poll) (clock : nat -> float)
    (quiet_time max_total : float) (k c : nat) (data : str) (start last : float)
  : option read_result :=
  match fuel with
  | O => None
  | S fuel' =>
      match shell k with
      | Broken e => Some (ReadResult (Raised e) k)
      | p =>
          let data := match p with Chunk chunk => data ++ chunk | _ => data end in
          let last := match p with Chunk _ => clock c | _ => last end in
          let c := match p with Chunk _ => S c | _ => c end in
          if (quiet_time <=? clock c - last)%float
          then Some (ReadResult (Returned data) k)
          else if (max_total <=? clock (S c) - start)%float
          then Some (ReadResult (Returned data) k)
          else read_loop fuel' shell clock quiet_time max_total (S k) (S (S c))
                 data start last
      end
  end.

(** [_read_until_quiet(quiet_time, max_total)]: [start] and [last] are
    the first two readings of the clock. *)
Definition _read_until_quiet (shell : nat -> poll) (clock : nat -> float)
    (quiet_time max_total : float) (fuel : nat) : option read_result :=
  read_loop fuel shell clock quiet_time max_total 0 2 []
    (clock 0%nat) (clock 1%nat).

(** The text received in the first [k] polls. *)
Definition chunk_text (p : poll) : str :=
  match p with Chunk chunk => chunk | _ => [] end.

Fixpoint received (shell : nat -> poll) (k : nat) : str :=
  match k with
  | O => []
  | S k' => received shell k' ++ chunk_text (shell k')
  end.

Definition is_broken (p : poll) : bool :=
  match p with Broken _ => true | _ => false end.

Definition is_chunk (p : poll) : bool :=
  match p with Chunk _ => true | _ => false end.

(** The readings of the clock made before turn [k] begins: two before
    the loop, and in each turn one for each test and one more when a
    chunk came. *)
Fixpoint readings_before (shell : nat -> poll) (k : nat) : nat :=
  match k with
  | O => 2
  | S k' => (readings_before shell k' + (if is_chunk (shell k') then 3 else 2))%nat
  end.

(** The numbers of the readings that the two tests of turn [k] use. *)
Definition quiet_reading (shell : nat -> poll) (k : nat) : nat :=
  (readings_before shell k + (if is_chunk (shell k) then 1 else 0))%nat.

Definition deadline_reading (shell : nat -> poll) (k : nat) : nat :=
  S (quiet_reading shell k).

(** The value of [last] when turn [k] begins: the reading made at the
    latest chunk before, or the second reading when there was none. *)
Fixpoint last_before (shell : nat -> poll) (clock : nat -> float) (k : nat)
  : float :=
  match k with
  | O => clock 1%nat
  | S k' => if is_chunk (shell k') then clock (readings_before shell k')
            else last_before shell clock k'
  end.

(** The two tests of turn [k] (lines 232-235) as the code computes
    them, and whether the loop is left there. *)
Definition quiet_test (shell : nat -> poll) (clock : nat -> float)
    (quiet_time : float) (k : nat) : bool :=
  (quiet_time <=? clock (quiet_reading shell k) - last_before shell clock (S k))%float.

Definition deadline_test (shell : nat -> poll) (clock : nat -> float)
    (max_total : float) (k : nat) : bool :=
  (max_total <=? clock (deadline_reading shell k) - clock 0%nat)%float.

Definition leaves_at (shell : nat -> poll) (clock : nat -> float)
    (quiet_time max_total : float) (k : nat) : bool :=
  quiet_test shell clock quiet_time k || deadline_test shell clock max_total k.

(** A clock to run the reader on: the call is entered at [t0]
    milliseconds, a turn of the loop takes just the 50 ms of its sleep,
    and all the readings of a turn are the same. *)
Definition turn_of (shell : nat -> poll) (i : nat) : nat :=
  length (List.filter (fun k => readings_before shell (S k) <=? i)%nat (seq 0 i)).

Definition ms_clock (t0 : Z) (shell : nat -> poll) (i : nat) : float :=
  (PrimFloat.of_uint63 (Uint63.of_Z (t0 + 50 * Z.of_nat (turn_of shell i))) / 1000)%float.


(** ** Python values and results

    The results of the session layer are [dict]s with text keys.  A dict
    literal is an association list in the order it is written. *)

#[local] Set Warnings "-register-all".
Inductive pyval :=
| VBool (b : bool)
| VStr (s : str)
| VDict (d : list (str * pyval)).
#[local] Set Warnings "register-all".

Definition pydict : Type := list (str * pyval).

(** [d.get(k)]; [table[k]] when the key is there. *)
Fixpoint assoc {V : Type} (k : str) (d : list (str * V)) : option V :=
  match d with
  | [] => None
  | (k', v) :: d' => if str_eqb k k' then Some v else assoc k d'
  end.

(** [k in d]. *)
Definition has_key {V : Type} (k : str) (d : list (str * V)) : bool :=
  match assoc k d with Some _ => true | None => false end.

(** The truth of [result["success"]]. *)
Definition succeeded (result : pydict) : bool :=
  match assoc (py "success") result with
  | Some (VBool true) => true
  | _ => false
  end.

(** Decimal text of an integer: [str(n)] and [{n}] in an f-string. *)
Definition Z_to_str (n : Z) : str := py (pretty n).

(** ** Exceptions *)

Inductive exc :=
| AuthenticationException (msg : str)     (* paramiko.AuthenticationException *)
| SSHException (msg : str)                (* paramiko.SSHException *)
| SocketTimeout (msg : str)               (* socket.timeout *)
| RuntimeError (msg : str)
| KeyError (key : str)
| OtherException (msg : str).

(** [str(e)]. *)
Definition exc_str (e : exc) : str :=
  match e with
  | AuthenticationException m | SSHException m | SocketTimeout m
  | RuntimeError m | OtherException m => m
  | KeyError k => py "'" ++ k ++ py "'"
  end.

(** ** The outside of the process

    The SSH library, the devices behind it, the clock and the file
    system are not part of the program.  They are taken as an interface:
    a state [Env] of the outside and what each call into it answers.
    Times are in milliseconds. *)

(** The places where [RouterConnection] reads from its shell. *)
Inductive read_kind :=
| InitialRecv                         (* connect: time.sleep(2); shell.recv(4096) *)
| DrainReady                          (* _detect_device_type: while recv_ready(): recv *)
| DetectRead                          (* _detect_device_type: sleep(5) and the attempts loop *)
| PromptRead                          (* _detect_prompt: sleep(0.3) and the recv_ready loop *)
| QuietRead (quiet_time max_total : Z). (* _read_until_quiet *)

Record Outside := {
  Env : Type;
  (** [time.time()] and the clock of [datetime.now()]. *)
  time_time : Env -> Z;
  (** [datetime.now().isoformat()] and [.strftime("%Y%m%d_%H%M%S")]. *)
  isoformat : Z -> str;
  strftime : Z -> str;
  (** [ssh_client.connect(hostname, username, password, port, timeout)]. *)
  ssh_connect : str -> str -> str -> Z -> Z -> Env -> option exc * Env;
  (** [ssh_client.invoke_shell()]. *)
  invoke_shell : str -> Env -> option exc * Env;
  (** [get_transport()] is there and [is_active()]. *)
  transport_active : str -> Env -> bool;
  (** [shell.send(payload)]. *)
  shell_send : str -> str -> Env -> option exc * Env;
  (** A read from the shell, when it comes back: the decoded text, or the
      exception raised. *)
  shell_read : str -> read_kind -> Env -> (str + exc) * Env;
  (** [open(path, "w")] refused. *)
  open_refused : str -> Env -> option exc;
  (** Writing the text to the file that was opened at the path, or
      closing it, fails: the exception, and what the file is left
      holding. *)
  write_fails : str -> str -> Env -> option (exc * str)
}.

(** What the program does to the outside, in order. *)
Inductive event :=
| Connect (host : str) (port : Z) (username : str)
| Send (host : str) (payload : str)
| CloseShell (host : str)
| CloseClient (host : str).

(** ** [RouterConnection] *)

Record RouterConnection := mkRouter {
  host : str;
  username : str;
  password : str;
  port : Z;
  ssh_client : bool;               (* [self.ssh_client] is not [None] *)
  shell : bool;                    (* [self.shell] is not [None] *)
  connected : bool;
  device_type : str;
  prompt : option str;
  last_activity : option Z
}.

(** [self.keepalive_interval = 30], in milliseconds. *)
Definition keepalive_interval : Z := 30000.

(** [RouterConnection.__init__]. *)
Definition RouterConnection_init (host username password : str) (port : Z)
  : RouterConnection :=
  mkRouter host username password port false false false (py "unknown") None None.

Definition set_ssh_client (b : bool) (r : RouterConnection) :=
  mkRouter (host r) (username r) (password r) (port r) b (shell r)
    (connected r) (device_type r) (prompt r) (last_activity r).
Definition set_shell (b : bool) (r : RouterConnection) :=
  mkRouter (host r) (username r) (password r) (port r) (ssh_client r) b
    (connected r) (device_type r) (prompt r) (last_activity r).
Definition set_connected (b : bool) (r : RouterConnection) :=
  mkRouter (host r) (username r) (password r) (port r) (ssh_client r) (shell r)
    b (device_type r) (prompt r) (last_activity r).
Definition set_device_type (d : str) (r : RouterConnection) :=
  mkRouter (host r) (username r) (password r) (port r) (ssh_client r) (shell r)
    (connected r) d (prompt r) (last_activity r).
Definition set_prompt (p : option str) (r : RouterConnection) :=
  mkRouter (host r) (username r) (password r) (port r) (ssh_client r) (shell r)
    (connected r) (device_type r) p (last_activity r).
Definition set_last_activity (t : option Z) (r : RouterConnection) :=
  mkRouter (host r) (username r) (password r) (port r) (ssh_client r) (shell r)
    (connected r) (device_type r) (prompt r) t.

(** The prompt search of [_detect_prompt] over [reversed(buf.splitlines())]. *)
Fixpoint find_prompt (lines : list str) : option str :=
  match lines with
  | [] => None
  | line :: rest =>
      let line := strip line in
      match line with
      | [] => find_prompt rest
      | _ => if endswith line (py "#") || endswith line (py ">")
             then Some line else find_prompt rest
      end
  end.

(** [next((l for l in raw_output.splitlines() if l.strip()), "")]. *)
Fixpoint first_nonblank (lines : list str) : str :=
  match lines with
  | [] => []
  | l :: rest => match strip l with [] => first_nonblank rest | _ => l end
  end.

(** The echo-repair test of [send_command] (line 279). *)
Definition echo_lost_first_char (command_clean raw_output : str) : bool :=
  let first_line := first_nonblank (splitlines raw_output) in
  negb (contains command_clean first_line)
  && contains (slice_from_1 command_clean) first_line.

(** What [send_command] puts on the wire for a command. *)
Definition framed (command_clean : str) : str := [CR] ++ command_clean ++ [CR].

Section Session.
Context (O : Outside).

(** The outside as the program has left it, and what it did to it. *)
Record World := mkWorld {
  env : Env O;
  trace : list event;
  files : gmap str str
}.

Definition with_env (e : Env O) (w : World) : World :=
  mkWorld e (trace w) (files w).
Definition log (ev : event) (w : World) : World :=
  mkWorld (env w) (trace w ++ [ev]) (files w).
Definition write_file (path content : str) (w : World) : World :=
  mkWorld (env w) (trace w) (<[path := content]> (files w)).

Definition timestamp (w : World) : pyval :=
  VStr (isoformat O (time_time O (env w))).

(** [shell.send(payload)] on the shell of [self]. *)
Definition do_send (self : RouterConnection) (payload : str) (w : World)
  : option exc * World :=
  let w := log (Send (host self) payload) w in
  let (r, e) := shell_send O (host self) payload (env w) in
  (r, with_env e w).

Definition do_read (self : RouterConnection) (k : read_kind) (w : World)
  : (str + exc) * World :=
  let (r, e) := shell_read O (host self) k (env w) in
  (r, with_env e w).

(** The four handlers of [connect] (lines 72-95). *)
Definition connect_failure (self : RouterConnection) (e : exc) (w : World)
  : pydict :=
  let error :=
    match e with
    | AuthenticationException _ =>
        py "Authentication failed - check username/password"
    | SSHException m => py "SSH connection error: " ++ m
    | SocketTimeout _ =>
        py "Connection timeout to " ++ host self ++ py ":" ++ Z_to_str (port self)
    | _ => py "Connection failed: " ++ exc_str e
    end in
  [(py "success", VBool false); (py "error", VStr error);
   (py "timestamp", timestamp w)].

(** [_detect_device_type] as it runs on the shell: the drain, the
    [show version] it sends and the read of the answer, then the decision
    above; any exception ends in the handler's [cisco_ios_xe]. *)
Definition run_detect_device_type (upper : str -> str) (self : RouterConnection)
    (w : World) : RouterConnection * World :=
  let (r0, w) := do_read self DrainReady w in
  match r0 with
  | inr _ => (set_device_type (_detect_device_type upper None) self, w)
  | inl _ =>
      let (s, w) := do_send self (py "show version" ++ [LF]) w in
      match s with
      | Some _ => (set_device_type (_detect_device_type upper None) self, w)
      | None =>
          let (r, w) := do_read self DetectRead w in
          match r with
          | inr _ => (set_device_type (_detect_device_type upper None) self, w)
          | inl version_output =>
              (set_device_type (_detect_device_type upper (Some version_output)) self, w)
          end
      end
  end.

(** [_detect_prompt]. *)
Definition _detect_prompt (self : RouterConnection) (w : World)
  : RouterConnection * World :=
  let (s, w) := do_send self [CR] w in
  match s with
  | Some _ => (self, w)
  | None =>
      let (r, w) := do_read self PromptRead w in
      match r with
      | inr _ => (self, w)
      | inl buf =>
          match find_prompt (rev (splitlines buf)) with
          | Some line => (set_prompt (Some line) self, w)
          | None => (self, w)
          end
      end
  end.

(** [connect]. *)
Definition connect (upper : str -> str) (self : RouterConnection)
    (timeout : Z) (w : World) : pydict * RouterConnection * World :=
  let self := set_ssh_client true self in
  let w := log (Connect (host self) (port self) (username self)) w in
  let (c, e) := ssh_connect O (host self) (username self) (password self)
                  (port self) timeout (env w) in
  let w := with_env e w in
  match c with
  | Some ex => (connect_failure self ex w, self, w)
  | None =>
      let (i, e) := invoke_shell O (host self) (env w) in
      let w := with_env e w in
      match i with
      | Some ex => (connect_failure self ex w, self, w)
      | None =>
          let self := set_shell true self in
          let (r, w) := do_read self InitialRecv w in
          match r with
          | inr ex => (connect_failure self ex w, self, w)
          | inl _ =>
              let (self, w) := run_detect_device_type upper self w in
              let (self, w) := _detect_prompt self w in
              let self := set_connected true self in
              let self := set_last_activity (Some (time_time O (env w))) self in
              ([(py "success", VBool true);
                (py "message", VStr (py "Connected to " ++ host self));
                (py "device_type", VStr (device_type self));
                (py "timestamp", timestamp w)],
               self, w)
          end
      end
  end.

(** [disconnect]. *)
Definition disconnect (self : RouterConnection) (w : World)
  : RouterConnection * World :=
  let w := if shell self then log (CloseShell (host self)) w else w in
  let w := if ssh_client self then log (CloseClient (host self)) w else w in
  (set_connected false self, w).

(** [_ensure_connected]: the exception it raises, if any. *)
Definition _ensure_connected (self : RouterConnection) (w : World) : option exc :=
  if negb (connected self) || negb (ssh_client self)
  then Some (RuntimeError (py "SSH session not connected"))
  else if negb (transport_active O (host self) (env w))
  then Some (RuntimeError (py "SSH transport inactive"))
  else if negb (shell self)
  then Some (RuntimeError (py "SSH shell channel missing"))
  else None.

(** The handler of [send_command] (lines 313-322). *)
Definition send_failure (command : str) (e : exc) (w : World) : pydict :=
  [(py "success", VBool false); (py "error", VStr (exc_str e));
   (py "command", VStr command); (py "timestamp", timestamp w)].

(** The keepalive of [send_command] (lines 261-267); what it raises is
    dropped. *)
Definition idle_keepalive (self : RouterConnection) (w : World) : World :=
  let now := time_time O (env w) in
  let idle :=
    match last_activity self with
    | Some t => negb (t =? 0)%Z && (keepalive_interval <? now - t)%Z
    | None => false
    end in
  if idle then
    let (s, w) := do_send self [CR] w in
    match s with
    | Some _ => w
    | None => snd (do_read self (QuietRead 200 1000) w)
    end
  else w.

(** [send_command]. *)
Definition send_command (self : RouterConnection) (command : str)
    (wait_time : Z) (w : World) : pydict * RouterConnection * World :=
  if negb (connected self) || negb (shell self) then
    ([(py "success", VBool false);
      (py "error", VStr (py "Not connected to router"));
      (py "command", VStr command)], self, w)
  else
    match _ensure_connected self w with
    | Some ex => (send_failure command ex w, self, w)
    | None =>
        let command_clean := strip command in
        let w := idle_keepalive self w in
        let (fl, w) := do_read self (QuietRead 150 800) w in
        match fl with
        | inr ex => (send_failure command ex w, self, w)
        | inl _ =>
            let (s, w) := do_send self (framed command_clean) w in
            match s with
            | Some ex => (send_failure command ex w, self, w)
            | None =>
                let (r, w) :=
                  do_read self (QuietRead 500 (Z.max 3000 (1000 * wait_time))) w in
                match r with
                | inr ex => (send_failure command ex w, self, w)
                | inl raw_output =>
                    let retry :=
                      if echo_lost_first_char command_clean raw_output then
                        let (s2, w) := do_send self (framed command_clean) w in
                        match s2 with
                        | Some ex => (inr ex, w)
                        | None =>
                            let (r2, w) := do_read self (QuietRead 500 2000) w in
                            match r2 with
                            | inr ex => (inr ex, w)
                            | inl more => (inl (raw_output ++ more), w)
                            end
                        end
                      else (inl raw_output, w) in
                    let (rr, w) := retry in
                    match rr with
                    | inr ex => (send_failure command ex w, self, w)
                    | inl raw_output =>
                        let (output, p) :=
                          clean_output command raw_output (prompt self) in
                        let self := set_prompt p self in
                        let self :=
                          set_last_activity (Some (time_time O (env w))) self in
                        ([(py "success", VBool true);
                          (py "command", VStr command);
                          (py "output", VStr output);
                          (py "timestamp", timestamp w);
                          (py "device_type", VStr (device_type self))],
                         self, w)
                    end
                end
            end
        end
    end.
End Session.


(** ** [RouterManager] *)

(** [self.command_templates] (lines 378-466). *)
Definition command_templates : list (str * list (str * str)) :=
  [ (py "cisco_ios",
     [ (py "show_version", py "show version");
       (py "show_running", py "show running-config");
       (py "show_interfaces", py "show ip interface brief");
       (py "show_routes", py "show ip route");
       (py "show_arp", py "show arp");
       (py "show_mac", py "show mac address-table");
       (py "show_log", py "show logging");
       (py "show_inventory", py "show inventory");
       (py "show_processes", py "show processes cpu");
       (py "show_memory", py "show memory");
       (py "show_uptime", py "show version | include uptime") ]);
    (py "cisco_ios_xe",
     [ (py "show_version", py "show version");
       (py "show_running", py "show running-config");
       (py "show_interfaces", py "show ip interface brief");
       (py "show_routes", py "show ip route");
       (py "show_arp", py "show arp");
       (py "show_mac", py "show mac address-table");
       (py "show_log", py "show logging");
       (py "show_inventory", py "show inventory");
       (py "show_processes", py "show processes cpu sorted");
       (py "show_memory", py "show memory statistics");
       (py "show_platform", py "show platform");
       (py "show_environment", py "show environment all");
       (py "show_redundancy", py "show redundancy");
       (py "show_stackwise", py "show switch");
       (py "show_license", py "show license summary");
       (py "show_boot", py "show boot");
       (py "show_flash", py "show flash:");
       (py "show_interfaces_status", py "show interfaces status");
       (py "show_interfaces_description", py "show interfaces description");
       (py "show_vlan", py "show vlan brief");
       (py "show_spanning_tree", py "show spanning-tree summary");
       (py "show_cdp_neighbors", py "show cdp neighbors detail");
       (py "show_lldp_neighbors", py "show lldp neighbors detail");
       (py "show_etherchannel", py "show etherchannel summary");
       (py "show_hsrp", py "show standby brief");
       (py "show_vrf", py "show vrf");
       (py "show_bgp", py "show ip bgp summary");
       (py "show_ospf", py "show ip ospf neighbor");
       (py "show_eigrp", py "show ip eigrp neighbors");
       (py "show_nat", py "show ip nat translations");
       (py "show_access_lists", py "show access-lists");
       (py "show_route_map", py "show route-map");
       (py "show_policy_map", py "show policy-map");
       (py "show_qos", py "show policy-map interface");
       (py "show_crypto", py "show crypto session");
       (py "show_vpn", py "show crypto isakmp sa");
       (py "show_users", py "show users");
       (py "show_sessions", py "show sessions");
       (py "show_clock", py "show clock");
       (py "show_ntp", py "show ntp status") ]);
    (py "generic",
     [ (py "show_version", py "show version");
       (py "show_running", py "show running-config");
       (py "show_interfaces", py "show ip interface brief");
       (py "show_routes", py "show ip route");
       (py "show_arp", py "show arp");
       (py "show_mac", py "show mac address-table");
       (py "show_log", py "show logging");
       (py "show_inventory", py "show inventory");
       (py "show_processes", py "show processes cpu");
       (py "show_memory", py "show memory");
       (py "show_platform", py "show platform");
       (py "show_environment", py "show environment all") ]);
    (py "mikrotik",
     [ (py "show_version", py "/system resource print");
       (py "show_running", py "/export compact");
       (py "show_interfaces", py "/interface print");
       (py "show_routes", py "/ip route print");
       (py "show_arp", py "/ip arp print");
       (py "show_mac", py "/interface bridge host print");
       (py "show_log", py "/log print") ]);
    (py "huawei",
     [ (py "show_version", py "display version");
       (py "show_running", py "display current-configuration");
       (py "show_interfaces", py "display ip interface brief");
       (py "show_routes", py "display ip routing-table");
       (py "show_arp", py "display arp");
       (py "show_mac", py "display mac-address");
       (py "show_log", py "display logbuffer") ]) ].

(** [paging_cmds] of [_disable_paging] (lines 723-730). *)
Definition paging_cmds : list (str * str) :=
  [ (py "cisco_ios", py "terminal length 0");
    (py "cisco_ios_xe", py "terminal length 0");
    (py "generic", py "terminal length 0");
    (py "huawei", py "screen-length 0 temporary");
    (py "juniper", py "set cli screen-length 0") ].

(** The two results that the guards of the manager return. *)
Definition not_found (router_name : str) : pydict :=
  [(py "success", VBool false);
   (py "error", VStr (py "Router " ++ router_name ++ py " not found"))].

Definition unsupported (device_type : str) : pydict :=
  [(py "success", VBool false);
   (py "error", VStr (py "Unsupported device type: " ++ device_type))].

(** The result of the guard of [send_command] (lines 247-252). *)
Definition not_connected (command : str) : pydict :=
  [(py "success", VBool false);
   (py "error", VStr (py "Not connected to router"));
   (py "command", VStr command)].

(** The result of the handler of [backup_config] (lines 661-665). *)
Definition save_failed (e : exc) : pydict :=
  [(py "success", VBool false);
   (py "error", VStr (py "Failed to save backup: " ++ exc_str e))].

(** [self.connections]: the registered sessions by name.  A session is
    registered under one name only ([add_router] makes a new object each
    time), so a change to the object is a change of the entry. *)
Abbreviation Connections := (gmap str RouterConnection).

Section Manager.
Context (O : Outside) (upper : str -> str).

(** [_check_connection_alive]: the answer and the connection with its
    [connected] flag set to it. *)
Definition _check_connection_alive (connection : RouterConnection)
    (w : World O) : bool * RouterConnection :=
  if negb (ssh_client connection) then (false, set_connected false connection)
  else if negb (transport_active O (host connection) (env O w))
  then (false, set_connected false connection)
  else (true, set_connected true connection).

(** [add_router]; [device_type] is [None] or the text given. *)
Definition add_router (conns : Connections)
    (name host username password : str) (port : Z)
    (device_type_arg : option str) (w : World O)
  : pydict * Connections * World O :=
  let router := RouterConnection_init host username password port in
  let '(connection_result, router, w) := connect O upper router 30000 w in
  if succeeded connection_result then
    let router :=
      match device_type_arg with
      | Some ((_ :: _) as d) =>
          if has_key d command_templates then set_device_type d router
          else router
      | _ => router
      end in
    ([(py "success", VBool true);
      (py "message", VStr (py "Router " ++ name ++ py " added successfully"));
      (py "device_type", VStr (device_type router));
      (py "timestamp", timestamp O w)],
     <[name := router]> conns, w)
  else (connection_result, conns, w).

(** [remove_router]. *)
Definition remove_router (conns : Connections) (name : str) (w : World O)
  : pydict * Connections * World O :=
  match conns !! name with
  | Some router =>
      let (_, w) := disconnect O router w in
      ([(py "success", VBool true);
        (py "message", VStr (py "Router " ++ name ++ py " removed"))],
       delete name conns, w)
  | None => (not_found name, conns, w)
  end.

(** [execute_command]. *)
Definition execute_command (conns : Connections) (router_name command : str)
    (w : World O) : pydict * Connections * World O :=
  match conns !! router_name with
  | None => (not_found router_name, conns, w)
  | Some router =>
      if negb (connected router) then
        (* Try to reconnect *)
        let '(reconnect_result, router, w) := connect O upper router 30000 w in
        let conns := <[router_name := router]> conns in
        if negb (succeeded reconnect_result) then (reconnect_result, conns, w)
        else
          let '(result, router, w) := send_command O router command 2 w in
          (result, <[router_name := router]> conns, w)
      else
        let '(result, router, w) := send_command O router command 2 w in
        (result, <[router_name := router]> conns, w)
  end.

(** [_disable_paging]; [execute_command] raises nothing, so the handler
    of lines 736-737 is never entered. *)
Definition _disable_paging (conns : Connections)
    (router_name device_type : str) (w : World O) : Connections * World O :=
  match assoc device_type paging_cmds with
  | None | Some [] => (conns, w)
  | Some cmd =>
      let '(_, conns, w) := execute_command conns router_name cmd w in
      (conns, w)
  end.

(** [get_router_info]; [inr] is an exception that leaves the method. *)
Definition get_router_info (conns : Connections) (router_name : str)
    (w : World O) : (pydict + exc) * Connections * World O :=
  match conns !! router_name with
  | None => (inl (not_found router_name), conns, w)
  | Some router =>
      let device_type := device_type router in
      match assoc device_type command_templates with
      | Some commands =>
          let (conns, w) := _disable_paging conns router_name device_type w in
          match assoc (py "show_version") commands with
          | None => (inr (KeyError (py "show_version")), conns, w)
          | Some cmd_version =>
              let '(version_result, conns, w) :=
                execute_command conns router_name cmd_version w in
              match assoc (py "show_interfaces") commands with
              | None => (inr (KeyError (py "show_interfaces")), conns, w)
              | Some cmd_interfaces =>
                  let '(interfaces_result, conns, w) :=
                    execute_command conns router_name cmd_interfaces w in
                  (inl [(py "success", VBool true);
                        (py "router_name", VStr router_name);
                        (py "host", VStr (host router));
                        (py "device_type", VStr device_type);
                        (py "version_info", VDict version_result);
                        (py "interfaces_info", VDict interfaces_result);
                        (py "timestamp", timestamp O w)],
                   conns, w)
              end
          end
      | None => (inl (unsupported device_type), conns, w)
      end
  end.

(** The text written to a backup file (lines 645-651), up to the
    output. *)
Definition backup_header (router_name host device_type show_running_cmd : str)
    (w : World O) : str :=
  py "# Configuration backup for " ++ router_name ++ [LF]
  ++ py "# Host: " ++ host ++ [LF]
  ++ py "# Device Type: " ++ device_type ++ [LF]
  ++ py "# Backup Time: " ++ isoformat O (time_time O (env O w)) ++ [LF]
  ++ py "# Command: " ++ show_running_cmd ++ [LF]
  ++ repeat 61 50 ++ [LF; LF].

(** [backup_config].  The file is created when [open] goes through; a
    write that fails, or the closing of the file, leaves it with what
    had been written, and ends in the same handler as a refused
    [open]. *)
Definition backup_config (conns : Connections) (router_name : str)
    (w : World O) : (pydict + exc) * Connections * World O :=
  match conns !! router_name with
  | None => (inl (not_found router_name), conns, w)
  | Some router =>
      let device_type := device_type router in
      match assoc device_type command_templates with
      | Some commands =>
          match assoc (py "show_running") commands with
          | None => (inr (KeyError (py "show_running")), conns, w)
          | Some show_running_cmd =>
              let (conns, w) := _disable_paging conns router_name device_type w in
              let '(result, conns, w) :=
                execute_command conns router_name show_running_cmd w in
              if succeeded result then
                let ts := strftime O (time_time O (env O w)) in
                let filename := backup_filename router_name ts in
                let filepath := py "../logs/" ++ filename in
                match open_refused O filepath (env O w) with
                | Some e => (inl (save_failed e), conns, w)
                | None =>
                    let header :=
                      backup_header router_name (host router) device_type
                        show_running_cmd w in
                    match assoc (py "output") result with
                    | Some (VStr output) =>
                        match write_fails O filepath (header ++ output) (env O w) with
                        | Some (e, partial) =>
                            (inl (save_failed e), conns,
                             write_file O filepath partial w)
                        | None =>
                            let w := write_file O filepath (header ++ output) w in
                            (inl [(py "success", VBool true);
                                  (py "message",
                                   VStr (py "Configuration backed up successfully"));
                                  (py "filename", VStr filename);
                                  (py "filepath", VStr filepath);
                                  (py "router_name", VStr router_name);
                                  (py "timestamp", timestamp O w)],
                             conns, w)
                        end
                    | _ =>
                        match write_fails O filepath header (env O w) with
                        | Some (e, partial) =>
                            (inl (save_failed e), conns,
                             write_file O filepath partial w)
                        | None =>
                            (inl (save_failed (KeyError (py "output"))), conns,
                             write_file O filepath header w)
                        end
                    end
                end
              else (inl result, conns, w)
          end
      | None => (inl (unsupported device_type), conns, w)
      end
  end.

(** One [logs[key] = self.execute_command(router_name, commands[op])]. *)
Definition collect_log (commands : list (str * str)) (router_name key op : str)
    (st : (list (str * pyval) + exc) * Connections * World O)
  : (list (str * pyval) + exc) * Connections * World O :=
  let '(logs, conns, w) := st in
  match logs with
  | inr e => st
  | inl logs =>
      match assoc op commands with
      | None => (inr (KeyError op), conns, w)
      | Some cmd =>
          let '(result, conns, w) := execute_command conns router_name cmd w in
          (inl (logs ++ [(key, VDict result)]), conns, w)
      end
  end.

(** [get_logs]. *)
Definition get_logs (conns : Connections) (router_name log_type : str)
    (w : World O) : (pydict + exc) * Connections * World O :=
  match conns !! router_name with
  | None => (inl (not_found router_name), conns, w)
  | Some router =>
      let device_type := device_type router in
      match assoc device_type command_templates with
      | None => (inl (unsupported device_type), conns, w)
      | Some commands =>
          let (conns, w) := _disable_paging conns router_name device_type w in
          let st := (inl [], conns, w) in
          let all := str_eqb log_type (py "all") in
          let st :=
            if all || str_eqb log_type (py "system")
            then collect_log commands router_name (py "system") (py "show_log") st
            else st in
          let st :=
            if all || str_eqb log_type (py "interface")
            then collect_log commands router_name (py "interfaces")
                   (py "show_interfaces") st
            else st in
          let st :=
            if all || str_eqb log_type (py "routing")
            then collect_log commands router_name (py "arp") (py "show_arp")
                   (collect_log commands router_name (py "routes")
                      (py "show_routes") st)
            else st in
          let '(logs, conns, w) := st in
          match logs with
          | inr e => (inr e, conns, w)
          | inl logs =>
              (inl [(py "success", VBool true);
                    (py "router_name", VStr router_name);
                    (py "log_type", VStr log_type);
                    (py "logs", VDict logs);
                    (py "timestamp", timestamp O w)],
               conns, w)
          end
      end
  end.
End Manager.


(** ** A simulated device

    An outside to run the model on: a device that accepts every
    connection, answers [show version] with a banner, echoes each command
    and follows it with one line of output and its prompt.  [up] is
    whether its transport is active. *)

Record sim := mkSim {
  sim_clock : Z;
  sim_pending : str             (* text sent by the device, not yet read *)
}.

Definition sim_answer (banner payload : str) : str :=
  match strip payload with
  | [] => py "R1#"
  | command =>
      if str_eqb command (py "show version")
      then command ++ [CR; LF] ++ banner ++ [CR; LF] ++ py "R1#"
      else command ++ [CR; LF] ++ py "ok" ++ [CR; LF] ++ py "R1#"
  end.

Definition sim_device (banner : str) (up : bool) : Outside :=
  {| Env := sim;
     time_time := sim_clock;
     isoformat := Z_to_str;
     strftime := fun _ => py "20240101_000000";
     ssh_connect := fun _ _ _ _ _ e => (None, e);
     invoke_shell := fun _ e => (None, e);
     transport_active := fun _ _ => up;
     shell_send := fun _ payload e =>
       (None, mkSim (sim_clock e) (sim_pending e ++ sim_answer banner payload));
     shell_read := fun _ _ e =>
       (inl (sim_pending e), mkSim (sim_clock e + 1000) []);
     open_refused := fun _ _ => None;
     write_fails := fun _ _ _ => None |}.

Definition sim_world (banner : str) (up : bool) : World (sim_device banner up) :=
  mkWorld (sim_device banner up) (mkSim 0 []) [] ∅.

(** A session as [connect] leaves it, with the given device type. *)
Definition live_session (host device_type : str) : RouterConnection :=
  mkRouter host (py "admin") (py "secret") 22 true true true device_type
    (Some (py "R1#")) (Some 0%Z).


(** A registry with one session. *)
Definition one_session (name : str) (router : RouterConnection) : Connections :=
  {[ name := router ]}.

(** ** Reading a trace *)

Definition is_connect (ev : event) : bool :=
  match ev with Connect _ _ _ => true | _ => false end.

(** The connection attempts in a trace. *)
Definition count_connects (evs : list event) : nat :=
  length (List.filter is_connect evs).

(** What [send_command] sends for one command: the command framed by CR,
    after a keepalive CR when the session was idle ([ka]), and once more
    when the echo had lost its first character ([rt]). *)
Definition command_sends (h command : str) (ka rt : bool) : list event :=
  (if ka then [Send h [CR]] else [])
  ++ [Send h (framed (strip command))]
  ++ (if rt then [Send h (framed (strip command))] else []).

(** [issues h commands evs]: the events [evs] are what is sent to issue
    the [commands], one after the other, to host [h]. *)
Inductive issues (h : str) : list str -> list event -> Prop :=
| issues_nil : issues h [] []
| issues_cons (c : str) (cs : list str) (ka rt : bool) (evs : list event) :
    issues h cs evs -> issues h (c :: cs) (command_sends h c ka rt ++ evs).

(** The pagination command that [_disable_paging] has for a device type. *)
Definition paging_of (device_type : str) : list str :=
  match assoc device_type paging_cmds with
  | Some ((_ :: _) as cmd) => [cmd]
  | _ => []
  end.

(** Nothing but sends (and reads) between two worlds. *)
Definition sends_only (O : Outside) (w w' : World O) : Prop :=
  files O w' = files O w /\
  exists evs, trace O w' = trace O w ++ evs /\
              Forall (fun ev => is_connect ev = false) evs.

(** A registered session that can be used as it is. *)
Definition usable (conns : Connections) (name : str) (router : RouterConnection)
  : Prop :=
  conns !! name = Some router /\ connected router = true /\
  shell router = true /\ ssh_client router = true.

(** A session whose transport stays active and whose reads come back
    without an exception. *)
Definition healthy (O : Outside) (h : str) : Prop :=
  (forall e, transport_active O h e = true) /\
  (forall k e, exists s, fst (shell_read O h k e) = inl s).

(** Its sends do not raise either. *)
Definition sends_ok (O : Outside) (h : str) : Prop :=
  forall payload e, fst (shell_send O h payload e) = None.

(** A session whose reads come back without an exception, whatever its
    transport does. *)
Definition reads_come_back (O : Outside) (h : str) : Prop :=
  forall k e, exists s, fst (shell_read O h k e) = inl s.

(** ** Further notions used by the properties of Part III *)

(** The device types that [_detect_device_type] can settle on. *)
Definition detected_types : list str :=
  map py ["cisco_ios_xe"; "cisco_ios"; "mikrotik"; "huawei"; "juniper";
          "generic"]%string.

(** A cached prompt ([self.prompt]) that is [None] or a trimmed text
    ending in [#] or [>]. *)
Definition well_formed_prompt (p : option str) : Prop :=
  forall q, p = Some q -> trimmed q /\ _looks_like_prompt q = true.


(** ** [RouterConnection.send_config_commands]

    The result is a dict whose [commands] and [results] are lists; it is
    taken as a record.  The commands are a list, as the annotation of the
    method and the request model of its endpoint have it; the wrapping of
    a value that is not a list (lines 328-329) is left out. *)

Record config_result := ConfigResult {
  cfg_success : bool;
  cfg_commands : list str;
  cfg_results : list pydict;
  cfg_timestamp : pyval
}.

(** The command that enters configuration mode (lines 334-341); the
    empty text when the device type needs none. *)
Definition config_mode (device_type : str) : str :=
  if str_eqb device_type (py "cisco_ios") || str_eqb device_type (py "cisco_ios_xe")
  then py "configure terminal"
  else if str_eqb device_type (py "mikrotik") then []
  else if str_eqb device_type (py "huawei") then py "system-view"
  else py "configure terminal".

(** The command that leaves it (lines 354-359). *)
Definition exit_cmd (device_type : str) : str :=
  if str_eqb device_type (py "cisco_ios") || str_eqb device_type (py "cisco_ios_xe")
  then py "end"
  else if str_eqb device_type (py "huawei") then py "quit"
  else py "exit".

Section ConfigCommands.
Context (O : Outside).

(** [result = self.send_command(cmd); results.append(result)]. *)
Definition send_and_append (cmd : str)
    (st : list pydict * RouterConnection * World O)
  : list pydict * RouterConnection * World O :=
  let '(results, self, w) := st in
  let '(result, self, w) := send_command O self cmd 2 w in
  (results ++ [result], self, w).

(** [for cmd in commands: ...] (lines 349-351). *)
Definition send_each (commands : list str)
    (st : list pydict * RouterConnection * World O)
  : list pydict * RouterConnection * World O :=
  fold_left (fun st cmd => send_and_append cmd st) commands st.

Definition send_config_commands (self : RouterConnection)
    (commands : list str) (w : World O)
  : config_result * RouterConnection * World O :=
  let st := ([], self, w) in
  let config_mode := config_mode (device_type self) in
  let st :=
    match config_mode with
    | [] => st
    | _ => send_and_append config_mode st
    end in
  let st := send_each commands st in
  let exit_cmd := exit_cmd (device_type st.1.2) in
  let st :=
    match config_mode with
    | [] => st
    | _ => send_and_append exit_cmd st
    end in
  let '(results, self, w) := st in
  (ConfigResult true commands results (timestamp O w), self, w).
End ConfigCommands.

(** The commands that [send_config_commands] means to issue for a list
    of configuration commands, by device type. *)
Definition config_script (device_type : str) (commands : list str) : list str :=
  if str_eqb device_type (py "mikrotik") then commands
  else if str_eqb device_type (py "cisco_ios")
          || str_eqb device_type (py "cisco_ios_xe")
  then py "configure terminal" :: commands ++ [py "end"]
  else if str_eqb device_type (py "huawei")
  then py "system-view" :: commands ++ [py "quit"]
  else py "configure terminal" :: commands ++ [py "exit"].

(** The events that put text on a shell. *)
Definition is_send (ev : event) : bool :=
  match ev with Send _ _ => true | _ => false end.

(** ** [RouterManager.list_routers]

    The method returns a dict with [success], the list [routers] and
    [total]; it is taken as a record.  The order of the list is the order
    of the dict [self.connections], which the registry as a finite map
    does not keep: the list is given in the order of the map, and the
    properties below speak of its members and its length only. *)

Record router_entry := RouterEntry {
  entry_name : str;
  entry_host : str;
  entry_connected : bool;
  entry_device_type : str;
  entry_username : str;
  entry_port : Z
}.

Record routers_result := RoutersResult {
  lr_success : bool;
  lr_routers : list router_entry;
  lr_total : nat
}.

Section ListRouters.
Context (O : Outside).

(** [conn.connected and self._check_connection_alive(conn)]: the answer,
    and the connection as the check, when it is made, leaves it. *)
Definition is_connected (conn : RouterConnection) (w : World O)
  : bool * RouterConnection :=
  if connected conn then _check_connection_alive O conn w else (false, conn).

Definition list_routers (conns : Connections) (w : World O)
  : routers_result * Connections :=
  let routers :=
    map (fun item : str * RouterConnection =>
           let (name, conn) := item in
           RouterEntry name (host conn) (is_connected conn w).1
             (device_type conn) (username conn) (port conn))
        (map_to_list conns) in
  (RoutersResult true routers (length routers),
   (fun conn => (is_connected conn w).2) <$> conns).
End ListRouters.

(** The entries that [get_logs] collects for a log type (lines 700-708):
    the key under which each is stored in [logs] and the operation whose
    command is run for it, in the order in which they are collected. *)
Definition log_entries (log_type : str) : list (str * str) :=
  let all := str_eqb log_type (py "all") in
  (if all || str_eqb log_type (py "system")
   then [(py "system", py "show_log")] else [])
  ++ (if all || str_eqb log_type (py "interface")
      then [(py "interfaces", py "show_interfaces")] else [])
  ++ (if all || str_eqb log_type (py "routing")
      then [(py "routes", py "show_routes"); (py "arp", py "show_arp")]
      else []).

(** Two session objects for the same device and account. *)
Definition same_device (a b : RouterConnection) : Prop :=
  host a = host b /\ port a = port b /\ username a = username b /\
  password a = password b.

(** [conns'] differs from [conns] at most in the state of the session
    registered under [name]. *)
Definition only_session_changed (name : str) (conns conns' : Connections)
  : Prop :=
  (forall n, n <> name -> conns' !! n = conns !! n) /\
  match conns !! name with
  | Some r => exists r', conns' !! name = Some r' /\ same_device r' r
  | None => conns' !! name = None
  end.

(** A device that cannot be reached: every attempt to connect times
    out. *)
Definition unreachable_device : Outside :=
  {| Env := sim;
     time_time := sim_clock;
     isoformat := Z_to_str;
     strftime := fun _ => py "20240101_000000";
     ssh_connect := fun _ _ _ _ _ e => (Some (SocketTimeout (py "timed out")), e);
     invoke_shell := fun _ e => (None, e);
     transport_active := fun _ _ => false;
     shell_send := fun _ _ e => (None, e);
     shell_read := fun _ _ e => (inl [], e);
     open_refused := fun _ _ => None;
     write_fails := fun _ _ _ => None |}.


(** ** The exchange of [send_command] with the shell *)

Section Exchange.
Context (O : Outside).

(** What [send_command] does on the shell for a command (lines 269-282):
    it reads away what is pending, sends the command framed by CR and
    reads until the shell is quiet; when the echo in what it read has
    lost its first character, it sends the command once more and appends
    what it reads then.  The answer is the text read, or the exception
    that a read or a send raised. *)
Definition exchange (self : RouterConnection) (command_clean : str)
    (wait_time : Z) (w : World O) : (str + exc) * World O :=
  let (fl, w) := do_read O self (QuietRead 150 800) w in
  match fl with
  | inr ex => (inr ex, w)
  | inl _ =>
      let (s, w) := do_send O self (framed command_clean) w in
      match s with
      | Some ex => (inr ex, w)
      | None =>
          let (r, w) :=
            do_read O self (QuietRead 500 (Z.max 3000 (1000 * wait_time))) w in
          match r with
          | inr ex => (inr ex, w)
          | inl raw_output =>
              if echo_lost_first_char command_clean raw_output then
                let (s2, w) := do_send O self (framed command_clean) w in
                match s2 with
                | Some ex => (inr ex, w)
                | None =>
                    let (r2, w) := do_read O self (QuietRead 500 2000) w in
                    match r2 with
                    | inr ex => (inr ex, w)
                    | inl more => (inl (raw_output ++ more), w)
                    end
                end
              else (inl raw_output, w)
          end
      end
  end.

(** The result of a [send_command] that went through, for the text
    [raw_output] that the exchange gave (lines 283-312). *)
Definition command_result (self : RouterConnection) (command raw_output : str)
    (w : World O) : pydict :=
  [(py "success", VBool true);
   (py "command", VStr command);
   (py "output", VStr (clean_output command raw_output (prompt self)).1);
   (py "timestamp", timestamp O w);
   (py "device_type", VStr (device_type self))].

(** The session as that [send_command] leaves it. *)
Definition after_command (self : RouterConnection) (command raw_output : str)
    (w : World O) : RouterConnection :=
  set_last_activity (Some (time_time O (env O w)))
    (set_prompt (clean_output command raw_output (prompt self)).2 self).
End Exchange.

Section RunEach.
Context (O : Outside) (upper : str -> str).

(** Commands run one after the other by [execute_command], with their
    results in the order of the commands. *)
Fixpoint run_each (name : str) (cmds : list str) (conns : Connections)
    (w : World O) : list pydict * Connections * World O :=
  match cmds with
  | [] => ([], conns, w)
  | cmd :: rest =>
      let '(result, conns, w) := execute_command O upper conns name cmd w in
      let '(results, conns, w) := run_each name rest conns w in
      (result :: results, conns, w)
  end.
End RunEach.

(** A device whose transport has dropped and comes back with the next
    connection; otherwise as [sim_device]. *)
Definition recovering_device (banner : str) : Outside :=
  {| Env := sim * bool;
     time_time := fun e => sim_clock e.1;
     isoformat := Z_to_str;
     strftime := fun _ => py "20240101_000000";
     ssh_connect := fun _ _ _ _ _ e => (None, (e.1, true));
     invoke_shell := fun _ e => (None, e);
     transport_active := fun _ e => e.2;
     shell_send := fun _ payload e =>
       (None, (mkSim (sim_clock e.1) (sim_pending e.1 ++ sim_answer banner payload),
               e.2));
     shell_read := fun _ _ e =>
       (inl (sim_pending e.1), (mkSim (sim_clock e.1 + 1000) [], e.2));
     open_refused := fun _ _ => None;
     write_fails := fun _ _ _ => None |}.

(** A device as [sim_device], on a machine whose disk is full: a backup
    file is created, and the write fails after its first 40
    characters. *)
Definition full_disk_device (banner : str) : Outside :=
  {| Env := sim;
     time_time := sim_clock;
     isoformat := Z_to_str;
     strftime := fun _ => py "20240101_000000";
     ssh_connect := fun _ _ _ _ _ e => (None, e);
     invoke_shell := fun _ e => (None, e);
     transport_active := fun _ _ => true;
     shell_send := fun _ payload e =>
       (None, mkSim (sim_clock e) (sim_pending e ++ sim_answer banner payload));
     shell_read := fun _ _ e =>
       (inl (sim_pending e), mkSim (sim_clock e + 1000) []);
     open_refused := fun _ _ => None;
     write_fails := fun _ content _ =>
       Some (OtherException (py "[Errno 28] No space left on device"),
             firstn 40 content) |}.


(* ===================================================================== *)
(** * Part II: lemmas and theorems                                         *)
(* ===================================================================== *)

(** ** Facts about the text primitives *)

Section StripFacts.
Variable p : char -> bool.

Lemma lstrip_with_snoc (t : str) (c : char) :
  lstrip_with p (t ++ [c]) =
  match lstrip_with p t with
  | [] => if p c then [] else [c]
  | r => r ++ [c]
  end.
Proof.
  induction t as [|a t IH]; simpl.
  - destruct (p c); reflexivity.
  - destruct (p a); [exact IH | reflexivity].
Qed.

Lemma rstrip_with_rev (s : str) :
  rstrip_with p s = rev (lstrip_with p (rev s)).
Proof.
  induction s as [|c s IH]; simpl; [reflexivity|].
  rewrite lstrip_with_snoc, IH.
  destruct (lstrip_with p (rev s)) as [|a r] eqn:E; simpl.
  - destruct (p c); reflexivity.
  - destruct (rev r ++ [a]) as [|b q] eqn:E2.
    + destruct (rev r); discriminate.
    + rewrite <- E2. rewrite rev_unit. reflexivity.
Qed.

Lemma lstrip_with_head (s : str) (c : char) (t : str) :
  lstrip_with p s = c :: t -> p c = false.
Proof.
  induction s as [|a s IH]; simpl; [discriminate|].
  destruct (p a) eqn:E; [exact IH|].
  intros H; injection H as -> _. exact E.
Qed.

Lemma lstrip_with_fix (c : char) (t : str) :
  p c = false -> lstrip_with p (c :: t) = c :: t.
Proof. intros H; simpl; rewrite H; reflexivity. Qed.

Lemma rstrip_with_last (s t : str) (c : char) :
  rstrip_with p s = t ++ [c] -> p c = false.
Proof.
  rewrite rstrip_with_rev. intros H.
  apply (f_equal (@rev char)) in H.
  rewrite rev_involutive, rev_unit in H.
  eapply lstrip_with_head; exact H.
Qed.

Lemma rstrip_with_fix (t : str) (c : char) :
  p c = false -> rstrip_with p (t ++ [c]) = t ++ [c].
Proof.
  intros H. rewrite rstrip_with_rev, rev_unit, lstrip_with_fix by exact H.
  change (c :: rev t) with ([c] ++ rev t).
  rewrite rev_app_distr, rev_involutive. reflexivity.
Qed.

Lemma rstrip_with_app (a b : str) :
  rstrip_with p b <> [] -> rstrip_with p (a ++ b) = a ++ rstrip_with p b.
Proof.
  intros H. induction a as [|x a IH]; simpl; [reflexivity|].
  rewrite IH. destruct (a ++ rstrip_with p b) eqn:E; [|reflexivity].
  destruct a; [contradiction | discriminate].
Qed.

(** Stripping on the left and on the right commute. *)
Lemma lstrip_rstrip_comm (s : str) :
  lstrip_with p (rstrip_with p s) = rstrip_with p (lstrip_with p s).
Proof.
  induction s as [|c s IH]; simpl; [reflexivity|].
  destruct (p c) eqn:E.
  - destruct (rstrip_with p s) as [|a r] eqn:E2.
    + exact IH.
    + simpl. rewrite E. exact IH.
  - simpl. destruct (rstrip_with p s) as [|a r] eqn:E2;
      simpl; rewrite E; reflexivity.
Qed.
End StripFacts.

(** Stripping a larger set after a smaller one is stripping the larger. *)
Lemma lstrip_with_absorb (p q : char -> bool) (s : str) :
  (forall c, q c = true -> p c = true) ->
  lstrip_with p (lstrip_with q s) = lstrip_with p s.
Proof.
  intros Hqp. induction s as [|c s IH]; simpl; [reflexivity|].
  destruct (q c) eqn:E.
  - rewrite (Hqp c E). exact IH.
  - reflexivity.
Qed.

Lemma rstrip_with_absorb (p q : char -> bool) (s : str) :
  (forall c, q c = true -> p c = true) ->
  rstrip_with p (rstrip_with q s) = rstrip_with p s.
Proof.
  intros Hqp. rewrite !rstrip_with_rev, rev_involutive.
  rewrite lstrip_with_absorb by exact Hqp. reflexivity.
Qed.

Lemma strip_rstrip_cr (s : str) : strip (rstrip_cr s) = strip s.
Proof.
  unfold strip, rstrip_cr. rewrite rstrip_with_absorb; [reflexivity|].
  intros c H. apply N.eqb_eq in H. subst c. reflexivity.
Qed.

Lemma strip_idem (s : str) : strip (strip s) = strip s.
Proof.
  unfold strip.
  rewrite <- (lstrip_rstrip_comm is_space (rstrip_with is_space s)).
  rewrite rstrip_with_absorb by auto.
  rewrite lstrip_with_absorb by auto. reflexivity.
Qed.

Lemma strip_trimmed (s : str) : strip s <> [] -> trimmed (strip s).
Proof.
  intros Hne. split.
  - destruct (strip s) as [|c t] eqn:E; [contradiction|].
    exists c, t. split; [reflexivity|].
    unfold strip in E. eapply lstrip_with_head; exact E.
  - destruct (exists_last Hne) as (t & c & E).
    exists t, c. split; [exact E|].
    unfold strip in E. rewrite lstrip_rstrip_comm in E.
    eapply rstrip_with_last; exact E.
Qed.

Lemma trimmed_strip (s : str) : trimmed s -> strip s = s.
Proof.
  intros [(c & t & -> & Hc) (t' & c' & E & Hc')].
  unfold strip. rewrite E, rstrip_with_fix by exact Hc'.
  rewrite <- E. apply lstrip_with_fix; exact Hc.
Qed.

Lemma trimmed_join (sep : str) (ls : list str) :
  ls <> [] -> Forall trimmed ls -> trimmed (join sep ls).
Proof.
  intros Hne Hall. split.
  - destruct ls as [|x ls]; [contradiction|].
    apply Forall_cons_iff in Hall as [[(c & t & -> & Hc) _] _].
    destruct ls; simpl; eauto.
  - induction Hall as [|x ls Hx Hall IH]; [contradiction|].
    destruct ls as [|y ls'].
    + simpl. exact (proj2 Hx).
    + destruct IH as (t & c & E & Hc); [discriminate|].
      exists (x ++ sep ++ t), c. split; [|exact Hc].
      change (join sep (x :: y :: ls')) with (x ++ sep ++ join sep (y :: ls')).
      rewrite E, <- !app_assoc. reflexivity.
Qed.

Lemma strip_join_trimmed (sep : str) (ls : list str) :
  Forall trimmed ls -> strip (join sep ls) = join sep ls.
Proof.
  intros Hall. destruct ls as [|x ls]; [reflexivity|].
  apply trimmed_strip, trimmed_join; [discriminate | exact Hall].
Qed.

(** ** Lines of a captured text *)

Lemma splitlines_from_app (l rest cur : str) :
  no_linebreak l = true ->
  splitlines_from cur (l ++ rest) = splitlines_from (rev l ++ cur) rest.
Proof.
  revert cur. induction l as [|c l IH]; intros cur H; [reflexivity|].
  simpl in H. apply andb_prop in H as [Hc Hl].
  apply negb_true_iff in Hc. simpl. rewrite Hc, IH by exact Hl.
  rewrite <- app_assoc. reflexivity.
Qed.

Lemma splitlines_line (l eol rest : str) :
  no_linebreak l = true -> is_eol eol = true ->
  splitlines (l ++ eol ++ rest) = l :: splitlines rest.
Proof.
  intros Hl He. unfold splitlines. rewrite splitlines_from_app by exact Hl.
  rewrite app_nil_r.
  destruct eol as [|a [|b [|c eol]]]; try discriminate He.
  - apply N.eqb_eq in He. subst a.
    simpl. rewrite rev_involutive. destruct rest; reflexivity.
  - apply andb_prop in He as [Ha Hb].
    apply N.eqb_eq in Ha, Hb. subst a b.
    simpl. rewrite rev_involutive. reflexivity.
Qed.

Lemma splitlines_last (l : str) :
  no_linebreak l = true -> l <> [] -> splitlines l = [l].
Proof.
  intros Hl Hne. unfold splitlines.
  rewrite <- (app_nil_r l) at 1. rewrite splitlines_from_app by exact Hl.
  rewrite app_nil_r. simpl.
  destruct (rev l) eqn:E.
  - apply (f_equal (@rev char)) in E. rewrite rev_involutive in E.
    contradiction.
  - rewrite <- E, rev_involutive. reflexivity.
Qed.

Lemma splitlines_captured (eol : str) (lines : list str) (last : str) :
  is_eol eol = true -> forallb no_linebreak lines = true ->
  no_linebreak last = true -> last <> [] ->
  splitlines (captured eol lines last) = lines ++ [last].
Proof.
  intros He Hls Hl Hne. unfold captured.
  induction lines as [|l lines IH]; simpl.
  - apply splitlines_last; assumption.
  - simpl in Hls. apply andb_prop in Hls as [H1 H2].
    rewrite <- !app_assoc. rewrite splitlines_line by assumption.
    rewrite IH by exact H2. reflexivity.
Qed.

(** ** The cleaning loop *)

Lemma looks_like_prompt_strip (s : str) :
  _looks_like_prompt (strip s) = _looks_like_prompt s.
Proof. unfold _looks_like_prompt. rewrite strip_idem. reflexivity. Qed.

Lemma looks_like_prompt_nonblank (s : str) :
  _looks_like_prompt s = true -> strip s <> [].
Proof. unfold _looks_like_prompt. destruct (strip s); [discriminate | discriminate]. Qed.

Lemma is_echo_self (c : str) : is_echo c c = true.
Proof.
  unfold is_echo.
  assert (H : str_eqb c c = true).
  { induction c as [|x c IH]; simpl; [reflexivity|].
    rewrite N.eqb_refl. exact IH. }
  rewrite H. reflexivity.
Qed.

(** What one turn does with a line that is not blank. *)
Lemma clean_step_nonblank (c : str) (st : clean_state) (line : str) :
  strip line <> [] ->
  clean_step c st line =
    if negb (seen_echo st) && is_echo c (strip line) then
      CleanState (cleaned st) true (prompt_cache st)
    else if _looks_like_prompt line then
      CleanState (cleaned st) (seen_echo st)
        (match prompt_cache st with None => Some (strip line) | Some q => Some q end)
    else CleanState (cleaned st ++ [strip line]) (seen_echo st) (prompt_cache st).
Proof.
  intros Hne. unfold clean_step. rewrite strip_rstrip_cr.
  rewrite looks_like_prompt_strip.
  destruct (strip line); [contradiction | reflexivity].
Qed.

Lemma clean_step_blank (c : str) (st : clean_state) (line : str) :
  strip line = [] -> clean_step c st line = st.
Proof.
  intros H. unfold clean_step. rewrite strip_rstrip_cr, H. reflexivity.
Qed.

Lemma blank_false (s : str) : blank s = false -> strip s <> [].
Proof. unfold blank. destruct (strip s); [discriminate | discriminate]. Qed.

(** After the echo, a run of genuine output lines is appended, trimmed. *)
Lemma clean_genuine_lines (c : str) (outs : list str) (acc : list str)
    (pc : option str) :
  forallb genuine_line outs = true ->
  fold_left (clean_step c) outs (CleanState acc true pc)
  = CleanState (acc ++ map strip outs) true pc.
Proof.
  revert acc. induction outs as [|o outs IH]; intros acc H; simpl.
  - rewrite app_nil_r. reflexivity.
  - simpl in H. apply andb_prop in H as [Ho Hrest].
    unfold genuine_line in Ho.
    apply andb_prop in Ho as [Ho Hp]. apply andb_prop in Ho as [_ Hb].
    apply negb_true_iff in Hb, Hp.
    rewrite clean_step_nonblank by (apply blank_false; exact Hb).
    simpl. rewrite Hp, IH by exact Hrest.
    rewrite <- app_assoc. reflexivity.
Qed.

Lemma genuine_lines_trimmed (outs : list str) :
  forallb genuine_line outs = true -> Forall trimmed (map strip outs).
Proof.
  induction outs as [|o outs IH]; intros H; simpl; constructor.
  - simpl in H. apply andb_prop in H as [Ho _]. unfold genuine_line in Ho.
    apply andb_prop in Ho as [Ho _]. apply andb_prop in Ho as [_ Hb].
    apply negb_true_iff in Hb. apply strip_trimmed, blank_false, Hb.
  - apply IH. simpl in H. apply andb_prop in H as [_ H]. exact H.
Qed.

Lemma genuine_lines_no_linebreak (outs : list str) :
  forallb genuine_line outs = true -> forallb no_linebreak outs = true.
Proof.
  induction outs as [|o outs IH]; intros H; [reflexivity|].
  simpl in *. apply andb_prop in H as [Ho H]. rewrite IH by exact H.
  unfold genuine_line in Ho. apply andb_prop in Ho as [Ho _].
  apply andb_prop in Ho as [Ho _]. rewrite Ho. reflexivity.
Qed.


Example splitlines_ex1 :
  splitlines (py "ab" ++ [CR; LF] ++ py "c" ++ [LF] ++ [LF] ++ py "d" ++ [CR])
  = [py "ab"; py "c"; []; py "d"].
Proof. reflexivity. Qed.

Example clean_ex1 :
  clean_output (py "show clock")
    (py "show clock" ++ [CR; LF] ++ py "10:00:00 UTC" ++ [CR; LF] ++ py "R1#")
    None
  = (py "10:00:00 UTC", Some (py "R1#")).
Proof. reflexivity. Qed.

(** ** Echo stripping (C1) *)

(** The cleaning loop over a captured text made of the echoed command,
    genuine output lines and a prompt line. *)
Lemma clean_loop_of_captured
    (command : str) (outs : list str) (prompt_line eol : str)
    (cache : option str) :
  is_eol eol = true ->
  no_linebreak command = true -> blank command = false ->
  forallb genuine_line outs = true ->
  no_linebreak prompt_line = true -> _looks_like_prompt prompt_line = true ->
  fold_left (clean_step (strip command))
    (splitlines (captured eol (command :: outs) prompt_line))
    (CleanState [] false cache)
  = CleanState (map strip outs) true
      (Some (match cache with None => strip prompt_line | Some q => q end)).
Proof.
  intros He Hc Hcb Houts Hp Hpl.
  pose proof (looks_like_prompt_nonblank _ Hpl) as Hpne.
  assert (Hp0 : prompt_line <> []) by (intros ->; apply Hpne; reflexivity).
  rewrite splitlines_captured; try assumption.
  2:{ simpl. rewrite Hc. apply genuine_lines_no_linebreak, Houts. }
  rewrite fold_left_app. cbn [app fold_left].
  rewrite (clean_step_nonblank _ _ command) by (apply blank_false, Hcb).
  cbn [seen_echo negb andb cleaned prompt_cache].
  rewrite is_echo_self, clean_genuine_lines by exact Houts.
  rewrite clean_step_nonblank by exact Hpne.
  cbn [seen_echo negb andb cleaned prompt_cache app]. rewrite Hpl.
  destruct cache; reflexivity.
Qed.

(** C1, as amended: for a captured text made of the echoed command, [N]
    lines of genuine output and a prompt line, cleaning yields the [N]
    output lines in their order, each with the white space at its ends
    removed, joined by LF; the prompt line is cached when no prompt was
    known.  The command must not be blank, and an output line that ends
    in [#] or [>] is not genuine output for the cleaner. *)
Theorem clean_output_echo_roundtrip
    (command : str) (outs : list str) (prompt_line eol : str)
    (cache : option str) :
  is_eol eol = true ->
  no_linebreak command = true -> blank command = false ->
  forallb genuine_line outs = true ->
  no_linebreak prompt_line = true -> _looks_like_prompt prompt_line = true ->
  clean_output command (captured eol (command :: outs) prompt_line) cache
  = (join [LF] (map strip outs),
     Some (match cache with None => strip prompt_line | Some q => q end)).
Proof.
  intros He Hc Hcb Houts Hp Hpl. unfold clean_output.
  rewrite clean_loop_of_captured by assumption.
  cbn [cleaned prompt_cache].
  rewrite strip_join_trimmed by (apply genuine_lines_trimmed, Houts).
  reflexivity.
Qed.

(** When the output lines carry no white space at their ends, they come
    back as they were. *)
Corollary clean_output_trimmed_lines
    (command : str) (outs : list str) (prompt_line eol : str)
    (cache : option str) :
  is_eol eol = true ->
  no_linebreak command = true -> blank command = false ->
  forallb genuine_line outs = true ->
  Forall (fun o => strip o = o) outs ->
  no_linebreak prompt_line = true -> _looks_like_prompt prompt_line = true ->
  fst (clean_output command (captured eol (command :: outs) prompt_line) cache)
  = join [LF] outs.
Proof.
  intros He Hc Hcb Houts Hid Hp Hpl. unfold clean_output.
  rewrite clean_loop_of_captured by assumption.
  cbn [cleaned fst].
  rewrite strip_join_trimmed by (apply genuine_lines_trimmed, Houts).
  f_equal. clear Houts.
  induction Hid as [|o outs Ho _ IH]; [reflexivity|].
  simpl. rewrite Ho, IH. reflexivity.
Qed.

Lemma clean_output_echo_roundtrip_witness :
  clean_output (py "show clock")
    (captured [CR; LF]
       [py "show clock"; py " *10:00:00.000 UTC Mon Mar 1 2021"; py "Time source is NTP "]
       (py "R1#")) None
  = (join [LF] (map strip [py " *10:00:00.000 UTC Mon Mar 1 2021"; py "Time source is NTP "]),
     Some (strip (py "R1#"))).
Proof.
  apply (clean_output_echo_roundtrip (py "show clock")
           [py " *10:00:00.000 UTC Mon Mar 1 2021"; py "Time source is NTP "]
           (py "R1#") [CR; LF] None); reflexivity.
Defined.

(** C1 as stated fails: an indented output line does not come back
    unaltered, and an output line that ends in [#] is dropped. *)
Lemma clean_output_alters_lines :
  let command := py "show run" in
  let outs := [py "interface Gi0/1"; py " ip address 10.0.0.1 255.255.255.0"] in
  let prompt_line := py "R1#" in
  let raw := captured [CR; LF] (command :: outs) prompt_line in
  no_linebreak command = true /\
  forallb (fun o => no_linebreak o && negb (blank o)) outs = true /\
  no_linebreak prompt_line = true /\ _looks_like_prompt prompt_line = true /\
  fst (clean_output command raw None)
  = join [LF] [py "interface Gi0/1"; py "ip address 10.0.0.1 255.255.255.0"] /\
  fst (clean_output command raw None) <> join [LF] outs /\
  fst (clean_output (py "show users")
         (captured [LF] [py "show users"; py "Line User #"; py "0 con 0 admin"] (py "R1#"))
         None)
  = py "0 con 0 admin".
Proof. cbv zeta. repeat split; try reflexivity. vm_compute. discriminate. Qed.

(** ** Prefixes, suffixes and sub-texts *)

Lemma str_eqb_eq (a b : str) : str_eqb a b = true <-> a = b.
Proof.
  revert b. induction a as [|x a IH]; intros [|y b]; simpl;
    try (split; [discriminate | discriminate]); [tauto|].
  rewrite andb_true_iff, N.eqb_eq, IH. split.
  - intros [-> ->]. reflexivity.
  - intros H. injection H as -> ->. split; reflexivity.
Qed.

Lemma startswith_spec (s p : str) :
  startswith s p = true <-> exists r, s = p ++ r.
Proof.
  revert s. induction p as [|x p IH]; intros s; simpl.
  - destruct s; (split; [intros _; eexists; reflexivity | reflexivity]).
  - destruct s as [|y s].
    + split; [discriminate | intros [r H]; discriminate H].
    + cbn [startswith]. rewrite andb_true_iff, N.eqb_eq, IH. split.
      * intros [-> [r ->]]. exists r. reflexivity.
      * intros [r H]. injection H as -> ->. split; [reflexivity | eauto].
Qed.

Lemma endswith_spec (s p : str) :
  endswith s p = true <-> exists a, s = a ++ p.
Proof.
  unfold endswith. rewrite startswith_spec. split.
  - intros [r H]. exists (rev r).
    apply (f_equal (@rev char)) in H.
    rewrite rev_involutive, rev_app_distr, rev_involutive in H. exact H.
  - intros [a ->]. exists (rev a). apply rev_app_distr.
Qed.

Lemma contains_spec (sub s : str) :
  contains sub s = true <-> exists a b, s = a ++ sub ++ b.
Proof.
  induction s as [|c s IH].
  - cbn [contains]. rewrite orb_false_r, startswith_spec. split.
    + intros [r H]. exists [], r. exact H.
    + intros (a & b & H). destruct a; [eauto|discriminate H].
  - cbn [contains]. rewrite orb_true_iff, startswith_spec, IH. split.
    + intros [[r H] | (a & b & ->)].
      * exists [], r. exact H.
      * exists (c :: a), b. reflexivity.
    + intros (a & b & H). destruct a as [|x a].
      * left. exists b. exact H.
      * right. injection H as -> ->. eauto.
Qed.

(** ** Dialect detection (C3) *)

(** The legacy dialect is only chosen when no modern keyword matched. *)
Lemma detect_legacy_only_without_modern (upper : str -> str) (out : str) :
  _detect_device_type upper (Some out) = py "cisco_ios" ->
  any_in prompt_chars out = true /\
  any_in ios_xe_keywords (upper out) = false /\
  any_in ios_keywords (upper out) = true.
Proof.
  unfold _detect_device_type, detect_from_output, detect_cisco.
  destruct (any_in prompt_chars out);
    destruct (any_in ios_xe_keywords (upper out));
    destruct (any_in ios_keywords (upper out));
    repeat match goal with
           | |- context [if ?b then _ else _] => destruct b
           end; intros H; try (vm_compute in H; discriminate H);
    repeat split; reflexivity.
Qed.

(** A response that none of the earlier tests takes and that names
    JUNIPER or JUNOS is settled as [juniper]. *)
Lemma detect_juniper (upper : str -> str) (out : str) :
  detect_cisco upper out = None ->
  contains (py "MIKROTIK") (upper out) || contains (py "] >") out = false ->
  any_in (map py ["HUAWEI"; "VRP"; "QUIDWAY"]%string) (upper out) = false ->
  any_in (map py ["JUNIPER"; "JUNOS"]%string) (upper out) = true ->
  _detect_device_type upper (Some out) = py "juniper".
Proof.
  intros Hc Hm Hh Hj. unfold _detect_device_type, detect_from_output.
  rewrite Hc, Hm, Hh, Hj. reflexivity.
Qed.

(** The MikroTik prompt [] >] holds a [>]. *)
Lemma mikrotik_prompt_has_prompt_char (out : str) :
  any_in prompt_chars out = false -> contains (py "] >") out = false.
Proof.
  intros H. destruct (contains (py "] >") out) eqn:E; [|reflexivity].
  apply contains_spec in E as (a & b & ->).
  assert (Hc : contains (py ">") (a ++ py "] >" ++ b) = true).
  { apply contains_spec. exists (a ++ py "] "), b.
    rewrite <- !app_assoc. reflexivity. }
  unfold any_in, prompt_chars in H. cbn [map existsb] in H.
  change (py ">") with [62] in *. change (py "#") with [35] in *.
  rewrite Hc, orb_true_r in H. discriminate H.
Qed.

(** C3, as amended: a response that shows a prompt character ([#] or
    [>]) and matches a modern Cisco keyword is committed to
    [cisco_ios_xe], whether or not it also matches a legacy keyword, and
    the legacy dialect is committed only to a response with a prompt
    character that matches a legacy keyword and no modern one.  Without
    [#] or [>] in the response the Cisco keyword groups are not
    consulted: the type is settled by the tests for the other vendors
    alone, and is [generic] when none of them matches. *)
Theorem detect_modern_before_legacy (upper : str -> str) (out : str) :
  (any_in prompt_chars out = true ->
   any_in ios_xe_keywords (upper out) = true ->
   _detect_device_type upper (Some out) = py "cisco_ios_xe") /\
  (_detect_device_type upper (Some out) = py "cisco_ios" <->
   any_in prompt_chars out = true /\
   any_in ios_xe_keywords (upper out) = false /\
   any_in ios_keywords (upper out) = true) /\
  (any_in prompt_chars out = false ->
   detect_cisco upper out = None /\
   _detect_device_type upper (Some out)
   = if contains (py "MIKROTIK") (upper out) then py "mikrotik"
     else if any_in (map py ["HUAWEI"; "VRP"; "QUIDWAY"]%string) (upper out)
     then py "huawei"
     else if any_in (map py ["JUNIPER"; "JUNOS"]%string) (upper out)
     then py "juniper"
     else py "generic").
Proof.
  split; [|split].
  - intros Hp Hxe. unfold _detect_device_type, detect_from_output, detect_cisco.
    rewrite Hp, Hxe. reflexivity.
  - split; [apply detect_legacy_only_without_modern|].
    intros (Hp & Hxe & Hios).
    unfold _detect_device_type, detect_from_output, detect_cisco.
    rewrite Hp, Hxe, Hios. reflexivity.
  - intros Hp. split.
    + unfold detect_cisco. rewrite Hp. reflexivity.
    + unfold _detect_device_type, detect_from_output, detect_cisco.
      rewrite Hp, (mikrotik_prompt_has_prompt_char out Hp), orb_false_r.
      reflexivity.
Qed.

Lemma detect_modern_before_legacy_witness :
  _detect_device_type ascii_upper
    (Some (py "Cisco IOS Software [Fuji], Catalyst L3 Switch Software (CAT9K_IOSXE)"
           ++ [CR; LF] ++ py "SW1#"))
  = py "cisco_ios_xe" /\
  _detect_device_type ascii_upper
    (Some (py "Cisco IOS XE Software, Version 16.09.04; Cisco IOS Software [Fuji]"))
  = py "generic".
Proof.
  split.
  - apply (detect_modern_before_legacy ascii_upper); reflexivity.
  - destruct (detect_modern_before_legacy ascii_upper
                (py "Cisco IOS XE Software, Version 16.09.04; Cisco IOS Software [Fuji]"))
      as (_ & _ & H).
    destruct (H eq_refl) as [_ E]. rewrite E. reflexivity.
Defined.

(** C3 as stated fails: without [#] or [>] in the response the Cisco
    keyword groups are not consulted at all. *)
Lemma detect_without_prompt_char :
  let out := py "Cisco IOS XE Software, Version 16.09.04; Cisco IOS Software [Fuji]" in
  any_in ios_xe_keywords (ascii_upper out) = true /\
  any_in ios_keywords (ascii_upper out) = true /\
  _detect_device_type ascii_upper (Some out) = py "generic" /\
  _detect_device_type ascii_upper (Some out) <> py "cisco_ios_xe".
Proof. cbv zeta. repeat split; try reflexivity. vm_compute. discriminate. Qed.

(** ** Backup download (C9) *)

(** The shape the endpoint asks for is the naming scheme with both of
    its fields left free. *)
Lemma has_backup_shape_spec (filename : str) :
  has_backup_shape filename = true <->
  exists name ts, filename = backup_filename name ts.
Proof.
  unfold has_backup_shape, backup_filename.
  rewrite andb_true_iff, contains_spec. split.
  - intros [He (a & b & ->)]. exists a.
    unfold endswith in He. apply startswith_spec in He as [r He].
    rewrite !rev_app_distr in He.
    change (rev (py ".txt")) with [116; 120; 116; 46] in He.
    change (rev (py "_config_")) with [95; 103; 105; 102; 110; 111; 99; 95] in He.
    destruct (rev b) as [|x1 [|x2 [|x3 [|x4 rb]]]] eqn:E;
      try discriminate He.
    injection He as -> -> -> -> _.
    exists (rev rb). apply (f_equal (@rev char)) in E.
    rewrite rev_involutive in E. subst b. simpl.
    rewrite <- !app_assoc. reflexivity.
  - intros (name & ts & ->). split.
    + apply endswith_spec. exists (name ++ py "_config_" ++ ts).
      rewrite <- !app_assoc. reflexivity.
    + exists name, (ts ++ py ".txt"). reflexivity.
Qed.

(** C9, as amended: a name is accepted exactly when it holds none of
    [/], [..] and backslash and has the shape [<name>_config_<ts>.txt],
    where neither field is looked at (the [<ts>] field need not be a
    timestamp); a name that is not accepted gets status 400 whatever the
    directory holds, and a file is only served under an accepted name. *)
Theorem download_accepts_iff_shape (filename : str) :
  (filename_accepted filename = true <->
     (exists name ts, filename = backup_filename name ts) /\
     contains (py "/") filename = false /\
     contains (py "..") filename = false /\
     contains [92] filename = false) /\
  (forall logs_dir,
     filename_accepted filename = false ->
     exists detail, download_backup_file logs_dir filename = HTTPError 400 detail) /\
  (forall logs_dir f c,
     download_backup_file logs_dir filename = FileResponse f c ->
     filename_accepted filename = true /\ f = filename /\
     logs_dir filename = Some (DirAnswer true (Some c))).
Proof.
  unfold filename_accepted, download_backup_file, has_traversal.
  repeat split.
  - apply has_backup_shape_spec.
    apply andb_prop in H as [_ H]; exact H.
  - apply andb_prop in H as [H _].
    destruct (contains (py "/") filename); [discriminate H | reflexivity].
  - apply andb_prop in H as [H _].
    destruct (contains (py "..") filename); [|reflexivity].
    rewrite orb_true_r in H. discriminate H.
  - apply andb_prop in H as [H _].
    destruct (contains [92] filename); [|reflexivity].
    rewrite orb_true_r in H. discriminate H.
  - intros (Hs & H1 & H2 & H3). rewrite H1, H2, H3.
    apply has_backup_shape_spec in Hs. rewrite Hs. reflexivity.
  - intros logs_dir H.
    destruct (contains (py "/") filename || contains (py "..") filename
              || contains [92] filename); [eauto|].
    simpl in H. rewrite H. simpl. eauto.
  - destruct (contains (py "/") filename || contains (py "..") filename
              || contains [92] filename); [discriminate H|].
    destruct (has_backup_shape filename); [reflexivity | discriminate H].
  - destruct (contains (py "/") filename || contains (py "..") filename
              || contains [92] filename); [discriminate H|].
    destruct (has_backup_shape filename); [|discriminate H].
    simpl in H. destruct (logs_dir filename) as [[[] [c'|]]|];
      simpl in H; try discriminate H. injection H as <- _. reflexivity.
  - destruct (contains (py "/") filename || contains (py "..") filename
              || contains [92] filename); [discriminate H|].
    destruct (has_backup_shape filename); [|discriminate H].
    simpl in H. destruct (logs_dir filename) as [[[] [c'|]]|];
      simpl in H; try discriminate H. injection H as _ <-. reflexivity.
Qed.

(** C9 as stated fails: a name whose last field is no timestamp is
    accepted, and served when such a file is there. *)
Lemma download_accepts_other_names :
  filename_accepted (py "x_config_y.txt") = true /\
  ~ (exists name ts, is_timestamp ts = true /\
                     py "x_config_y.txt" = backup_filename name ts) /\
  download_backup_file (fun _ => Some (DirAnswer true (Some (py "text"))))
    (py "x_config_y.txt")
  = FileResponse (py "x_config_y.txt") (py "text").
Proof.
  split; [reflexivity|]. split; [|reflexivity].
  intros (name & ts & Hts & H).
  apply (f_equal (@length char)) in H. unfold backup_filename in H.
  rewrite !length_app in H.
  unfold is_timestamp in Hts.
  apply andb_prop in Hts as [Hts _]. apply andb_prop in Hts as [Hts _].
  apply andb_prop in Hts as [Hts _]. apply Nat.eqb_eq in Hts.
  change (length (py "x_config_y.txt")) with 14%nat in H.
  change (length (py "_config_")) with 8%nat in H.
  change (length (py ".txt")) with 4%nat in H. lia.
Qed.

(** ** Console token bucket (C8) *)

Lemma single_char_not_exit (c : char) :
  str_eqb (strip [c]) (py "/exit") || str_eqb (strip [c]) (py "exit") = false.
Proof.
  unfold strip. simpl. destruct (is_space c) eqn:E; simpl.
  - reflexivity.
  - rewrite E. simpl. rewrite !andb_false_r. reflexivity.
Qed.

(** Taking one token from a bucket that holds a whole number of them, up
    to the 4096 of the endpoint, is exact in binary64. *)
Lemma one_token_exact (a : nat) :
  (a < 4096)%nat ->
  (Binary64.of_nat 1 <=? Binary64.of_nat (S a))%float = true /\
  (Binary64.of_nat (S a) - Binary64.of_nat 1)%float = Binary64.of_nat a.
Proof.
  intros Ha.
  assert (T : forallb
                (fun a => (Binary64.of_nat 1 <=? Binary64.of_nat (S a))%float
                          && PrimFloat.Leibniz.eqb
                               (Binary64.of_nat (S a) - Binary64.of_nat 1)%float
                               (Binary64.of_nat a))
                (seq 0 4096) = true) by (vm_compute; reflexivity).
  rewrite forallb_forall in T. specialize (T a).
  destruct (andb_prop _ _ (T ltac:(apply in_seq; lia))) as [H1 H2].
  split; [exact H1|]. apply FloatAxioms.Leibniz.eqb_spec, H2.
Qed.

(** Without a refill, [take_tokens] grants one token exactly while the
    bucket holds one. *)
Lemma take_one_token (capacity rate now : float) (a : nat)
    (b : Binary64.bucket) :
  (a <= 4096)%nat -> Binary64.available b = Binary64.of_nat a ->
  (0 <? now - Binary64.last_refill b)%float = false ->
  Binary64.take_tokens capacity rate now 1 b
  = match a with
    | O => (false, b)
    | S a' => (true, Binary64.Bucket (Binary64.of_nat a') (Binary64.last_refill b))
    end.
Proof.
  intros Ha Hb Hnow. unfold Binary64.take_tokens. rewrite Hnow, Hb.
  destruct a as [|a'].
  - reflexivity.
  - destruct (one_token_exact a' ltac:(lia)) as [H1 H2]. rewrite H1, H2.
    reflexivity.
Qed.

(** One-character messages that the loop meets with no time gone by, as
    it computes it, since the last refill: as many go to the shell as the
    bucket holds tokens, and each of the others is answered with the
    rate-limit notice. *)
Lemma console_burst_from (capacity rate : float) (msgs : list arrival)
    (ending : ws_failure) (a : nat) (b : Binary64.bucket) :
  (a <= 4096)%nat -> Binary64.available b = Binary64.of_nat a ->
  Forall (fun m => length (message m) = 1%nat /\
                   (0 <? at_time m - Binary64.last_refill b)%float = false /\
                   send_error m = None /\ notice_error m 0%nat = None) msgs ->
  Binary64.console_loop capacity rate msgs ending b
  = map (fun m => ToShell (message m)) (firstn a msgs)
    ++ repeat (ToClient ws_warn_rate) (length msgs - a)
    ++ Binary64.on_failure ending.
Proof.
  intros Ha Hb Hall. revert a b Ha Hb Hall.
  induction msgs as [|m msgs IH]; intros a b Ha Hb Hall.
  - rewrite firstn_nil. reflexivity.
  - apply Forall_cons in Hall as [(Hlen & Hnow & Hsend & Hnote) Hall].
    cbn [Binary64.console_loop]. rewrite Hlen.
    rewrite (take_one_token capacity rate (at_time m) a b Ha Hb Hnow).
    destruct (message m) as [|c [|? ?]] eqn:Em; try discriminate Hlen.
    destruct a as [|a'].
    + cbn [negb]. unfold Binary64.notify. rewrite Hnote.
      rewrite (IH 0%nat b Ha Hb Hall). rewrite !firstn_O.
      cbn [length map app]. rewrite !Nat.sub_0_r. reflexivity.
    + cbn [negb]. rewrite single_char_not_exit. cbn [length Nat.ltb Nat.leb].
      rewrite Hsend.
      rewrite (IH a' (Binary64.Bucket (Binary64.of_nat a') (Binary64.last_refill b))
                 ltac:(lia) eq_refl Hall).
      cbn [firstn map app length Nat.sub]. rewrite Em. reflexivity.
Qed.

(** C8, as amended.  The capacity and the refill rate of the bridge are
    the constants 4096 and 1024.  [take_tokens(n)] first refills the
    bucket, when the clock has moved since the last refill, by the time
    gone by times the rate, up to the capacity, and then grants [n]
    tokens when the bucket holds as many, all or none.  The loop asks
    for the length of each message: a message that is refused is dropped
    whole and answered with the rate-limit notice; one that is granted
    ends the session when it is [exit] or [/exit], and otherwise goes to
    the shell, cut to its first 2000 characters, with a notice, when it
    is longer; a send that raises is reported to the operator.  So of
    one-character messages that arrive at once at a bucket of [cap]
    tokens the first [cap] reach the shell and each of the others is
    answered with the notice; and in a bucket of 100 tokens refilled at
    10 a second, emptied by 150 of them, 51 more that arrive five
    seconds later find 50 tokens. *)
Theorem console_bucket_per_message :
  (forall t0 msgs ending,
     websocket_ssh_console t0 msgs ending
     = Binary64.console_loop 4096 1024 msgs ending (Binary64.Bucket 4096 t0)) /\
  (forall capacity rate now n b,
     let elapsed := (now - Binary64.last_refill b)%float in
     let refilled :=
       if (0 <? elapsed)%float
       then Binary64.py_min capacity (Binary64.available b + elapsed * rate)%float
       else Binary64.available b in
     let granted := (Binary64.of_nat n <=? refilled)%float in
     Binary64.take_tokens capacity rate now n b
     = (granted,
        Binary64.Bucket
          (if granted then (refilled - Binary64.of_nat n)%float else refilled)
          (if (0 <? elapsed)%float then now else Binary64.last_refill b))) /\
  (forall capacity rate a rest ending b,
     let r := Binary64.take_tokens capacity rate (at_time a)
                (length (message a)) b in
     let next := Binary64.console_loop capacity rate rest ending r.2 in
     let large := (2000 <? length (message a))%nat in
     let sent :=
       ToShell (slice_to 2000 (message a)) ::
       match send_error a with
       | Some e =>
           Binary64.notify a (if large then 1%nat else 0%nat) (ws_send_failed e) next
       | None => next
       end in
     Binary64.console_loop capacity rate (a :: rest) ending b
     = if r.1 then
         if str_eqb (strip (message a)) (py "/exit")
            || str_eqb (strip (message a)) (py "exit")
         then Binary64.notify a 0 ws_info_detach []
         else if large then Binary64.notify a 0 ws_warn_large sent else sent
       else Binary64.notify a 0 ws_warn_rate next) /\
  (forall capacity rate t0 msgs ending cap,
     (cap <= 4096)%nat ->
     Forall (fun m => length (message m) = 1%nat /\
                      (0 <? at_time m - t0)%float = false /\
                      send_error m = None /\ notice_error m 0%nat = None) msgs ->
     Binary64.console_loop capacity rate msgs ending
       (Binary64.Bucket (Binary64.of_nat cap) t0)
     = map (fun m => ToShell (message m)) (firstn cap msgs)
       ++ repeat (ToClient ws_warn_rate) (length msgs - cap)
       ++ Binary64.on_failure ending) /\
  (let at_once := Arrival (py "a") 1762310721 None (fun _ => None) in
   let later := Arrival (py "a") 1762310726 None (fun _ => None) in
   Binary64.console_loop 100 10 (repeat at_once 150 ++ repeat later 51)
     Disconnected (Binary64.Bucket 100 1762310721)
   = repeat (ToShell (py "a")) 100 ++ repeat (ToClient ws_warn_rate) 50
     ++ repeat (ToShell (py "a")) 50 ++ [ToClient ws_warn_rate]).
Proof.
  split; [reflexivity|]. split; [|split; [|split]].
  - intros capacity rate now n b. cbv zeta. unfold Binary64.take_tokens.
    destruct (0 <? now - Binary64.last_refill b)%float;
      cbn [Binary64.available Binary64.last_refill];
      destruct (PrimFloat.leb (Binary64.of_nat n) _); try reflexivity.
    destruct b; reflexivity.
  - intros capacity rate a rest ending b. cbv zeta.
    cbn [Binary64.console_loop].
    destruct (Binary64.take_tokens capacity rate (at_time a)
                (length (message a)) b) as [ok b'].
    cbn [fst snd]. destruct ok; cbn [negb]; [|reflexivity].
    destruct (str_eqb (strip (message a)) (py "/exit")
              || str_eqb (strip (message a)) (py "exit")); [reflexivity|].
    destruct (2000 <? length (message a))%nat eqn:El; [reflexivity|].
    apply Nat.ltb_ge in El. unfold slice_to. rewrite firstn_all2 by exact El.
    reflexivity.
  - intros capacity rate t0 msgs ending cap Hcap Hall.
    apply console_burst_from; [exact Hcap | reflexivity | exact Hall].
  - vm_compute. reflexivity.
Qed.

(** The scenario of the claim, sent as 150 messages of one character at
    a clock that reads the same for all of them. *)
Lemma console_bucket_per_message_witness :
  Binary64.console_loop 100 10
    (repeat (Arrival (py "a") 1762310721 None (fun _ => None)) 150)
    Disconnected (Binary64.Bucket (Binary64.of_nat 100) 1762310721)
  = repeat (ToShell (py "a")) 100 ++ repeat (ToClient ws_warn_rate) 50.
Proof.
  destruct console_bucket_per_message as (_ & _ & _ & H & _).
  rewrite (H 100%float 10%float 1762310721%float
             (repeat (Arrival (py "a") 1762310721 None (fun _ => None)) 150)
             Disconnected 100%nat ltac:(lia)).
  - reflexivity.
  - apply List.Forall_forall. intros m Hm. apply repeat_spec in Hm. subst m.
    repeat split.
Defined.

(** C8 as stated fails: the capacity and the refill rate are the fixed
    numbers 4096 and 1024, and 150 characters sent at once as one message
    into a bucket of 100 tokens are dropped whole: none of them reaches
    the shell. *)
Lemma console_drops_whole_message :
  let whole := Arrival (repeat 97 150) 1762310721 None (fun _ => None) in
  let blob := Arrival (repeat 97 (6 * 1024)) 1762310721 None (fun _ => None) in
  Binary64.bucket_capacity = 4096%float /\ Binary64.refill_rate = 1024%float /\
  Binary64.console_loop 100 10 [whole] Disconnected (Binary64.Bucket 100 1762310721)
  = [ToClient ws_warn_rate] /\
  ~ In (ToShell (firstn 100 (repeat 97 150)))
       (Binary64.console_loop 100 10 [whole] Disconnected
          (Binary64.Bucket 100 1762310721)) /\
  websocket_ssh_console 1762310721 [blob] Disconnected = [ToClient ws_warn_rate].
Proof.
  cbv zeta. repeat split; try reflexivity.
  vm_compute. intros [H | []]. discriminate H.
Qed.

(** ** Quiet-period reader (C2) *)

Section ReaderFacts.
Local Open Scope nat_scope.

(** One turn of the loop. *)
Lemma read_loop_step (fuel : nat) (shell : nat -> poll) (clock : nat -> float)
    (q m : float) (k : nat) :
  is_broken (shell k) = false ->
  read_loop (S fuel) shell clock q m k (readings_before shell k)
    (received shell k) (clock 0) (last_before shell clock k)
  = if leaves_at shell clock q m k
    then Some (ReadResult (Returned (received shell (S k))) k)
    else read_loop fuel shell clock q m (S k) (readings_before shell (S k))
           (received shell (S k)) (clock 0) (last_before shell clock (S k)).
Proof.
  intros Hb. cbn [read_loop received last_before readings_before].
  unfold leaves_at, quiet_test, deadline_test, deadline_reading, quiet_reading.
  cbn [last_before].
  destruct (shell k) as [|chunk|e]; try discriminate Hb;
    cbn [is_chunk chunk_text]; rewrite ?app_nil_r, ?Nat.add_0_r, ?Nat.add_1_r.
  - destruct (PrimFloat.leb q _); [reflexivity|]. cbn [orb].
    destruct (PrimFloat.leb m _); [reflexivity|].
    replace (readings_before shell k + 2) with (S (S (readings_before shell k))) by lia.
    reflexivity.
  - destruct (PrimFloat.leb q _); [reflexivity|]. cbn [orb].
    destruct (PrimFloat.leb m _); [reflexivity|].
    replace (readings_before shell k + 3) with (S (S (S (readings_before shell k)))) by lia.
    reflexivity.
Qed.

Lemma read_loop_first_stop (shell : nat -> poll) (clock : nat -> float)
    (q m : float) (n : nat) :
  (forall j, j <= n -> is_broken (shell j) = false) ->
  (forall j, j < n -> leaves_at shell clock q m j = false) ->
  leaves_at shell clock q m n = true ->
  forall d k fuel, k + d = n -> d < fuel ->
    read_loop fuel shell clock q m k (readings_before shell k)
      (received shell k) (clock 0) (last_before shell clock k)
    = Some (ReadResult (Returned (received shell (S n))) n).
Proof.
  intros Hnb Hno Hn. induction d as [|d IH]; intros k fuel Hk Hf.
  - destruct fuel as [|fuel]; [lia|]. rewrite Nat.add_0_r in Hk. subst k.
    rewrite read_loop_step by (apply Hnb; lia). rewrite Hn. reflexivity.
  - destruct fuel as [|fuel]; [lia|].
    rewrite read_loop_step by (apply Hnb; lia).
    rewrite Hno by lia. apply IH; lia.
Qed.

Lemma read_loop_first_break (shell : nat -> poll) (clock : nat -> float)
    (q m : float) (n : nat) (e : str) :
  (forall j, j < n -> is_broken (shell j) = false) ->
  (forall j, j < n -> leaves_at shell clock q m j = false) ->
  shell n = Broken e ->
  forall d k fuel, k + d = n -> d < fuel ->
    read_loop fuel shell clock q m k (readings_before shell k)
      (received shell k) (clock 0) (last_before shell clock k)
    = Some (ReadResult (Raised e) n).
Proof.
  intros Hnb Hno Hn. induction d as [|d IH]; intros k fuel Hk Hf.
  - destruct fuel as [|fuel]; [lia|]. rewrite Nat.add_0_r in Hk. subst k.
    cbn [read_loop]. rewrite Hn. reflexivity.
  - destruct fuel as [|fuel]; [lia|].
    rewrite read_loop_step by (apply Hnb; lia).
    rewrite Hno by lia. apply IH; lia.
Qed.






End ReaderFacts.


(** ** Sessions: what the connection methods do to the world *)

Section SessionFacts.
Context (O : Outside).

Lemma do_send_spec (self : RouterConnection) (payload : str) (w w' : World O)
    (r : option exc) :
  do_send O self payload w = (r, w') ->
  trace O w' = trace O w ++ [Send (host self) payload] /\
  files O w' = files O w /\
  r = fst (shell_send O (host self) payload (env O w)).
Proof.
  unfold do_send. cbn.
  destruct (shell_send O (host self) payload (env O w)) as [r0 e].
  intros H. injection H as <- <-. cbn. auto.
Qed.

Lemma do_read_spec (self : RouterConnection) (k : read_kind) (w w' : World O)
    (r : str + exc) :
  do_read O self k w = (r, w') ->
  trace O w' = trace O w /\ files O w' = files O w /\
  r = fst (shell_read O (host self) k (env O w)).
Proof.
  unfold do_read.
  destruct (shell_read O (host self) k (env O w)) as [r0 e].
  intros H. injection H as <- <-. cbn. auto.
Qed.

Lemma do_read_healthy (self : RouterConnection) (k : read_kind)
    (w w' : World O) (r : str + exc) :
  healthy O (host self) ->
  do_read O self k w = (r, w') -> exists s, r = inl s.
Proof.
  intros [_ Hr] H. apply do_read_spec in H as (_ & _ & ->). apply Hr.
Qed.

(** The keepalive sends one CR or nothing. *)
Lemma idle_keepalive_spec (self : RouterConnection) (w : World O) :
  exists ka : bool,
    trace O (idle_keepalive O self w)
    = trace O w ++ (if ka then [Send (host self) [CR]] else []) /\
    files O (idle_keepalive O self w) = files O w.
Proof.
  unfold idle_keepalive.
  destruct (match last_activity self with Some _ => _ | None => _ end).
  - exists true.
    destruct (do_send O self [CR] w) as [s w1] eqn:E1.
    apply do_send_spec in E1 as (Ht & Hf & _).
    destruct s; [auto|].
    destruct (do_read O self (QuietRead 200 1000) w1) as [r w2] eqn:E2.
    apply do_read_spec in E2 as (Ht2 & Hf2 & _). cbn.
    rewrite Ht2, Hf2. auto.
  - exists false. rewrite app_nil_r. auto.
Qed.
End SessionFacts.

Section SendCommandFacts.
Context (O : Outside).

(** Runs the reads and sends of a method, naming what each gave. *)
Ltac run_io :=
  repeat match goal with
  | |- context [do_send O ?s ?p ?w] =>
      let E := fresh "Esend" in
      destruct (do_send O s p w) as [? ?] eqn:E;
      pose proof (do_send_spec O _ _ _ _ _ E) as (? & ? & ?)
  | |- context [do_read O ?s ?k ?w] =>
      let E := fresh "Eread" in
      destruct (do_read O s k w) as [? ?] eqn:E;
      pose proof (do_read_spec O _ _ _ _ _ E) as (? & ? & ?)
  | |- context [match ?x with inl _ => _ | inr _ => _ end] => destruct x
  | |- context [match ?x with Some _ => _ | None => _ end] => destruct x
  | |- context [if ?b then _ else _] => destruct b eqn:?
  | |- context [let (_, _) := ?x in _] => destruct x eqn:?
  end.

Ltac trace_of :=
  repeat match goal with
  | H : trace O ?a = _ |- context [trace O ?a] => rewrite H
  | H : files O ?a = _ |- context [files O ?a] => rewrite H
  end.

Lemma ensure_connected_healthy (self : RouterConnection) (w : World O) :
  healthy O (host self) ->
  connected self = true -> shell self = true -> ssh_client self = true ->
  _ensure_connected O self w = None.
Proof.
  intros [Ha _] Hc Hs Hl. unfold _ensure_connected.
  rewrite Hc, Hs, Hl, Ha. reflexivity.
Qed.

(** [send_command] leaves the session's identity, flags and device type
    as they are, writes no file and only sends. *)
Lemma send_command_frame (self : RouterConnection) (command : str)
    (wait_time : Z) (w : World O) res self' w' :
  send_command O self command wait_time w = (res, self', w') ->
  host self' = host self /\ connected self' = connected self /\
  shell self' = shell self /\ ssh_client self' = ssh_client self /\
  device_type self' = device_type self /\
  files O w' = files O w /\
  exists evs, trace O w' = trace O w ++ evs /\
              Forall (fun ev => is_connect ev = false) evs.
Proof.
  unfold send_command.
  destruct (idle_keepalive_spec O self w) as (ka & Hka & Hkf).
  set (w1 := idle_keepalive O self w) in *. clearbody w1.
  destruct (negb (connected self) || negb (shell self)).
  { intros Hres; injection Hres as <- <- <-. repeat split.
    exists []. rewrite app_nil_r. auto. }
  destruct (_ensure_connected O self w).
  { intros Hres; injection Hres as <- <- <-. repeat split.
    exists []. rewrite app_nil_r. auto. }
  run_io.
  all: intros Hres; injection Hres as <- <- <-.
  all: repeat split; trace_of; try reflexivity.
  all: eexists; split; [rewrite <- ?app_assoc; reflexivity|].
  all: destruct ka; repeat constructor.
Qed.

(** On a healthy session the sends are those of the one command. *)
Lemma send_command_sends (self : RouterConnection) (command : str)
    (wait_time : Z) (w : World O) res self' w' :
  healthy O (host self) ->
  connected self = true -> shell self = true -> ssh_client self = true ->
  send_command O self command wait_time w = (res, self', w') ->
  exists ka rt,
    trace O w' = trace O w ++ command_sends (host self) command ka rt.
Proof.
  intros Hh Hc Hs Hl. unfold send_command.
  rewrite (ensure_connected_healthy self w Hh Hc Hs Hl), Hc, Hs. cbn [negb orb].
  destruct (idle_keepalive_spec O self w) as (ka & Hka & Hkf).
  set (w1 := idle_keepalive O self w) in *. clearbody w1.
  run_io.
  all: intros Hres; injection Hres as <- <- <-.
  all: try match goal with
       | H : inr _ = fst (shell_read O _ _ _) |- _ =>
           exfalso; destruct Hh as [_ Hr];
           match type of H with
           | _ = fst (shell_read O ?h ?k ?e) =>
               destruct (Hr k e) as [? Hx]; rewrite Hx in H; discriminate H
           end
       end.
  all: exists ka; unfold command_sends; trace_of.
  all: first [ exists false; rewrite app_nil_r, <- ?app_assoc; reflexivity
             | exists true; rewrite <- ?app_assoc; reflexivity ].
Qed.

(** The failures of [send_command]: the command is always there, the
    timestamp only when the failure comes from the handler. *)
Lemma send_command_failure_shape (self : RouterConnection) (command : str)
    (wait_time : Z) (w : World O) res self' w' :
  send_command O self command wait_time w = (res, self', w') ->
  succeeded res = false ->
  assoc (py "command") res = Some (VStr command) /\
  has_key (py "error") res = true /\
  has_key (py "timestamp") res = connected self && shell self.
Proof.
  unfold send_command.
  destruct (connected self), (shell self); cbn [negb orb andb].
  2-4: intros Hres; injection Hres as <- <- <-; intros _; repeat split.
  destruct (_ensure_connected O self w).
  { intros Hres; injection Hres as <- <- <-. intros _. repeat split. }
  set (w1 := idle_keepalive O self w) in *. clearbody w1.
  run_io.
  all: intros Hres; injection Hres as <- <- <-.
  all: intros Hs; try discriminate Hs; repeat split.
Qed.

(** [send_command] behind its guards is the exchange with the shell:
    the text that the exchange gave is cleaned and reported, an
    exception on the way is reported by the handler. *)
Lemma send_command_exchange (self : RouterConnection) (command : str)
    (wait_time : Z) (w : World O) :
  connected self = true -> shell self = true ->
  _ensure_connected O self w = None ->
  send_command O self command wait_time w
  = match exchange O self (strip command) wait_time (idle_keepalive O self w) with
    | (inl raw_output, w') =>
        (command_result O self command raw_output w',
         after_command O self command raw_output w', w')
    | (inr ex, w') => (send_failure O command ex w', self, w')
    end.
Proof.
  intros Hc Hs He. unfold send_command, exchange, command_result, after_command.
  rewrite Hc, Hs, He. cbn [negb orb].
  set (w1 := idle_keepalive O self w). clearbody w1.
  repeat match goal with
  | |- context [do_send O ?s ?p ?w] => destruct (do_send O s p w) as [? ?]
  | |- context [do_read O ?s ?k ?w] => destruct (do_read O s k w) as [? ?]
  | |- context [match ?x with inl _ => _ | inr _ => _ end] => destruct x
  | |- context [match ?x with Some _ => _ | None => _ end] => destruct x
  | |- context [if ?b then _ else _] => destruct b
  end.
  all: try reflexivity.
  all: destruct (clean_output _ _ _); reflexivity.
Qed.

(** The two guards of [send_command]. *)
Lemma send_command_guard (self : RouterConnection) (command : str)
    (wait_time : Z) (w : World O) :
  connected self && shell self = false ->
  send_command O self command wait_time w = (not_connected command, self, w).
Proof.
  intros H. unfold send_command.
  destruct (connected self), (shell self); try discriminate H; reflexivity.
Qed.

Lemma send_command_not_ready (self : RouterConnection) (command : str)
    (wait_time : Z) (w : World O) (ex : exc) :
  connected self = true -> shell self = true ->
  _ensure_connected O self w = Some ex ->
  send_command O self command wait_time w = (send_failure O command ex w, self, w).
Proof.
  intros Hc Hs He. unfold send_command. rewrite Hc, Hs, He. reflexivity.
Qed.

(** What the exchange sends: nothing when the first read raises, the
    command once, or twice when the echo had lost its first character. *)
Lemma exchange_sends (self : RouterConnection) (cc : str) (wait_time : Z)
    (w : World O) :
  let r := exchange O self cc wait_time w in
  files O r.2 = files O w /\
  (reads_come_back O (host self) ->
   exists rt : bool,
     trace O r.2
     = trace O w ++ Send (host self) (framed cc)
                    :: (if rt then [Send (host self) (framed cc)] else []) /\
     (sends_ok O (host self) -> exists raw_output, r.1 = inl raw_output)).
Proof.
  cbv zeta. unfold exchange. run_io.
  all: cbn [fst snd]; split; [trace_of; reflexivity|]; intros Hr.
  all: try match goal with
       | H : inr _ = fst (shell_read O _ _ _) |- _ =>
           exfalso;
           match type of H with
           | _ = fst (shell_read O ?h ?k ?e) =>
               destruct (Hr k e) as [? Hx]; rewrite Hx in H; discriminate H
           end
       end.
  all: first [ exists false; split;
                 [trace_of; rewrite <- ?app_assoc; reflexivity|]
             | exists true; split;
                 [trace_of; rewrite <- ?app_assoc; reflexivity|] ].
  all: intros Hok; try (eexists; reflexivity).
  all: match goal with
       | H : Some _ = fst (shell_send O _ _ _) |- _ =>
           exfalso; rewrite Hok in H; discriminate H
       end.
Qed.

(** The sends of a command on a session that is ready and whose reads
    come back. *)
Lemma send_command_sends_at (self : RouterConnection) (command : str)
    (wait_time : Z) (w : World O) :
  connected self = true -> shell self = true ->
  _ensure_connected O self w = None -> reads_come_back O (host self) ->
  exists ka rt,
    trace O (send_command O self command wait_time w).2
    = trace O w ++ command_sends (host self) command ka rt.
Proof.
  intros Hc Hs He Hr. rewrite (send_command_exchange self command wait_time w Hc Hs He).
  destruct (idle_keepalive_spec O self w) as (ka & Hka & _).
  destruct (exchange_sends self (strip command) wait_time (idle_keepalive O self w))
    as (_ & Hx).
  destruct (Hx Hr) as (rt & Ht & _).
  destruct (exchange O self (strip command) wait_time (idle_keepalive O self w))
    as [[raw|ex] w'].
  all: cbn [fst snd] in *; exists ka, rt; rewrite Ht, Hka; unfold command_sends.
  all: rewrite <- !app_assoc; reflexivity.
Qed.
End SendCommandFacts.

Section ConnectFacts.
Context (O : Outside) (upper : str -> str).

Lemma sends_only_refl (w : World O) : sends_only O w w.
Proof. split; [reflexivity|]. exists []. rewrite app_nil_r. auto. Qed.

Lemma sends_only_trans (w1 w2 w3 : World O) :
  sends_only O w1 w2 -> sends_only O w2 w3 -> sends_only O w1 w3.
Proof.
  intros [Hf1 (e1 & Ht1 & Hc1)] [Hf2 (e2 & Ht2 & Hc2)]. split.
  - congruence.
  - exists (e1 ++ e2). rewrite Ht2, Ht1, app_assoc. split; [reflexivity|].
    apply Forall_app; auto.
Qed.

Lemma do_send_sends_only (self : RouterConnection) (payload : str)
    (w w' : World O) r :
  do_send O self payload w = (r, w') -> sends_only O w w'.
Proof.
  intros H. apply do_send_spec in H as (Ht & Hf & _). split; [exact Hf|].
  eexists. split; [exact Ht|]. repeat constructor.
Qed.

Lemma do_read_sends_only (self : RouterConnection) (k : read_kind)
    (w w' : World O) r :
  do_read O self k w = (r, w') -> sends_only O w w'.
Proof.
  intros H. apply do_read_spec in H as (Ht & Hf & _). split; [exact Hf|].
  exists []. rewrite app_nil_r. auto.
Qed.

Ltac run_calls :=
  repeat match goal with
  | |- context [do_send O ?s ?p ?w] =>
      let E := fresh "Esend" in
      destruct (do_send O s p w) as [? ?] eqn:E;
      apply do_send_sends_only in E
  | |- context [do_read O ?s ?k ?w] =>
      let E := fresh "Eread" in
      destruct (do_read O s k w) as [? ?] eqn:E;
      apply do_read_sends_only in E
  | |- context [match ?x with inl _ => _ | inr _ => _ end] => destruct x
  | |- context [match ?x with Some _ => _ | None => _ end] => destruct x
  end.

Ltac chain :=
  repeat first [ assumption | apply sends_only_refl
               | eapply sends_only_trans; [eassumption|] ].

Lemma run_detect_device_type_spec (self self' : RouterConnection) (w w' : World O) :
  run_detect_device_type O upper self w = (self', w') ->
  host self' = host self /\ port self' = port self /\
  username self' = username self /\ sends_only O w w'.
Proof.
  unfold run_detect_device_type. run_calls.
  all: intros H; injection H as <- <-; repeat split; chain.
Qed.

Lemma detect_prompt_spec (self self' : RouterConnection) (w w' : World O) :
  _detect_prompt O self w = (self', w') ->
  host self' = host self /\ port self' = port self /\
  username self' = username self /\ device_type self' = device_type self /\
  sends_only O w w'.
Proof.
  unfold _detect_prompt. run_calls.
  all: intros H; injection H as <- <-; repeat split; chain.
Qed.

(** [connect] makes one connection attempt, whatever comes of it; a
    failure is reported with a timestamp, a success leaves the session
    connected. *)
Lemma connect_spec (self : RouterConnection) (timeout : Z) (w : World O)
    res self' w' :
  connect O upper self timeout w = (res, self', w') ->
  host self' = host self /\
  files O w' = files O w /\
  (exists evs,
     trace O w' = trace O w
                  ++ Connect (host self) (port self) (username self) :: evs /\
     Forall (fun ev => is_connect ev = false) evs) /\
  (succeeded res = true -> connected self' = true) /\
  (succeeded res = false ->
     has_key (py "error") res = true /\ has_key (py "timestamp") res = true /\
     has_key (py "command") res = false /\ has_key (py "host") res = false).
Proof.
  unfold connect.
  destruct (ssh_connect O _ _ _ _ _ _) as [c e1]. cbn [host port username set_ssh_client].
  destruct c as [ex|].
  { intros H; injection H as <- <- <-. cbn.
    repeat split; try discriminate; try (destruct ex; reflexivity).
    exists []. split; [reflexivity | constructor]. }
  destruct (invoke_shell O _ _) as [i e2]. cbn [env].
  destruct i as [ex|].
  { intros H; injection H as <- <- <-. cbn.
    repeat split; try discriminate; try (destruct ex; reflexivity).
    exists []. split; [reflexivity | constructor]. }
  destruct (do_read O _ InitialRecv _) as [r w1] eqn:E1.
  apply do_read_spec in E1 as (Ht1 & Hf1 & _).
  destruct r as [buf|ex].
  2:{ intros H; injection H as <- <- <-. cbn.
      repeat split; try discriminate; try (destruct ex; reflexivity).
      - exact Hf1.
      - exists []. rewrite Ht1. split; [reflexivity | constructor]. }
  destruct (run_detect_device_type O upper _ w1) as [s2 w2] eqn:E2.
  apply run_detect_device_type_spec in E2 as (Hh2 & _ & _ & Hf2 & evs2 & Ht2 & Hc2).
  destruct (_detect_prompt O s2 w2) as [s3 w3] eqn:E3.
  apply detect_prompt_spec in E3 as (Hh3 & _ & _ & _ & Hf3 & evs3 & Ht3 & Hc3).
  intros H; injection H as <- <- <-. cbn. repeat split; try discriminate.
  - rewrite Hh3, Hh2. reflexivity.
  - rewrite Hf3, Hf2, Hf1. reflexivity.
  - exists (evs2 ++ evs3). rewrite Ht3, Ht2, Ht1. cbn.
    rewrite <- !app_assoc. split; [reflexivity|]. apply Forall_app; auto.
Qed.
End ConnectFacts.

Section ConnectSession.
Context (O : Outside) (upper : str -> str).

Ltac io_specs :=
  repeat match goal with
  | |- context [do_send O ?s ?p ?w] =>
      let E := fresh "Esend" in
      destruct (do_send O s p w) as [? ?] eqn:E;
      pose proof (do_send_spec O _ _ _ _ _ E) as (? & ? & ?)
  | |- context [do_read O ?s ?k ?w] =>
      let E := fresh "Eread" in
      destruct (do_read O s k w) as [? ?] eqn:E;
      pose proof (do_read_spec O _ _ _ _ _ E) as (? & ? & ?)
  | |- context [match ?x with inl _ => _ | inr _ => _ end] => destruct x
  | |- context [match ?x with Some _ => _ | None => _ end] => destruct x
  end.

Ltac traces :=
  repeat match goal with
  | H : trace O ?a = _ |- context [trace O ?a] => rewrite H
  end.

(** What [_detect_device_type] and [_detect_prompt] do to the session and
    to the trace: nothing is touched but the device type, respectively
    the prompt, and nothing happens but sends. *)
Lemma run_detect_device_type_only_sends (self : RouterConnection) (w : World O) :
  let r := run_detect_device_type O upper self w in
  r.1 = set_device_type (device_type r.1) self /\
  exists evs, trace O r.2 = trace O w ++ evs /\
              Forall (fun ev => is_send ev = true) evs.
Proof.
  cbv zeta. unfold run_detect_device_type. io_specs.
  all: cbn [fst snd]; split; [reflexivity|]; traces.
  all: eexists; split;
         [rewrite <- ?app_assoc; try reflexivity; symmetry; apply app_nil_r|].
  all: repeat constructor.
Qed.

Lemma detect_prompt_only_sends (self : RouterConnection) (w : World O) :
  let r := _detect_prompt O self w in
  r.1 = set_prompt (prompt r.1) self /\
  exists evs, trace O r.2 = trace O w ++ evs /\
              Forall (fun ev => is_send ev = true) evs.
Proof.
  cbv zeta. unfold _detect_prompt. io_specs.
  all: cbn [fst snd]; split; [destruct self; reflexivity|]; traces.
  all: eexists; split;
         [rewrite <- ?app_assoc; try reflexivity; symmetry; apply app_nil_r|].
  all: repeat constructor.
Qed.

(** [connect]: one connection attempt and then only sends; on success the
    session is the one given with its client, shell and flag set, and the
    device type, prompt and time of last activity found. *)
Lemma connect_session (self : RouterConnection) (timeout : Z) (w : World O) :
  let r := connect O upper self timeout w in
  (exists evs,
     trace O r.2 = trace O w
                   ++ Connect (host self) (port self) (username self) :: evs /\
     Forall (fun ev => is_send ev = true) evs) /\
  (succeeded r.1.1 = true ->
   r.1.2 = mkRouter (host self) (username self) (password self) (port self)
             true true true (device_type r.1.2) (prompt r.1.2)
             (Some (time_time O (env O r.2)))).
Proof.
  cbv zeta. unfold connect.
  destruct (ssh_connect O _ _ _ _ _ _) as [[ex|] e1].
  { cbn. split; [|discriminate]. exists []. split; [reflexivity | constructor]. }
  destruct (invoke_shell O _ _) as [[ex|] e2].
  { cbn. split; [|discriminate]. exists []. split; [reflexivity | constructor]. }
  destruct (do_read O _ InitialRecv _) as [[buf|ex] w1] eqn:E1;
    apply do_read_spec in E1 as (Ht1 & _ & _).
  2:{ cbn. split; [|discriminate]. exists []. rewrite Ht1.
      split; [reflexivity | constructor]. }
  destruct (run_detect_device_type_only_sends
              (set_shell true (set_ssh_client true self)) w1)
    as (Hs2 & evs2 & Ht2 & Hc2).
  destruct (run_detect_device_type O upper _ w1) as [s2 w2].
  destruct (detect_prompt_only_sends s2 w2) as (Hs3 & evs3 & Ht3 & Hc3).
  destruct (_detect_prompt O s2 w2) as [s3 w3].
  cbn [fst snd] in *. split.
  - exists (evs2 ++ evs3). rewrite Ht3, Ht2, Ht1. cbn.
    rewrite <- !app_assoc. split; [reflexivity|]. apply Forall_app; auto.
  - intros _. rewrite Hs3, Hs2. reflexivity.
Qed.

End ConnectSession.

(** ** The dialect tables *)

(** Every command map defines the six operations the composite
    operations ask for. *)
Lemma command_templates_ops (D : str) (M : list (str * str)) :
  assoc D command_templates = Some M ->
  has_key (py "show_version") M = true /\
  has_key (py "show_running") M = true /\
  has_key (py "show_interfaces") M = true /\
  has_key (py "show_log") M = true /\
  has_key (py "show_routes") M = true /\
  has_key (py "show_arp") M = true.
Proof.
  unfold command_templates. cbn [assoc].
  repeat (destruct (str_eqb D _);
          [intros H; injection H as <-; repeat split; reflexivity|]).
  discriminate.
Qed.

Lemma has_key_assoc {V : Type} (k : str) (d : list (str * V)) :
  has_key k d = true -> exists v, assoc k d = Some v.
Proof. unfold has_key. destruct (assoc k d); [eauto | discriminate]. Qed.

(** The device types with a command map, and the pagination command of
    each: all but MikroTik have one. *)
Lemma command_templates_dialects (D : str) (M : list (str * str)) :
  assoc D command_templates = Some M ->
  In D (map py ["cisco_ios"; "cisco_ios_xe"; "generic"; "mikrotik"; "huawei"]%string).
Proof.
  unfold command_templates. cbn [assoc].
  repeat (destruct (str_eqb D _) eqn:E;
          [apply str_eqb_eq in E; subst D; intros _; cbn; tauto | clear E]).
  discriminate.
Qed.

Example paging_of_each :
  map paging_of (map py ["cisco_ios"; "cisco_ios_xe"; "generic"; "mikrotik"; "huawei"]%string)
  = [[py "terminal length 0"]; [py "terminal length 0"]; [py "terminal length 0"];
     []; [py "screen-length 0 temporary"]].
Proof. reflexivity. Qed.

(** ** Counting connection attempts *)

Lemma count_connects_app (a b : list event) :
  count_connects (a ++ b) = (count_connects a + count_connects b)%nat.
Proof. unfold count_connects. rewrite List.filter_app, length_app. reflexivity. Qed.

Lemma count_connects_none (evs : list event) :
  Forall (fun ev => is_connect ev = false) evs -> count_connects evs = 0%nat.
Proof.
  unfold count_connects. induction 1 as [|ev evs Hev _ IH]; [reflexivity|].
  simpl. rewrite Hev. exact IH.
Qed.

Lemma issues_app (h : str) (cs1 cs2 : list str) (e1 e2 : list event) :
  issues h cs1 e1 -> issues h cs2 e2 -> issues h (cs1 ++ cs2) (e1 ++ e2).
Proof.
  induction 1 as [|c cs ka rt evs _ IH]; intros H2; [exact H2|].
  rewrite <- app_assoc. cbn [app]. constructor. apply IH, H2.
Qed.

Lemma issues_one (h c : str) (ka rt : bool) :
  issues h [c] (command_sends h c ka rt).
Proof.
  rewrite <- (app_nil_r (command_sends h c ka rt)). repeat constructor.
Qed.

Section ManagerFacts.
Context (O : Outside) (upper : str -> str).

(** On a usable, healthy session [execute_command] sends the command and
    leaves the session usable. *)
Lemma execute_command_healthy (conns : Connections) (name command : str)
    (router : RouterConnection) (w : World O) :
  usable conns name router -> healthy O (host router) ->
  exists res conns' router' w' ka rt,
    execute_command O upper conns name command w = (res, conns', w') /\
    usable conns' name router' /\
    host router' = host router /\ device_type router' = device_type router /\
    files O w' = files O w /\
    trace O w' = trace O w ++ command_sends (host router) command ka rt.
Proof.
  intros (Hl & Hc & Hs & Hcl) Hh. unfold execute_command.
  rewrite Hl, Hc. cbn [negb].
  destruct (send_command O router command 2 w) as [[res r'] w'] eqn:E.
  destruct (send_command_sends O _ _ _ _ _ _ _ Hh Hc Hs Hcl E) as (ka & rt & Ht).
  apply send_command_frame in E as (Hh' & Hc' & Hs' & Hcl' & Hd' & Hf' & _).
  exists res, (<[name := r']> conns), r', w', ka, rt.
  repeat split; try assumption; try congruence.
  apply lookup_insert_eq.
Qed.

Lemma disable_paging_healthy (conns : Connections) (name D : str)
    (router : RouterConnection) (w : World O) :
  usable conns name router -> healthy O (host router) ->
  exists conns' router' w' evs,
    _disable_paging O upper conns name D w = (conns', w') /\
    usable conns' name router' /\
    host router' = host router /\ device_type router' = device_type router /\
    files O w' = files O w /\
    trace O w' = trace O w ++ evs /\
    issues (host router) (paging_of D) evs.
Proof.
  intros Hu Hh. unfold _disable_paging, paging_of.
  destruct (assoc D paging_cmds) as [[|c cmd]|].
  - exists conns, router, w, []. rewrite app_nil_r.
    repeat split; try apply Hu. constructor.
  - destruct (execute_command_healthy conns name (c :: cmd) router w Hu Hh)
      as (res & conns' & r' & w' & ka & rt & E & Hu' & Hh' & Hd' & Hf' & Ht').
    rewrite E. exists conns', r', w', (command_sends (host router) (c :: cmd) ka rt).
    repeat split; try apply Hu'; try assumption. apply issues_one.
  - exists conns, router, w, []. rewrite app_nil_r.
    repeat split; try apply Hu. constructor.
Qed.

(** C4, as amended: for a device type with a command map [M],
    [get_router_info] on a usable, healthy session issues the device
    type's pagination command, when [_disable_paging] has one, and then
    [M["show_version"]] and [M["show_interfaces"]], in this order and
    nothing else; for a device type without a command map it returns
    the unsupported result and does nothing. *)
Theorem get_router_info_commands (conns : Connections) (name : str)
    (router : RouterConnection) (w : World O) :
  conns !! name = Some router ->
  (forall M, assoc (device_type router) command_templates = Some M ->
     exists cv ci,
       assoc (py "show_version") M = Some cv /\
       assoc (py "show_interfaces") M = Some ci /\
       (healthy O (host router) -> connected router = true ->
        shell router = true -> ssh_client router = true ->
        exists res conns' w' evs,
          get_router_info O upper conns name w = (inl res, conns', w') /\
          succeeded res = true /\
          files O w' = files O w /\
          trace O w' = trace O w ++ evs /\
          issues (host router) (paging_of (device_type router) ++ [cv; ci]) evs))
  /\
  (assoc (device_type router) command_templates = None ->
   get_router_info O upper conns name w
   = (inl (unsupported (device_type router)), conns, w)).
Proof.
  intros Hl. split.
  - intros M HM.
    destruct (command_templates_ops _ _ HM) as (Hv & _ & Hi & _).
    apply has_key_assoc in Hv as [cv Hv]. apply has_key_assoc in Hi as [ci Hi].
    exists cv, ci. split; [exact Hv|]. split; [exact Hi|].
    intros Hh Hc Hs Hcl.
    unfold get_router_info. rewrite Hl, HM.
    destruct (disable_paging_healthy conns name (device_type router) router w
                (conj Hl (conj Hc (conj Hs Hcl))) Hh)
      as (conns1 & r1 & w1 & evs1 & E1 & Hu1 & Hh1 & Hd1 & Hf1 & Ht1 & Hi1).
    rewrite E1, Hv.
    rewrite <- Hh1 in Hh.
    destruct (execute_command_healthy conns1 name cv r1 w1 Hu1 Hh)
      as (res2 & conns2 & r2 & w2 & ka2 & rt2 & E2 & Hu2 & Hh2 & Hd2 & Hf2 & Ht2).
    rewrite E2, Hi.
    rewrite <- Hh2 in Hh.
    destruct (execute_command_healthy conns2 name ci r2 w2 Hu2 Hh)
      as (res3 & conns3 & r3 & w3 & ka3 & rt3 & E3 & Hu3 & Hh3 & Hd3 & Hf3 & Ht3).
    rewrite E3.
    eexists _, conns3, w3, _. split; [reflexivity|].
    split; [reflexivity|]. split; [congruence|].
    split.
    + rewrite Ht3, Ht2, Ht1, <- !app_assoc. reflexivity.
    + apply issues_app; [exact Hi1|].
      rewrite Hh2, Hh1.
      change [cv; ci] with ([cv] ++ [ci]).
      apply issues_app; apply issues_one.
  - intros HN. unfold get_router_info. rewrite Hl, HN. reflexivity.
Qed.
(** The collection of [get_logs] as a loop over its entries. *)
Lemma get_logs_fold (conns : Connections) (name log_type : str)
    (router : RouterConnection) (M : list (str * str)) (w : World O) :
  conns !! name = Some router ->
  assoc (device_type router) command_templates = Some M ->
  get_logs O upper conns name log_type w
  = let (conns1, w1) :=
      _disable_paging O upper conns name (device_type router) w in
    let '(logs, conns2, w2) :=
      fold_left (fun st e => collect_log O upper M name e.1 e.2 st)
        (log_entries log_type) (inl [], conns1, w1) in
    match logs with
    | inr e => (inr e, conns2, w2)
    | inl logs =>
        (inl [(py "success", VBool true);
              (py "router_name", VStr name);
              (py "log_type", VStr log_type);
              (py "logs", VDict logs);
              (py "timestamp", timestamp O w2)],
         conns2, w2)
    end.
Proof.
  intros Hl HM. unfold get_logs, log_entries. rewrite Hl, HM.
  destruct (_disable_paging O upper conns name (device_type router) w)
    as [conns1 w1].
  destruct (str_eqb log_type (py "all")), (str_eqb log_type (py "system")),
    (str_eqb log_type (py "interface")), (str_eqb log_type (py "routing"));
    reflexivity.
Qed.

End ManagerFacts.

Lemma sim_healthy (banner h : str) : healthy (sim_device banner true) h.
Proof. split; [intros e; reflexivity | intros k e; eexists; reflexivity]. Qed.

Lemma sim_sends_ok (banner h : str) (up : bool) : sends_ok (sim_device banner up) h.
Proof. intros payload e. reflexivity. Qed.

Lemma get_router_info_commands_witness :
  let O := sim_device (py "Cisco IOS Software, C2960 Software") true in
  let conns := one_session (py "r1") (live_session (py "10.0.0.1") (py "cisco_ios")) in
  let w := sim_world (py "Cisco IOS Software, C2960 Software") true in
  exists res conns' w' evs,
    get_router_info O ascii_upper conns (py "r1") w = (inl res, conns', w') /\
    succeeded res = true /\
    files O w' = files O w /\
    trace O w' = trace O w ++ evs /\
    issues (py "10.0.0.1")
      [py "terminal length 0"; py "show version"; py "show ip interface brief"]
      evs.
Proof.
  cbv zeta.
  destruct (get_router_info_commands
              (sim_device (py "Cisco IOS Software, C2960 Software") true)
              ascii_upper
              (one_session (py "r1") (live_session (py "10.0.0.1") (py "cisco_ios")))
              (py "r1") (live_session (py "10.0.0.1") (py "cisco_ios"))
              (sim_world (py "Cisco IOS Software, C2960 Software") true)
              ltac:(vm_compute; reflexivity)) as [H _].
  destruct (H _ eq_refl) as (cv & ci & Hv & Hi & Hrun).
  injection Hv as <-. injection Hi as <-.
  exact (Hrun (sim_healthy _ _) eq_refl eq_refl eq_refl).
Defined.

(** C4 as stated fails: on a Cisco IOS session three commands are sent,
    the first of them neither [show_version] nor [show_interfaces]. *)
Lemma get_router_info_sends_paging_command :
  let O := sim_device (py "Cisco IOS Software, C2960 Software") true in
  let conns := one_session (py "r1") (live_session (py "10.0.0.1") (py "cisco_ios")) in
  let w := sim_world (py "Cisco IOS Software, C2960 Software") true in
  (assoc (py "cisco_ios") command_templates ≫= assoc (py "show_version"))
  = Some (py "show version") /\
  (assoc (py "cisco_ios") command_templates ≫= assoc (py "show_interfaces"))
  = Some (py "show ip interface brief") /\
  trace O (get_router_info O ascii_upper conns (py "r1") w).2
  = [Send (py "10.0.0.1") (framed (py "terminal length 0"));
     Send (py "10.0.0.1") (framed (py "show version"));
     Send (py "10.0.0.1") (framed (py "show ip interface brief"))].
Proof. cbv zeta. repeat split; vm_compute; reflexivity. Qed.

Section RegistryClaims.
Context (O : Outside) (upper : str -> str).

(** [_check_connection_alive] is where liveness is read off the
    transport: its answer is whether there is a client with an active
    transport, and it stores that answer in the [connected] flag. *)
Lemma check_connection_alive_spec (connection : RouterConnection) (w : World O) :
  (_check_connection_alive O connection w).1
  = ssh_client connection && transport_active O (host connection) (env O w) /\
  connected (_check_connection_alive O connection w).2
  = (_check_connection_alive O connection w).1.
Proof.
  unfold _check_connection_alive.
  destruct (ssh_client connection); cbn [negb andb]; [|split; reflexivity].
  destruct (transport_active O (host connection) (env O w));
    split; reflexivity.
Qed.

(** ** Reconnecting (C5) *)

(** [execute_command] on a session whose flag is not set: one attempt to
    connect, first; its failure is the result; after its success the
    command is handed to [send_command] on the session as [connect] left
    it. *)
Lemma execute_command_reconnect (conns : Connections)
    (name command : str) (router : RouterConnection) (w : World O) :
  conns !! name = Some router -> connected router = false ->
  let r := execute_command O upper conns name command w in
  let c := connect O upper router 30000 w in
  let attempt := Connect (host router) (port router) (username router) in
  count_connects (trace O r.2) = (count_connects (trace O w) + 1)%nat /\
  (exists evs, trace O c.2 = trace O w ++ attempt :: evs /\
               Forall (fun ev => is_connect ev = false) evs) /\
  (succeeded c.1.1 = false -> r = (c.1.1, <[name := c.1.2]> conns, c.2)) /\
  (succeeded c.1.1 = true ->
   r = (let '(res, router', w') := send_command O c.1.2 command 2 c.2 in
        (res, <[name := router']> conns, w')) /\
   (exists evs, trace O r.2 = trace O c.2 ++ evs /\
                Forall (fun ev => is_connect ev = false) evs) /\
   (transport_active O (host router) (env O c.2) = true ->
    reads_come_back O (host router) ->
    exists ka rt,
      trace O r.2 = trace O c.2 ++ command_sends (host router) command ka rt)).
Proof.
  intros Hl Hc. cbv zeta. unfold execute_command. rewrite Hl, Hc. cbn [negb].
  destruct (connect_session O upper router 30000 w) as [_ Hss].
  destruct (connect O upper router 30000 w) as [[rr r1] w1] eqn:E1.
  apply connect_spec in E1 as (Hh1 & _ & (evs1 & Ht1 & Hn1) & _ & _).
  cbn [fst snd] in *.
  assert (H1 : count_connects (trace O w1)
               = (count_connects (trace O w) + 1)%nat).
  { rewrite Ht1, count_connects_app.
    change (Connect (host router) (port router) (username router) :: evs1)
      with ([Connect (host router) (port router) (username router)] ++ evs1).
    rewrite count_connects_app, (count_connects_none _ Hn1). reflexivity. }
  destruct (succeeded rr) eqn:Hrr; cbn [negb].
  - specialize (Hss eq_refl).
    pose proof (send_command_sends_at O r1 command 2 w1) as Hsends.
    destruct (send_command O r1 command 2 w1) as [[res r2] w2] eqn:E2.
    apply send_command_frame in E2 as (_ & _ & _ & _ & _ & _ & evs & Ht & Hn).
    cbn [fst snd] in *.
    split; [rewrite Ht, count_connects_app, (count_connects_none _ Hn), H1; lia|].
    split; [exists evs1; auto|]. split; [discriminate|]. intros _.
    split; [rewrite insert_insert_eq; reflexivity|].
    split; [exists evs; auto|].
    intros Ha Hr. rewrite <- Hh1. apply Hsends.
    + rewrite Hss. reflexivity.
    + rewrite Hss. reflexivity.
    + unfold _ensure_connected. rewrite Hss.
      cbn [connected ssh_client shell host negb orb].
      rewrite Ha. reflexivity.
    + rewrite Hh1. exact Hr.
  - cbn [fst snd]. split; [exact H1|]. split; [exists evs1; auto|].
    split; [reflexivity | discriminate].
Qed.

(** C5, as amended: for a registered session [execute_command] looks at
    the session's stored [connected] flag only.  With the flag set no
    connection is attempted: the command is handed to [send_command] on
    the session as it is.  With the flag not set exactly one connection
    is attempted, first; when it fails its result is returned and
    nothing is sent; when it succeeds the command is handed to
    [send_command] on the session as [connect] left it, so that what is
    sent for the command follows the attempt, and on an active transport
    whose reads come back the command does go out.  The flag is not
    recomputed from the transport: with the flag set and the transport
    inactive no connection is attempted, the command is not sent and the
    result is the failure "SSH transport inactive". *)
Theorem execute_command_reconnects_on_flag (conns : Connections)
    (name command : str) (router : RouterConnection) (w : World O) :
  conns !! name = Some router ->
  let r := execute_command O upper conns name command w in
  let c := connect O upper router 30000 w in
  let attempt := Connect (host router) (port router) (username router) in
  (connected router = true ->
   r = (let '(res, router', w') := send_command O router command 2 w in
        (res, <[name := router']> conns, w')) /\
   count_connects (trace O r.2) = count_connects (trace O w)) /\
  (connected router = false ->
   count_connects (trace O r.2) = (count_connects (trace O w) + 1)%nat /\
   (exists evs, trace O c.2 = trace O w ++ attempt :: evs /\
                Forall (fun ev => is_connect ev = false) evs) /\
   (succeeded c.1.1 = false -> r = (c.1.1, <[name := c.1.2]> conns, c.2)) /\
   (succeeded c.1.1 = true ->
    r = (let '(res, router', w') := send_command O c.1.2 command 2 c.2 in
         (res, <[name := router']> conns, w')) /\
    (exists evs, trace O r.2 = trace O c.2 ++ evs /\
                 Forall (fun ev => is_connect ev = false) evs) /\
    (transport_active O (host router) (env O c.2) = true ->
     reads_come_back O (host router) ->
     exists ka rt,
       trace O r.2 = trace O c.2 ++ command_sends (host router) command ka rt))) /\
  (connected router = true -> shell router = true ->
   ssh_client router = true ->
   transport_active O (host router) (env O w) = false ->
   r = (send_failure O command (RuntimeError (py "SSH transport inactive")) w,
        <[name := router]> conns, w)).
Proof.
  intros Hl. cbv zeta. split; [|split].
  - intros Hc. unfold execute_command. rewrite Hl, Hc. cbn [negb].
    split; [reflexivity|].
    destruct (send_command O router command 2 w) as [[res r'] w'] eqn:E.
    apply send_command_frame in E as (_ & _ & _ & _ & _ & _ & evs & Ht & Hn).
    cbn. rewrite Ht, count_connects_app, (count_connects_none _ Hn). lia.
  - intros Hc. apply (execute_command_reconnect conns name command router w Hl Hc).
  - intros Hc Hs Hcl Ha. unfold execute_command. rewrite Hl, Hc. cbn [negb].
    unfold send_command, _ensure_connected.
    rewrite Hc, Hs, Hcl, Ha. reflexivity.
Qed.

(** ** Backup on an unsupported dialect (C6) *)

(** C6: for a registered session whose device type has no
    [show_running] mapping, [backup_config] returns the unsupported
    failure and changes neither the registry nor the world: no command
    is sent and no file is written. *)
Theorem backup_config_unsupported (conns : Connections) (name : str)
    (router : RouterConnection) (w : World O) :
  conns !! name = Some router ->
  (assoc (device_type router) command_templates ≫= assoc (py "show_running"))
  = None ->
  backup_config O upper conns name w
  = (inl [(py "success", VBool false);
          (py "error",
           VStr (py "Unsupported device type: " ++ device_type router))],
     conns, w).
Proof.
  intros Hl HN. unfold backup_config. rewrite Hl.
  destruct (assoc (device_type router) command_templates) as [M|] eqn:E.
  - exfalso. destruct (command_templates_ops _ _ E) as (_ & Hr & _).
    apply has_key_assoc in Hr as [c Hr].
    change (assoc (py "show_running") M = None) in HN. rewrite Hr in HN.
    discriminate HN.
  - reflexivity.
Qed.

(** ** Error results (C7) *)

(** The failures of [execute_command]: the not-found result, the
    not-connected result of [send_command], or a result that a handler
    made, with a timestamp. *)
Lemma execute_command_failure (conns : Connections) (name command : str)
    (w : World O) :
  let res := (execute_command O upper conns name command w).1.1 in
  succeeded res = false ->
  has_key (py "error") res = true /\
  (res = not_found name \/ res = not_connected command \/
   has_key (py "timestamp") res = true).
Proof.
  cbv zeta. unfold execute_command.
  destruct (conns !! name) as [router|]; [|intros _; split; [reflexivity | auto]].
  destruct (connected router) eqn:Hc; cbn [negb].
  - destruct (shell router) eqn:Hs.
    + destruct (send_command O router command 2 w) as [[res r'] w'] eqn:E.
      cbn [fst snd]. intros Hf.
      destruct (send_command_failure_shape O _ _ _ _ _ _ _ E Hf) as (_ & He & Ht).
      rewrite Hc, Hs in Ht. auto.
    + rewrite (send_command_guard O router command 2 w)
        by (rewrite Hc, Hs; reflexivity).
      intros _. split; [reflexivity | auto].
  - destruct (connect_session O upper router 30000 w) as [_ Hss].
    destruct (connect O upper router 30000 w) as [[rr r1] w1] eqn:E1.
    apply connect_spec in E1 as (_ & _ & _ & _ & Hcf). cbn [fst snd] in *.
    destruct (succeeded rr) eqn:Hrr; cbn [negb].
    + specialize (Hss eq_refl).
      destruct (send_command O r1 command 2 w1) as [[res r2] w2] eqn:E.
      cbn [fst snd]. intros Hf.
      destruct (send_command_failure_shape O _ _ _ _ _ _ _ E Hf) as (_ & He & Ht).
      rewrite Hss in Ht. auto.
    + cbn [fst snd]. intros _. destruct (Hcf eq_refl) as (He & Ht & _). auto.
Qed.

(** [backup_config] behind its guards. *)
Lemma backup_config_steps (conns : Connections) (name : str)
    (router : RouterConnection) (M : list (str * str)) (cmd : str) (w : World O) :
  conns !! name = Some router ->
  assoc (device_type router) command_templates = Some M ->
  assoc (py "show_running") M = Some cmd ->
  backup_config O upper conns name w
  = let (conns1, w1) := _disable_paging O upper conns name (device_type router) w in
    let '(result, conns2, w2) := execute_command O upper conns1 name cmd w1 in
    if succeeded result then
      let filename := backup_filename name (strftime O (time_time O (env O w2))) in
      let filepath := py "../logs/" ++ filename in
      let header := backup_header O name (host router) (device_type router) cmd w2 in
      match open_refused O filepath (env O w2) with
      | Some e => (inl (save_failed e), conns2, w2)
      | None =>
          match assoc (py "output") result with
          | Some (VStr output) =>
              match write_fails O filepath (header ++ output) (env O w2) with
              | Some (e, partial) =>
                  (inl (save_failed e), conns2, write_file O filepath partial w2)
              | None =>
                  (inl [(py "success", VBool true);
                        (py "message",
                         VStr (py "Configuration backed up successfully"));
                        (py "filename", VStr filename);
                        (py "filepath", VStr filepath);
                        (py "router_name", VStr name);
                        (py "timestamp", timestamp O w2)],
                   conns2, write_file O filepath (header ++ output) w2)
              end
          | _ =>
              match write_fails O filepath header (env O w2) with
              | Some (e, partial) =>
                  (inl (save_failed e), conns2, write_file O filepath partial w2)
              | None =>
                  (inl (save_failed (KeyError (py "output"))), conns2,
                   write_file O filepath header w2)
              end
          end
      end
    else (inl result, conns2, w2).
Proof.
  intros Hl HM Hcmd. unfold backup_config. rewrite Hl, HM, Hcmd.
  destruct (_disable_paging O upper conns name (device_type router) w)
    as [conns1 w1].
  destruct (execute_command O upper conns1 name cmd w1) as [[res conns2] w2].
  reflexivity.
Qed.

(** C7, as amended: every failure that the operations return carries
    [success = False] and an [error] text; a timestamp and the target
    are not always there.  The failures of [send_command] carry the
    command, and a timestamp when they come from its handler, not when
    they come from its guard (not connected).  The failures of [connect]
    carry a timestamp and neither host nor command.  A failure of
    [execute_command] is the not-found result, the not-connected result
    of [send_command], or a result of one of these handlers, with a
    timestamp; a failure of [add_router] is the failure of its
    [connect]; a failure of [remove_router], [get_router_info] or
    [get_logs] is a result of their guards: router not found or
    unsupported device type; a failure of [backup_config] is one of
    these two, the failure of its command, or the result of its own
    handler when the file cannot be opened or written.  The results of
    the guards and of the handler of [backup_config] hold [success] and
    [error] only, with no timestamp: the router name, the device type or
    the text of the exception is part of the error text. *)
Theorem error_results_shape :
  (forall self command wait_time w,
     let res := (send_command O self command wait_time w).1.1 in
     succeeded res = false ->
     assoc (py "command") res = Some (VStr command) /\
     has_key (py "error") res = true /\
     has_key (py "timestamp") res = connected self && shell self) /\
  (forall self timeout w,
     let res := (connect O upper self timeout w).1.1 in
     succeeded res = false ->
     has_key (py "error") res = true /\ has_key (py "timestamp") res = true /\
     has_key (py "command") res = false /\ has_key (py "host") res = false) /\
  (forall conns name command w,
     let res := (execute_command O upper conns name command w).1.1 in
     succeeded res = false ->
     has_key (py "error") res = true /\
     (res = not_found name \/ res = not_connected command \/
      has_key (py "timestamp") res = true)) /\
  (forall conns name h u pw pt dt w,
     let r := add_router O upper conns name h u pw pt dt w in
     succeeded r.1.1 = false ->
     r.1.1 = (connect O upper (RouterConnection_init h u pw pt) 30000 w).1.1 /\
     has_key (py "error") r.1.1 = true /\ has_key (py "timestamp") r.1.1 = true) /\
  (forall conns name w,
     succeeded (remove_router O conns name w).1.1 = false ->
     remove_router O conns name w = (not_found name, conns, w)) /\
  (forall conns name w res,
     (get_router_info O upper conns name w).1.1 = inl res ->
     succeeded res = false ->
     res = not_found name \/ exists d, res = unsupported d) /\
  (forall conns name log_type w res,
     (get_logs O upper conns name log_type w).1.1 = inl res ->
     succeeded res = false ->
     res = not_found name \/ exists d, res = unsupported d) /\
  (forall conns name w res,
     (backup_config O upper conns name w).1.1 = inl res ->
     succeeded res = false ->
     res = not_found name \/ (exists d, res = unsupported d) \/
     (exists e, res = save_failed e) \/
     (has_key (py "error") res = true /\
      ((exists command, res = not_connected command) \/
       has_key (py "timestamp") res = true))) /\
  (forall conns name router M cmd w,
     conns !! name = Some router ->
     assoc (device_type router) command_templates = Some M ->
     assoc (py "show_running") M = Some cmd ->
     let p := _disable_paging O upper conns name (device_type router) w in
     let x := execute_command O upper p.1 name cmd p.2 in
     let filepath :=
       py "../logs/"
       ++ backup_filename name (strftime O (time_time O (env O x.2))) in
     succeeded x.1.1 = true ->
     (forall e, open_refused O filepath (env O x.2) = Some e ->
        backup_config O upper conns name w = (inl (save_failed e), x.1.2, x.2)) /\
     (forall output e partial,
        open_refused O filepath (env O x.2) = None ->
        assoc (py "output") x.1.1 = Some (VStr output) ->
        write_fails O filepath
          (backup_header O name (host router) (device_type router) cmd x.2
           ++ output) (env O x.2)
        = Some (e, partial) ->
        backup_config O upper conns name w
        = (inl (save_failed e), x.1.2, write_file O filepath partial x.2))) /\
  (forall conns name w,
     conns !! name = None ->
     (forall command,
        execute_command O upper conns name command w = (not_found name, conns, w)) /\
     remove_router O conns name w = (not_found name, conns, w) /\
     get_router_info O upper conns name w = (inl (not_found name), conns, w) /\
     backup_config O upper conns name w = (inl (not_found name), conns, w) /\
     (forall log_type,
        get_logs O upper conns name log_type w = (inl (not_found name), conns, w))) /\
  (forall conns name router w,
     conns !! name = Some router ->
     assoc (device_type router) command_templates = None ->
     get_router_info O upper conns name w
     = (inl (unsupported (device_type router)), conns, w) /\
     backup_config O upper conns name w
     = (inl (unsupported (device_type router)), conns, w) /\
     (forall log_type,
        get_logs O upper conns name log_type w
        = (inl (unsupported (device_type router)), conns, w))) /\
  (forall name,
     not_found name
     = [(py "success", VBool false);
        (py "error", VStr (py "Router " ++ name ++ py " not found"))] /\
     has_key (py "timestamp") (not_found name) = false) /\
  (forall d,
     unsupported d
     = [(py "success", VBool false);
        (py "error", VStr (py "Unsupported device type: " ++ d))] /\
     has_key (py "timestamp") (unsupported d) = false) /\
  (forall e,
     save_failed e
     = [(py "success", VBool false);
        (py "error", VStr (py "Failed to save backup: " ++ exc_str e))] /\
     has_key (py "timestamp") (save_failed e) = false) /\
  (forall command,
     not_connected command
     = [(py "success", VBool false);
        (py "error", VStr (py "Not connected to router"));
        (py "command", VStr command)] /\
     has_key (py "timestamp") (not_connected command) = false).
Proof.
  split.
  { intros self command wait_time w res Hf.
    destruct (send_command O self command wait_time w) as [[res' r'] w'] eqn:E.
    apply (send_command_failure_shape O _ _ _ _ _ _ _ E Hf). }
  split.
  { intros self timeout w res Hf.
    destruct (connect O upper self timeout w) as [[res' r'] w'] eqn:E.
    apply connect_spec in E as (_ & _ & _ & _ & H). apply (H Hf). }
  split; [exact execute_command_failure|].
  split.
  { intros conns name h u pw pt dt w. cbv zeta. unfold add_router.
    destruct (connect O upper (RouterConnection_init h u pw pt) 30000 w)
      as [[rr r1] w1] eqn:E.
    apply connect_spec in E as (_ & _ & _ & _ & H). cbn [fst snd].
    destruct (succeeded rr) eqn:Hrr; cbn [fst snd]; [discriminate|].
    intros _. destruct (H eq_refl) as (He & Ht & _). auto. }
  split.
  { intros conns name w. unfold remove_router.
    destruct (conns !! name) as [router|]; [|reflexivity].
    destruct (disconnect O router w). discriminate. }
  split.
  { intros conns name w res. unfold get_router_info.
    destruct (conns !! name) as [router|];
      [|intros H; injection H as <-; auto].
    destruct (assoc (device_type router) command_templates) as [M|] eqn:HM;
      [|intros H; injection H as <-; eauto].
    destruct (_disable_paging O upper conns name (device_type router) w)
      as [conns1 w1].
    destruct (assoc (py "show_version") M); [|discriminate].
    destruct (execute_command O upper conns1 name _ w1) as [[vr conns2] w2].
    destruct (assoc (py "show_interfaces") M); [|discriminate].
    destruct (execute_command O upper conns2 name _ w2) as [[ir conns3] w3].
    intros H; injection H as <-. discriminate. }
  split.
  { intros conns name log_type w res.
    destruct (conns !! name) as [router|] eqn:Hl;
      [|unfold get_logs; rewrite Hl; intros H; injection H as <-; auto].
    destruct (assoc (device_type router) command_templates) as [M|] eqn:HM;
      [|unfold get_logs; rewrite Hl, HM; intros H; injection H as <-; eauto].
    rewrite (get_logs_fold O upper _ _ _ _ _ _ Hl HM).
    destruct (_disable_paging O upper conns name (device_type router) w)
      as [conns1 w1].
    destruct (fold_left _ (log_entries log_type) _) as [[[logs|e] c] w'];
      [|discriminate].
    intros H; injection H as <-. discriminate. }
  split.
  { intros conns name w res.
    destruct (conns !! name) as [router|] eqn:Hl;
      [|unfold backup_config; rewrite Hl; intros H; injection H as <-; auto].
    destruct (assoc (device_type router) command_templates) as [M|] eqn:HM;
      [|unfold backup_config; rewrite Hl, HM; intros H; injection H as <-; eauto].
    destruct (command_templates_ops _ _ HM) as (_ & Hr & _).
    apply has_key_assoc in Hr as (cmd & Hcmd).
    rewrite (backup_config_steps _ _ _ _ _ _ Hl HM Hcmd).
    destruct (_disable_paging O upper conns name (device_type router) w)
      as [conns1 w1].
    pose proof (execute_command_failure conns1 name cmd w1) as Hx.
    destruct (execute_command O upper conns1 name cmd w1) as [[x conns2] w2].
    cbn [fst snd] in Hx.
    destruct (succeeded x) eqn:Hs.
    - cbv zeta. destruct (open_refused O _ _);
        [intros H; injection H as <-; eauto|].
      destruct (assoc (py "output") x) as [[| |]|];
        destruct (write_fails O _ _ _) as [[? ?]|];
        intros H; injection H as <-; try discriminate; eauto.
    - intros H; injection H as <-. intros _.
      destruct (Hx eq_refl) as (He & [->|[->|Ht]]); eauto 10. }
  split.
  { intros conns name router M cmd w Hl HM Hcmd. cbv zeta.
    rewrite (backup_config_steps _ _ _ _ _ _ Hl HM Hcmd).
    destruct (_disable_paging O upper conns name (device_type router) w)
      as [conns1 w1]. cbn [fst snd].
    destruct (execute_command O upper conns1 name cmd w1) as [[x conns2] w2].
    cbn [fst snd]. intros ->. cbv zeta. split.
    - intros e ->. reflexivity.
    - intros output e partial -> -> ->. reflexivity. }
  split.
  { intros conns name w H. repeat split.
    - intros command. unfold execute_command. rewrite H. reflexivity.
    - unfold remove_router. rewrite H. reflexivity.
    - unfold get_router_info. rewrite H. reflexivity.
    - unfold backup_config. rewrite H. reflexivity.
    - intros log_type. unfold get_logs. rewrite H. reflexivity. }
  split.
  { intros conns name router w H H0. repeat split.
    - unfold get_router_info. rewrite H, H0. reflexivity.
    - unfold backup_config. rewrite H, H0. reflexivity.
    - intros log_type. unfold get_logs. rewrite H, H0. reflexivity. }
  repeat split.
Qed.
End RegistryClaims.

(** A session flagged as not connected, on a device that is up: the one
    attempt, the detection that [connect] makes, and then the command. *)
Lemma execute_command_reconnects_on_flag_witness :
  let O := sim_device (py "Cisco IOS Software, C2960 Software") true in
  let router := set_connected false (live_session (py "10.0.0.1") (py "cisco_ios")) in
  let conns := one_session (py "r1") router in
  let w := sim_world (py "Cisco IOS Software, C2960 Software") true in
  let r := execute_command O ascii_upper conns (py "r1") (py "show clock") w in
  count_connects (trace O r.2) = 1%nat /\
  (exists ka rt,
     trace O r.2
     = [Connect (py "10.0.0.1") 22 (py "admin");
        Send (py "10.0.0.1") (py "show version" ++ [LF]);
        Send (py "10.0.0.1") [CR]]
       ++ command_sends (py "10.0.0.1") (py "show clock") ka rt) /\
  assoc (py "output") r.1.1 = Some (VStr (py "ok")).
Proof.
  intros O router conns w r.
  destruct (execute_command_reconnects_on_flag O ascii_upper conns (py "r1")
              (py "show clock") router w ltac:(vm_compute; reflexivity))
    as (_ & H & _).
  destruct (H eq_refl) as (Hcount & _ & _ & Hok).
  destruct (Hok ltac:(vm_compute; reflexivity)) as (_ & _ & Hsends).
  split; [exact Hcount|]. split.
  - destruct (Hsends eq_refl (proj2 (sim_healthy _ _))) as (ka & rt & Ht).
    exists ka, rt. exact Ht.
  - vm_compute. reflexivity.
Defined.

(** C5 as stated fails: a session whose transport has gone inactive
    while its flag still says connected is not alive, yet no reconnect is
    attempted and the command fails. *)
Lemma execute_command_trusts_flag :
  let O := sim_device (py "Cisco IOS Software, C2960 Software") false in
  let router := live_session (py "10.0.0.1") (py "cisco_ios") in
  let conns := one_session (py "r1") router in
  let w := sim_world (py "Cisco IOS Software, C2960 Software") false in
  let out := execute_command O ascii_upper conns (py "r1") (py "show clock") w in
  (_check_connection_alive O router w).1 = false /\
  count_connects (trace O out.2) = 0%nat /\
  trace O out.2 = [] /\
  assoc (py "error") out.1.1 = Some (VStr (py "SSH transport inactive")).
Proof. cbv zeta. repeat split; vm_compute; reflexivity. Qed.

Lemma backup_config_unsupported_witness :
  let O := sim_device (py "JUNOS 12.1R1.9") true in
  let conns := one_session (py "r1") (live_session (py "10.0.0.1") (py "juniper")) in
  let w := sim_world (py "JUNOS 12.1R1.9") true in
  backup_config O ascii_upper conns (py "r1") w
  = (inl [(py "success", VBool false);
          (py "error", VStr (py "Unsupported device type: " ++ py "juniper"))],
     conns, w).
Proof.
  cbv zeta.
  apply (backup_config_unsupported (sim_device (py "JUNOS 12.1R1.9") true)
           ascii_upper
           (one_session (py "r1") (live_session (py "10.0.0.1") (py "juniper")))
           (py "r1") (live_session (py "10.0.0.1") (py "juniper"))
           (sim_world (py "JUNOS 12.1R1.9") true)).
  - vm_compute. reflexivity.
  - reflexivity.
Defined.

(** C7 as stated fails: the not-found result of [execute_command], the
    not-connected result of [send_command] and the unsupported result of
    [get_router_info] have no timestamp, and the last does not name the
    router it was asked about; the failure that [backup_config] reports
    when the disk is full has neither a timestamp nor the router name,
    and leaves the file it had begun. *)
Lemma error_results_without_timestamp :
  let O := sim_device (py "JUNOS 12.1R1.9") true in
  let w := sim_world (py "JUNOS 12.1R1.9") true in
  let r1 := (execute_command O ascii_upper ∅ (py "r9") (py "show clock") w).1.1 in
  let r2 := (send_command O
               (RouterConnection_init (py "10.0.0.1") (py "admin") (py "pw") 22)
               (py "show clock") 2 w).1.1 in
  let r3 := (get_router_info O ascii_upper
               (one_session (py "edge-router")
                  (live_session (py "10.0.0.1") (py "juniper")))
               (py "edge-router") w).1.1 in
  let D := full_disk_device (py "Cisco IOS Software, C2960 Software") in
  let r4 := backup_config D ascii_upper
              (one_session (py "r1") (live_session (py "10.0.0.1") (py "cisco_ios")))
              (py "r1") (mkWorld D (mkSim 0 []) [] ∅) in
  (succeeded r1 = false /\ has_key (py "timestamp") r1 = false) /\
  (succeeded r2 = false /\ has_key (py "timestamp") r2 = false) /\
  r3 = inl [(py "success", VBool false);
            (py "error", VStr (py "Unsupported device type: juniper"))] /\
  r4.1.1 = inl [(py "success", VBool false);
                (py "error",
                 VStr (py "Failed to save backup: [Errno 28] No space left on device"))] /\
  files D r4.2 !! py "../logs/r1_config_20240101_000000.txt"
  = Some (py "# Configuration backup for r1" ++ [LF] ++ py "# Host: 10").
Proof. cbv zeta. repeat split; vm_compute; reflexivity. Qed.

(** ** The juniper device type (C10) *)

(** The responses that detection settles as [juniper]. *)
Lemma detect_juniper_iff (upper : str -> str) (out : str) :
  _detect_device_type upper (Some out) = py "juniper" <->
  detect_cisco upper out = None /\
  contains (py "MIKROTIK") (upper out) || contains (py "] >") out = false /\
  any_in (map py ["HUAWEI"; "VRP"; "QUIDWAY"]%string) (upper out) = false /\
  any_in (map py ["JUNIPER"; "JUNOS"]%string) (upper out) = true.
Proof.
  split.
  - unfold _detect_device_type, detect_from_output.
    destruct (detect_cisco upper out) as [d|] eqn:Ec.
    { unfold detect_cisco in Ec.
      repeat match type of Ec with
             | (if ?b then _ else _) = _ => destruct b
             end; try discriminate Ec; injection Ec as <-;
        intros H; vm_compute in H; discriminate H. }
    destruct (contains (py "MIKROTIK") (upper out) || contains (py "] >") out);
      [intros H; vm_compute in H; discriminate H|].
    destruct (any_in (map py ["HUAWEI"; "VRP"; "QUIDWAY"]%string) (upper out));
      [intros H; vm_compute in H; discriminate H|].
    destruct (any_in (map py ["JUNIPER"; "JUNOS"]%string) (upper out));
      [auto|].
    destruct (any_in prompt_chars out);
      intros H; vm_compute in H; discriminate H.
  - intros (Hc & Hm & Hh & Hj). apply detect_juniper; assumption.
Qed.

Section Juniper.
Context (O : Outside) (upper : str -> str).

(** C10: detection settles on [juniper] exactly for a response that the
    tests for Cisco, MikroTik and Huawei pass over and that names
    JUNIPER or JUNOS, and a connection whose probe is answered so leaves
    the session with that type; there is no juniper command map; so on a
    session of that type the three composite operations return the
    unsupported failure and do nothing, while [execute_command] on such
    a session that is ready has the usual exchange with the shell: the
    command goes out and the text that the shell answers is cleaned and
    returned with [success = True], an exception on the way is reported
    as a failure of the command. *)
Theorem juniper_composite_unsupported (conns : Connections)
    (name command : str) (router : RouterConnection) (w : World O) :
  conns !! name = Some router ->
  device_type router = py "juniper" ->
  (forall out,
     _detect_device_type upper (Some out) = py "juniper" <->
     detect_cisco upper out = None /\
     contains (py "MIKROTIK") (upper out) || contains (py "] >") out = false /\
     any_in (map py ["HUAWEI"; "VRP"; "QUIDWAY"]%string) (upper out) = false /\
     any_in (map py ["JUNIPER"; "JUNOS"]%string) (upper out) = true) /\
  (forall self w0 w1 w2 w3 pending out,
     do_read O self DrainReady w0 = (inl pending, w1) ->
     do_send O self (py "show version" ++ [LF]) w1 = (None, w2) ->
     do_read O self DetectRead w2 = (inl out, w3) ->
     _detect_device_type upper (Some out) = py "juniper" ->
     run_detect_device_type O upper self w0
     = (set_device_type (py "juniper") self, w3)) /\
  assoc (py "juniper") command_templates = None /\
  get_router_info O upper conns name w
  = (inl (unsupported (py "juniper")), conns, w) /\
  backup_config O upper conns name w
  = (inl (unsupported (py "juniper")), conns, w) /\
  (forall log_type,
     get_logs O upper conns name log_type w
     = (inl (unsupported (py "juniper")), conns, w)) /\
  (connected router = true -> shell router = true ->
   _ensure_connected O router w = None ->
   let x := exchange O router (strip command) 2 (idle_keepalive O router w) in
   (forall raw_output,
      x.1 = inl raw_output ->
      execute_command O upper conns name command w
      = ([(py "success", VBool true); (py "command", VStr command);
          (py "output",
           VStr (clean_output command raw_output (prompt router)).1);
          (py "timestamp", timestamp O x.2);
          (py "device_type", VStr (py "juniper"))],
         <[name := after_command O router command raw_output x.2]> conns,
         x.2)) /\
   (forall ex,
      x.1 = inr ex ->
      execute_command O upper conns name command w
      = (send_failure O command ex x.2, <[name := router]> conns, x.2)) /\
   (reads_come_back O (host router) ->
    exists ka rt,
      trace O x.2 = trace O w ++ command_sends (host router) command ka rt /\
      (sends_ok O (host router) -> exists raw_output, x.1 = inl raw_output))).
Proof.
  intros Hl Hd.
  split; [intros out; apply detect_juniper_iff|].
  split.
  { intros self w0 w1 w2 w3 pending out E1 E2 E3 Hj.
    unfold run_detect_device_type. rewrite E1, E2, E3, Hj. reflexivity. }
  split; [reflexivity|].
  split. { unfold get_router_info. rewrite Hl, Hd. reflexivity. }
  split. { unfold backup_config. rewrite Hl, Hd. reflexivity. }
  split. { intros log_type. unfold get_logs. rewrite Hl, Hd. reflexivity. }
  intros Hc Hs He. cbv zeta.
  assert (E : execute_command O upper conns name command w
              = let '(res, r', w') := send_command O router command 2 w in
                (res, <[name := r']> conns, w')).
  { unfold execute_command. rewrite Hl, Hc. reflexivity. }
  rewrite E, (send_command_exchange O router command 2 w Hc Hs He).
  destruct (idle_keepalive_spec O router w) as (ka & Hka & _).
  destruct (exchange_sends O router (strip command) 2 (idle_keepalive O router w))
    as (_ & Hx).
  destruct (exchange O router (strip command) 2 (idle_keepalive O router w))
    as [[raw|ex] w'].
  - cbn [fst snd] in *. split; [|split].
    + intros raw0 H; injection H as <-.
      unfold command_result. rewrite Hd. reflexivity.
    + intros ex H; discriminate H.
    + intros Hr. destruct (Hx Hr) as (rt & Ht & Hraw). exists ka, rt.
      split; [|exact Hraw].
      rewrite Ht, Hka. unfold command_sends. rewrite <- !app_assoc. reflexivity.
  - cbn [fst snd] in *. split; [|split].
    + intros raw0 H; discriminate H.
    + intros ex0 H; injection H as <-. reflexivity.
    + intros Hr. destruct (Hx Hr) as (rt & Ht & Hraw). exists ka, rt.
      split; [|exact Hraw].
      rewrite Ht, Hka. unfold command_sends. rewrite <- !app_assoc. reflexivity.
Qed.
End Juniper.

(** A device that answers the probe with a JUNOS banner: the session is
    detected as [juniper], its information and its configuration are
    refused, and a plain command is sent and answered. *)
Lemma juniper_composite_unsupported_witness :
  let O := sim_device (py "JUNOS 12.1R1.9") true in
  let router := live_session (py "10.0.0.1") (py "juniper") in
  let conns := one_session (py "r1") router in
  let w := sim_world (py "JUNOS 12.1R1.9") true in
  _detect_device_type ascii_upper
    (Some (py "show version" ++ [CR; LF] ++ py "JUNOS 12.1R1.9" ++ [CR; LF]
           ++ py "R1#"))
  = py "juniper" /\
  get_router_info O ascii_upper conns (py "r1") w
  = (inl (unsupported (py "juniper")), conns, w) /\
  backup_config O ascii_upper conns (py "r1") w
  = (inl (unsupported (py "juniper")), conns, w) /\
  (exchange O router (py "show interfaces terse") 2 w).1
  = inl (py "show interfaces terse" ++ [CR; LF] ++ py "ok" ++ [CR; LF]
         ++ py "R1#") /\
  (execute_command O ascii_upper conns (py "r1") (py "show interfaces terse") w).1.1
  = [(py "success", VBool true);
     (py "command", VStr (py "show interfaces terse"));
     (py "output", VStr (py "ok"));
     (py "timestamp", VStr (py "2000"));
     (py "device_type", VStr (py "juniper"))].
Proof.
  intros O router conns w.
  destruct (juniper_composite_unsupported O ascii_upper conns (py "r1")
              (py "show interfaces terse") router w
              ltac:(vm_compute; reflexivity) eq_refl)
    as (Hdet & _ & _ & Hg & Hb & _ & Hex).
  split; [apply Hdet; repeat split; vm_compute; reflexivity|].
  split; [exact Hg|]. split; [exact Hb|].
  split; [vm_compute; reflexivity|].
  destruct (Hex eq_refl eq_refl eq_refl) as (Hrun & _ & _).
  rewrite (Hrun _ eq_refl). vm_compute. reflexivity.
Defined.

(** From connection to refusal: a device that answers [show version]
    with a JUNOS banner is registered as [juniper]; its information
    cannot be gathered, while a plain command runs. *)
Example juniper_end_to_end :
  let O := sim_device (py "JUNOS 12.1R1.9") true in
  let '(added, conns, w) :=
    add_router O ascii_upper ∅ (py "edge1") (py "10.0.0.1") (py "admin")
      (py "pw") 22 None (sim_world (py "JUNOS 12.1R1.9") true) in
  let '(info, conns, w) := get_router_info O ascii_upper conns (py "edge1") w in
  let '(run, _, _) :=
    execute_command O ascii_upper conns (py "edge1") (py "show system uptime") w in
  assoc (py "device_type") added = Some (VStr (py "juniper")) /\
  info = inl (unsupported (py "juniper")) /\
  assoc (py "success") run = Some (VBool true) /\
  assoc (py "output") run = Some (VStr (py "ok")).
Proof. vm_compute. repeat split; reflexivity. Qed.

(* ===================================================================== *)
(** * Part III: further properties of the code                             *)
(* ===================================================================== *)

(** ** The cleaning loop on any text *)

Lemma startswith_refl (s : str) : startswith s s = true.
Proof. apply startswith_spec. exists []. symmetry. apply app_nil_r. Qed.

Lemma contains_refl (s : str) : contains s s = true.
Proof. destruct s; cbn [contains]; rewrite startswith_refl; reflexivity. Qed.

(** What the loop has kept is made of trimmed lines of the text, in
    their order, none of them blank or taken for a prompt. *)
Lemma clean_loop_kept (c : str) (lines : list str) (st : clean_state) :
  exists kept,
    cleaned (fold_left (clean_step c) lines st) = cleaned st ++ kept /\
    Forall (fun l => trimmed l /\ _looks_like_prompt l = false) kept /\
    sublist kept (map strip lines).
Proof.
  revert st. induction lines as [|line lines IH]; intros st.
  - exists []. rewrite app_nil_r. repeat split; constructor.
  - cbn [fold_left map].
    destruct (strip line) as [|a t] eqn:E.
    + rewrite clean_step_blank by exact E.
      destruct (IH st) as (kept & Hk & Hf & Hs).
      exists kept. repeat split; try assumption. apply sublist_cons, Hs.
    + assert (Hne : strip line <> []) by (rewrite E; discriminate).
      rewrite clean_step_nonblank by exact Hne. rewrite E.
      destruct (negb (seen_echo st) && is_echo c (a :: t)).
      { destruct (IH (CleanState (cleaned st) true (prompt_cache st)))
          as (kept & Hk & Hf & Hs).
        exists kept. repeat split; try assumption. apply sublist_cons, Hs. }
      destruct (_looks_like_prompt line) eqn:Ep.
      { destruct (IH (CleanState (cleaned st) (seen_echo st)
                        match prompt_cache st with
                        | Some q => Some q
                        | None => Some (a :: t)
                        end))
          as (kept & Hk & Hf & Hs).
        exists kept. repeat split; try assumption. apply sublist_cons, Hs. }
      destruct (IH (CleanState (cleaned st ++ [a :: t]) (seen_echo st)
                      (prompt_cache st)))
        as (kept & Hk & Hf & Hs).
      exists ((a :: t) :: kept). cbn [cleaned] in Hk.
      split; [etransitivity; [exact Hk|]; rewrite <- app_assoc; reflexivity|].
      split.
      * constructor; [|exact Hf]. rewrite <- E. split.
        -- apply strip_trimmed, Hne.
        -- rewrite looks_like_prompt_strip. exact Ep.
      * apply sublist_skip, Hs.
Qed.

(** X1 (send_command, cleaning loop): for any command and any captured
    text, the output of the cleaning step is made of lines of the text,
    trimmed, in their order, joined by LF; no kept line is blank or ends
    in [#] or [>]. *)
Theorem clean_output_keeps_only_genuine (command raw_output : str)
    (cache : option str) :
  exists kept,
    (clean_output command raw_output cache).1 = join [LF] kept /\
    Forall (fun l => trimmed l /\ _looks_like_prompt l = false) kept /\
    sublist kept (map strip (splitlines raw_output)).
Proof.
  unfold clean_output.
  destruct (clean_loop_kept (strip command) (splitlines raw_output)
              (CleanState [] false cache)) as (kept & Hk & Hf & Hs).
  exists kept. cbn [fst cleaned app] in *. rewrite Hk.
  split; [|split; assumption].
  apply strip_join_trimmed. eapply Forall_impl; [exact Hf|].
  intros l [Hl _]. exact Hl.
Qed.

Lemma clean_loop_known_prompt (c : str) (lines : list str) (st : clean_state)
    (p : str) :
  prompt_cache st = Some p ->
  prompt_cache (fold_left (clean_step c) lines st) = Some p.
Proof.
  revert st. induction lines as [|line lines IH]; intros st Hp; [exact Hp|].
  cbn [fold_left]. apply IH. unfold clean_step.
  destruct (strip (rstrip_cr line)); [exact Hp|].
  destruct (negb (seen_echo st) && is_echo c _); [exact Hp|].
  destruct (_looks_like_prompt _); cbn [prompt_cache]; [|exact Hp].
  rewrite Hp. reflexivity.
Qed.

(** A prompt that is already known is never replaced by the cleaning
    step, whatever prompt lines the new output shows. *)
Theorem clean_output_keeps_known_prompt (command raw_output p : str) :
  (clean_output command raw_output (Some p)).2 = Some p.
Proof.
  unfold clean_output. cbn [snd].
  apply clean_loop_known_prompt. reflexivity.
Qed.

(** ** Echo lines that are not the bare command *)

Lemma lstrip_with_keeps (p : char -> bool) (x : str) (c : char) (r : str) :
  p c = false -> lstrip_with p (x ++ c :: r) = lstrip_with p x ++ c :: r.
Proof.
  intros Hc. induction x as [|a x IH]; simpl.
  - rewrite Hc. reflexivity.
  - destruct (p a); [exact IH | reflexivity].
Qed.

Lemma rstrip_with_blank_tail (p : char -> bool) (a y : str) :
  rstrip_with p y = [] -> rstrip_with p (a ++ y) = rstrip_with p a.
Proof.
  intros Hy. induction a as [|c a IH]; simpl; [exact Hy|].
  rewrite IH. reflexivity.
Qed.

Lemma rstrip_with_keeps (p : char -> bool) (a : str) (c : char) (y : str) :
  p c = false ->
  rstrip_with p ((a ++ [c]) ++ y) = (a ++ [c]) ++ rstrip_with p y.
Proof.
  intros Hc. destruct (rstrip_with p y) as [|d r] eqn:E.
  - rewrite rstrip_with_blank_tail by exact E.
    rewrite rstrip_with_fix by exact Hc. rewrite app_nil_r. reflexivity.
  - rewrite rstrip_with_app by (rewrite E; discriminate).
    rewrite E. reflexivity.
Qed.

(** Trimming a text leaves a trimmed part of it in place. *)
Lemma strip_around (x s y : str) :
  trimmed s ->
  strip (x ++ s ++ y) = lstrip_with is_space x ++ s ++ rstrip_with is_space y.
Proof.
  intros [(c & t & Hs & Hc) (t' & c' & Hs' & Hc')]. unfold strip.
  assert (E : rstrip_with is_space (x ++ s ++ y)
              = x ++ s ++ rstrip_with is_space y).
  { rewrite Hs'.
    replace (x ++ (t' ++ [c']) ++ y) with (((x ++ t') ++ [c']) ++ y)
      by (rewrite <- !app_assoc; reflexivity).
    rewrite (rstrip_with_keeps is_space (x ++ t') c' y Hc').
    rewrite <- !app_assoc. reflexivity. }
  rewrite E, Hs. cbn [app].
  apply lstrip_with_keeps. exact Hc.
Qed.

Lemma lstrip_with_suffix (p : char -> bool) (s : str) :
  exists l, s = l ++ lstrip_with p s.
Proof.
  induction s as [|c s [l IH]]; [exists []; reflexivity|]. simpl.
  destruct (p c).
  - exists (c :: l). simpl. f_equal. exact IH.
  - exists []. reflexivity.
Qed.

Lemma rstrip_with_prefix (p : char -> bool) (s : str) :
  exists r, s = rstrip_with p s ++ r.
Proof.
  destruct (lstrip_with_suffix p (rev s)) as [l Hl].
  exists (rev l). rewrite rstrip_with_rev, <- rev_app_distr, <- Hl.
  symmetry. apply rev_involutive.
Qed.

Lemma strip_inside (s : str) : exists l r, s = l ++ strip s ++ r.
Proof.
  unfold strip.
  destruct (rstrip_with_prefix is_space s) as [r Hr].
  destruct (lstrip_with_suffix is_space (rstrip_with is_space s)) as [l Hl].
  exists l, r. rewrite app_assoc, <- Hl. exact Hr.
Qed.

(** A line that holds the command holds its trimmed form after trimming. *)
Lemma contains_strip_command (command pre suf : str) :
  blank command = false ->
  contains (strip command) (strip (pre ++ command ++ suf)) = true.
Proof.
  intros Hb. apply blank_false in Hb.
  destruct (strip_inside command) as (l & r & Hc).
  assert (E : pre ++ command ++ suf
              = (pre ++ l) ++ strip command ++ (r ++ suf)).
  { rewrite Hc at 1. rewrite <- !app_assoc. reflexivity. }
  rewrite E, strip_around by (apply strip_trimmed, Hb).
  apply contains_spec. eauto.
Qed.

Lemma strip_app_nonblank (pre s suf : str) :
  strip s <> [] -> strip (pre ++ s ++ suf) <> [].
Proof.
  intros Hne. destruct (strip_inside s) as (l & r & Hs).
  assert (E : pre ++ s ++ suf = (pre ++ l) ++ strip s ++ (r ++ suf)).
  { rewrite Hs at 1. rewrite <- !app_assoc. reflexivity. }
  rewrite E, strip_around by (apply strip_trimmed, Hne).
  destruct (strip s); [contradiction|].
  intros H. apply app_eq_nil in H as [_ H]. discriminate.
Qed.

(** The loop over a captured text whose first line passes the echo test. *)
Lemma clean_loop_with_echo
    (command e : str) (outs : list str) (prompt_line eol : str)
    (cache : option str) :
  is_eol eol = true ->
  no_linebreak e = true -> strip e <> [] ->
  is_echo (strip command) (strip e) = true ->
  forallb genuine_line outs = true ->
  no_linebreak prompt_line = true -> _looks_like_prompt prompt_line = true ->
  fold_left (clean_step (strip command))
    (splitlines (captured eol (e :: outs) prompt_line))
    (CleanState [] false cache)
  = CleanState (map strip outs) true
      (Some (match cache with None => strip prompt_line | Some q => q end)).
Proof.
  intros He Hc Hcb Hecho Houts Hp Hpl.
  pose proof (looks_like_prompt_nonblank _ Hpl) as Hpne.
  assert (Hp0 : prompt_line <> []) by (intros ->; apply Hpne; reflexivity).
  rewrite splitlines_captured; try assumption.
  2:{ simpl. rewrite Hc. apply genuine_lines_no_linebreak, Houts. }
  rewrite fold_left_app. cbn [app fold_left].
  rewrite (clean_step_nonblank _ _ e) by exact Hcb.
  cbn [seen_echo negb andb cleaned prompt_cache].
  rewrite Hecho, clean_genuine_lines by exact Houts.
  rewrite clean_step_nonblank by exact Hpne.
  cbn [seen_echo negb andb cleaned prompt_cache app]. rewrite Hpl.
  destruct cache; reflexivity.
Qed.

Lemma clean_output_with_echo
    (command e : str) (outs : list str) (prompt_line eol : str)
    (cache : option str) :
  is_eol eol = true ->
  no_linebreak e = true -> strip e <> [] ->
  is_echo (strip command) (strip e) = true ->
  forallb genuine_line outs = true ->
  no_linebreak prompt_line = true -> _looks_like_prompt prompt_line = true ->
  clean_output command (captured eol (e :: outs) prompt_line) cache
  = (join [LF] (map strip outs),
     Some (match cache with None => strip prompt_line | Some q => q end)).
Proof.
  intros. unfold clean_output.
  rewrite clean_loop_with_echo by assumption.
  cbn [cleaned prompt_cache].
  rewrite strip_join_trimmed by (apply genuine_lines_trimmed; assumption).
  reflexivity.
Qed.

(** X3 (send_command, cleaning loop): the echo is recognised inside a
    longer first line, as when the device writes its prompt before the
    echoed command ([R1#show clock]): whatever stands before and after the
    command on that line, the line is dropped and the output lines come
    back trimmed, in their order. *)
Theorem clean_output_echo_inside_line
    (command pre suf : str) (outs : list str) (prompt_line eol : str)
    (cache : option str) :
  is_eol eol = true ->
  no_linebreak (pre ++ command ++ suf) = true -> blank command = false ->
  forallb genuine_line outs = true ->
  no_linebreak prompt_line = true -> _looks_like_prompt prompt_line = true ->
  clean_output command
    (captured eol ((pre ++ command ++ suf) :: outs) prompt_line) cache
  = (join [LF] (map strip outs),
     Some (match cache with None => strip prompt_line | Some q => q end)).
Proof.
  intros He Hl Hb Houts Hp Hpl.
  apply clean_output_with_echo; try assumption.
  - apply strip_app_nonblank, blank_false, Hb.
  - unfold is_echo. rewrite (contains_strip_command _ _ _ Hb).
    rewrite orb_true_r. reflexivity.
Qed.

Lemma clean_output_echo_inside_line_witness :
  clean_output (py "show clock")
    (captured [CR; LF]
       [py "R1#" ++ py "show clock" ++ py " "; py "10:00:00 UTC"] (py "R1#"))
    None
  = (py "10:00:00 UTC", Some (py "R1#")).
Proof.
  apply (clean_output_echo_inside_line (py "show clock") (py "R1#") (py " ")
           [py "10:00:00 UTC"] (py "R1#") [CR; LF] None); reflexivity.
Defined.

(** X4 (send_command, cleaning loop): an echo that has lost its first
    character is still recognised: a first line that holds the command
    without its first character is dropped as the echo.  The rest of the
    command must not begin with white space, which trimming the line could
    remove. *)
Theorem clean_output_echo_lost_first_char
    (command pre suf : str) (outs : list str) (prompt_line eol : str)
    (cache : option str) :
  let rest := slice_from_1 (strip command) in
  is_eol eol = true ->
  trimmed rest ->
  no_linebreak (pre ++ rest ++ suf) = true ->
  forallb genuine_line outs = true ->
  no_linebreak prompt_line = true -> _looks_like_prompt prompt_line = true ->
  clean_output command
    (captured eol ((pre ++ rest ++ suf) :: outs) prompt_line) cache
  = (join [LF] (map strip outs),
     Some (match cache with None => strip prompt_line | Some q => q end)).
Proof.
  intros rest He Ht Hl Houts Hp Hpl.
  assert (Hs : strip (pre ++ rest ++ suf)
               = lstrip_with is_space pre ++ rest ++ rstrip_with is_space suf)
    by (apply strip_around, Ht).
  apply clean_output_with_echo; try assumption.
  - rewrite Hs. destruct Ht as [(c & t & -> & _) _].
    intros H. apply app_eq_nil in H as [_ H]. discriminate.
  - unfold is_echo. fold rest. rewrite Hs.
    assert (Hc : contains rest
                   (lstrip_with is_space pre ++ rest ++ rstrip_with is_space suf)
                 = true) by (apply contains_spec; eauto).
    rewrite Hc, orb_true_r. reflexivity.
Qed.

Lemma trimmed_how_clock : trimmed (py "how clock").
Proof.
  split.
  - exists 104, (py "ow clock"). split; reflexivity.
  - exists (py "how cloc"), 107. split; reflexivity.
Defined.

Lemma clean_output_echo_lost_first_char_witness :
  clean_output (py "show clock")
    (captured [LF] [py "how clock"; py "10:00:00 UTC"] (py "R1#")) None
  = (py "10:00:00 UTC", Some (py "R1#")).
Proof.
  apply (clean_output_echo_lost_first_char (py "show clock") [] []
           [py "10:00:00 UTC"] (py "R1#") [LF] None);
    try reflexivity.
  exact trimmed_how_clock.
Defined.

(** X5 (send_command, cleaning loop): with a command of at most one
    character after trimming (a blank command too), the echo test holds
    for every line, so the first line that is not blank is dropped as the
    echo whatever it is, a line of output included. *)
Theorem clean_output_short_command_drops_first_line
    (command first : str) (outs : list str) (prompt_line eol : str)
    (cache : option str) :
  is_eol eol = true ->
  (length (strip command) <= 1)%nat ->
  no_linebreak first = true -> blank first = false ->
  forallb genuine_line outs = true ->
  no_linebreak prompt_line = true -> _looks_like_prompt prompt_line = true ->
  clean_output command (captured eol (first :: outs) prompt_line) cache
  = (join [LF] (map strip outs),
     Some (match cache with None => strip prompt_line | Some q => q end)).
Proof.
  intros He Hlen Hl Hb Houts Hp Hpl.
  apply clean_output_with_echo; try assumption.
  - apply blank_false, Hb.
  - unfold is_echo, slice_from_1.
    assert (E : tl (strip command) = []).
    { destruct (strip command) as [|c [|d t]]; try reflexivity.
      simpl in Hlen. lia. }
    rewrite E.
    assert (Hc : forall s, contains [] s = true) by (intros [|? ?]; reflexivity).
    rewrite Hc, orb_true_r. reflexivity.
Qed.

Lemma clean_output_short_command_drops_first_line_witness :
  clean_output (py "?")
    (captured [LF] [py "Exec commands:"; py "  access-enable"] (py "R1#")) None
  = (py "access-enable", Some (py "R1#")).
Proof.
  apply (clean_output_short_command_drops_first_line (py "?")
           (py "Exec commands:") [py "  access-enable"] (py "R1#") [LF] None);
    reflexivity.
Defined.

(** ** The prompt search of [_detect_prompt] *)

Lemma find_prompt_skip (xs ys : list str) :
  Forall (fun x => _looks_like_prompt x = false) xs ->
  find_prompt (xs ++ ys) = find_prompt ys.
Proof.
  induction 1 as [|x xs Hx _ IH]; [reflexivity|].
  cbn [app find_prompt]. unfold _looks_like_prompt in Hx.
  destruct (strip x); [exact IH|]. rewrite Hx. exact IH.
Qed.

Lemma find_prompt_here (l : str) (rest : list str) :
  _looks_like_prompt l = true -> find_prompt (l :: rest) = Some (strip l).
Proof.
  intros Hl. cbn [find_prompt]. unfold _looks_like_prompt in Hl.
  destruct (strip l); [discriminate|]. rewrite Hl. reflexivity.
Qed.

Lemma find_prompt_well_formed (lines : list str) :
  well_formed_prompt (find_prompt lines).
Proof.
  induction lines as [|l lines IH]; [intros q H; discriminate|].
  destruct (_looks_like_prompt l) eqn:El.
  - rewrite find_prompt_here by exact El.
    intros q H; injection H as <-. split.
    + apply strip_trimmed, looks_like_prompt_nonblank, El.
    + rewrite looks_like_prompt_strip. exact El.
  - change (l :: lines) with ([l] ++ lines).
    rewrite find_prompt_skip by (constructor; [exact El | constructor]).
    exact IH.
Qed.

Section PromptFacts.
Context (O : Outside).

(** X6 (_detect_prompt): when the CR goes out and the answer is read,
    the prompt stored is the last line of the answer that ends in [#] or
    [>] once trimmed, in its trimmed form; when the answer has no such
    line the session is left as it was. *)
Theorem detect_prompt_takes_last_prompt_line
    (self : RouterConnection) (w w1 w2 : World O) (buf : str) :
  do_send O self [CR] w = (None, w1) ->
  do_read O self PromptRead w1 = (inl buf, w2) ->
  (forall before l after,
     splitlines buf = before ++ l :: after ->
     _looks_like_prompt l = true ->
     Forall (fun x => _looks_like_prompt x = false) after ->
     _detect_prompt O self w = (set_prompt (Some (strip l)) self, w2)) /\
  (Forall (fun x => _looks_like_prompt x = false) (splitlines buf) ->
   _detect_prompt O self w = (self, w2)).
Proof.
  intros Hs Hr. unfold _detect_prompt. rewrite Hs, Hr. split.
  - intros before l after Hb Hl Ha. rewrite Hb, rev_app_distr.
    cbn [rev]. rewrite <- app_assoc.
    rewrite find_prompt_skip by (apply Forall_rev, Ha).
    cbn [app]. rewrite find_prompt_here by exact Hl. reflexivity.
  - intros Hn. apply Forall_rev in Hn.
    rewrite <- (app_nil_r (rev (splitlines buf))).
    rewrite find_prompt_skip by exact Hn. reflexivity.
Qed.
End PromptFacts.

Lemma detect_prompt_takes_last_prompt_line_witness :
  let O := sim_device (py "Cisco IOS Software, C2960 Software") true in
  let self := set_prompt None (live_session (py "10.0.0.1") (py "cisco_ios")) in
  let w := sim_world (py "Cisco IOS Software, C2960 Software") true in
  (_detect_prompt O self w).1 = set_prompt (Some (py "R1#")) self.
Proof.
  intros O self w.
  destruct (detect_prompt_takes_last_prompt_line O self w
              (do_send O self [CR] w).2
              (do_read O self PromptRead (do_send O self [CR] w).2).2
              (py "R1#") eq_refl eq_refl) as [H _].
  rewrite (H [] (py "R1#") [] eq_refl eq_refl (List.Forall_nil _)).
  reflexivity.
Defined.

(** ** What [connect] and [send_command] leave in the session *)

Lemma detect_device_type_range (upper : str -> str) (response : option str) :
  In (_detect_device_type upper response) detected_types.
Proof.
  unfold _detect_device_type, detect_from_output, detect_cisco, detected_types.
  cbn [map In].
  destruct response as [out|]; [|auto].
  repeat match goal with
         | |- context [if ?b then _ else _] => destruct b
         end; auto 10.
Qed.

Lemma detected_type_supported (d : str) :
  In d detected_types ->
  d = py "juniper" \/ has_key d command_templates = true.
Proof.
  unfold detected_types. cbn [map In].
  intros [<-|[<-|[<-|[<-|[<-|[<-|[]]]]]]]; auto.
Qed.

Lemma clean_loop_prompt_well_formed (c : str) (lines : list str)
    (st : clean_state) :
  well_formed_prompt (prompt_cache st) ->
  well_formed_prompt (prompt_cache (fold_left (clean_step c) lines st)).
Proof.
  revert st. induction lines as [|line lines IH]; intros st Hp; [exact Hp|].
  cbn [fold_left]. apply IH.
  destruct (strip line) as [|a t] eqn:E.
  { rewrite clean_step_blank by exact E. exact Hp. }
  assert (Hne : strip line <> []) by (rewrite E; discriminate).
  rewrite clean_step_nonblank by exact Hne.
  destruct (negb (seen_echo st) && is_echo c (strip line)); [exact Hp|].
  destruct (_looks_like_prompt line) eqn:El; [|exact Hp].
  cbn [prompt_cache]. destruct (prompt_cache st) as [q|]; [exact Hp|].
  intros q H; injection H as <-. split.
  - apply strip_trimmed, Hne.
  - rewrite looks_like_prompt_strip. exact El.
Qed.

Section SessionExtras.
Context (O : Outside) (upper : str -> str).

Ltac step_io :=
  repeat match goal with
  | |- context [do_send O ?s ?p ?w] => destruct (do_send O s p w) as [? ?]
  | |- context [do_read O ?s ?k ?w] => destruct (do_read O s k w) as [? ?]
  | |- context [match ?x with inl _ => _ | inr _ => _ end] => destruct x
  | |- context [match ?x with Some _ => _ | None => _ end] => destruct x
  | |- context [if ?b then _ else _] => destruct b
  | |- context [let (_, _) := ?x in _] => destruct x eqn:?
  end.

Lemma run_detect_device_type_range (self : RouterConnection) (w : World O) :
  In (device_type (run_detect_device_type O upper self w).1) detected_types.
Proof.
  unfold run_detect_device_type. step_io.
  all: cbn [fst device_type set_device_type]; apply detect_device_type_range.
Qed.

Lemma run_detect_device_type_forgets (self : RouterConnection) (d : str)
    (w : World O) :
  run_detect_device_type O upper (set_device_type d self) w
  = run_detect_device_type O upper self w.
Proof.
  unfold run_detect_device_type, do_read, do_send.
  cbn [host set_device_type].
  repeat match goal with
         | |- context [shell_read O ?h ?k ?e] => destruct (shell_read O h k e) as [[?|?] ?]
         | |- context [shell_send O ?h ?p ?e] => destruct (shell_send O h p e) as [[?|] ?]
         end; reflexivity.
Qed.

(** What a call of [send_command] does to the session object. *)
Lemma send_command_session (self : RouterConnection) (command : str)
    (wait_time : Z) (w : World O) :
  let r := send_command O self command wait_time w in
  (succeeded r.1.1 = false /\ r.1.2 = self) \/
  (succeeded r.1.1 = true /\
   exists raw_output,
     r.1.2 = set_last_activity (Some (time_time O (env O r.2)))
               (set_prompt (clean_output command raw_output (prompt self)).2 self) /\
     assoc (py "output") r.1.1
     = Some (VStr (clean_output command raw_output (prompt self)).1)).
Proof.
  unfold send_command.
  destruct (negb (connected self) || negb (shell self)); [left; split; reflexivity|].
  destruct (_ensure_connected O self w); [left; split; reflexivity|].
  set (w1 := idle_keepalive O self w). clearbody w1.
  step_io.
  all: first [ left; split; reflexivity | right; split; [reflexivity|] ].
  all: match goal with
       | H : clean_output _ ?raw _ = _ |- _ => exists raw; rewrite H
       end.
  all: split; reflexivity.
Qed.

(** X7 (connect, _detect_device_type): a connection that succeeds leaves
    the session with one of the six device types that detection can
    settle on, never with the initial [unknown]; the result reports that
    type, and every such type except [juniper] has a command map. *)
Theorem connect_detects_known_type (self : RouterConnection) (timeout : Z)
    (w : World O) :
  let r := connect O upper self timeout w in
  succeeded r.1.1 = true ->
  In (device_type r.1.2) detected_types /\
  device_type r.1.2 <> py "unknown" /\
  (device_type r.1.2 = py "juniper"
   \/ has_key (device_type r.1.2) command_templates = true) /\
  assoc (py "device_type") r.1.1 = Some (VStr (device_type r.1.2)).
Proof.
  cbv zeta. unfold connect.
  destruct (ssh_connect O _ _ _ _ _ _) as [[ex|] e1]; [discriminate|].
  destruct (invoke_shell O _ _) as [[ex|] e2]; [discriminate|].
  destruct (do_read O _ InitialRecv _) as [[buf|ex] w1]; [|discriminate].
  pose proof (run_detect_device_type_range
                (set_shell true (set_ssh_client true self)) w1) as Hd.
  destruct (run_detect_device_type O upper _ w1) as [s2 w2].
  destruct (_detect_prompt O s2 w2) as [s3 w3] eqn:E3.
  apply detect_prompt_spec in E3 as (_ & _ & _ & Ht & _).
  cbn [fst snd device_type set_connected set_last_activity] in *.
  intros _. rewrite Ht.
  assert (Hd' : In (device_type s2) detected_types) by exact Hd.
  repeat split.
  - exact Hd'.
  - intros Hu. rewrite Hu in Hd'. unfold detected_types in Hd'.
    cbn [map In] in Hd'.
    destruct Hd' as [H|[H|[H|[H|[H|[H|[]]]]]]]; discriminate H.
  - apply detected_type_supported, Hd'.
Qed.

(** X8 (connect): a connection that succeeds does not depend on the
    device type the session had before: the type is detected anew, so a
    type set by hand at [add_router] is lost when the session is
    connected again. *)
Theorem connect_forgets_device_type (self : RouterConnection) (d : str)
    (timeout : Z) (w : World O) :
  succeeded (connect O upper self timeout w).1.1 = true ->
  connect O upper (set_device_type d self) timeout w
  = connect O upper self timeout w.
Proof.
  unfold connect.
  change (set_ssh_client true (set_device_type d self))
    with (set_device_type d (set_ssh_client true self)).
  cbn [host port username password set_device_type].
  destruct (ssh_connect O _ _ _ _ _ _) as [[ex|] e1]; [discriminate|].
  destruct (invoke_shell O _ _) as [[ex|] e2]; [discriminate|].
  change (set_shell true (set_device_type d (set_ssh_client true self)))
    with (set_device_type d (set_shell true (set_ssh_client true self))).
  set (s := set_shell true (set_ssh_client true self)).
  assert (Hr : forall k w0,
             do_read O (set_device_type d s) k w0 = do_read O s k w0)
    by reflexivity.
  rewrite Hr.
  destruct (do_read O s InitialRecv _) as [[buf|ex] w1]; [|discriminate].
  rewrite run_detect_device_type_forgets. reflexivity.
Qed.

(** X9 (send_command): a call that fails leaves the session object as
    it was.  A call that succeeds has passed the guards and had its
    exchange with the shell without an exception; it changes nothing in
    the session but the prompt cache and the time of last activity,
    which becomes the clock reading at the end of the call; a prompt
    that was known stays; and it reports as output the cleaned form of
    the text that the exchange read from the shell. *)
Theorem send_command_session_update (self : RouterConnection) (command : str)
    (wait_time : Z) (w : World O) :
  let r := send_command O self command wait_time w in
  (succeeded r.1.1 = false -> r.1.2 = self) /\
  (succeeded r.1.1 = true ->
   connected self = true /\ shell self = true /\
   _ensure_connected O self w = None /\
   exists raw_output,
     exchange O self (strip command) wait_time (idle_keepalive O self w)
     = (inl raw_output, r.2) /\
     last_activity r.1.2 = Some (time_time O (env O r.2)) /\
     set_last_activity (last_activity self) (set_prompt (prompt self) r.1.2)
     = self /\
     (forall p, prompt self = Some p -> prompt r.1.2 = Some p) /\
     prompt r.1.2 = (clean_output command raw_output (prompt self)).2 /\
     assoc (py "output") r.1.1
     = Some (VStr (clean_output command raw_output (prompt self)).1)).
Proof.
  cbv zeta.
  destruct (connected self && shell self) eqn:Hg.
  2:{ rewrite (send_command_guard O self command wait_time w Hg).
      split; [reflexivity | discriminate]. }
  apply andb_prop in Hg as [Hc Hs].
  destruct (_ensure_connected O self w) as [ex|] eqn:He.
  { rewrite (send_command_not_ready O self command wait_time w ex Hc Hs He).
    split; [reflexivity | discriminate]. }
  rewrite (send_command_exchange O self command wait_time w Hc Hs He).
  destruct (exchange O self (strip command) wait_time (idle_keepalive O self w))
    as [[raw|ex] w']; cbn [fst snd].
  - split; [discriminate|]. intros _.
    split; [exact Hc|]. split; [exact Hs|]. split; [reflexivity|].
    exists raw. unfold after_command, command_result.
    cbn [last_activity prompt set_last_activity set_prompt assoc str_eqb].
    repeat split.
    + destruct self; reflexivity.
    + intros p Hp. rewrite Hp. unfold clean_output. cbn [snd].
      apply clean_loop_known_prompt. reflexivity.
  - split; [reflexivity | discriminate].
Qed.

(** X10 (connect, send_command, _detect_prompt): the prompt cache of a
    session stays well formed: when a prompt is known it is a trimmed
    text that ends in [#] or [>], so the cleaning step takes it for a
    prompt. *)
Theorem cached_prompt_well_formed (self : RouterConnection) :
  well_formed_prompt (prompt self) ->
  (forall timeout w,
     well_formed_prompt (prompt (connect O upper self timeout w).1.2)) /\
  (forall command wait_time w,
     well_formed_prompt (prompt (send_command O self command wait_time w).1.2)) /\
  (forall w, well_formed_prompt (prompt (_detect_prompt O self w).1)).
Proof.
  intros Hwf.
  assert (Hdp : forall s w, well_formed_prompt (prompt s) ->
                  well_formed_prompt (prompt (_detect_prompt O s w).1)).
  { intros s w Hs. unfold _detect_prompt.
    destruct (do_send O s [CR] w) as [[ex|] w1]; [exact Hs|].
    destruct (do_read O s PromptRead w1) as [[buf|ex] w2]; [|exact Hs].
    pose proof (find_prompt_well_formed (rev (splitlines buf))) as Hf.
    destruct (find_prompt (rev (splitlines buf))); [exact Hf | exact Hs]. }
  split; [|split].
  - intros timeout w. unfold connect.
    destruct (ssh_connect O _ _ _ _ _ _) as [[ex|] e1]; [exact Hwf|].
    destruct (invoke_shell O _ _) as [[ex|] e2]; [exact Hwf|].
    destruct (do_read O _ InitialRecv _) as [[buf|ex] w1]; [|exact Hwf].
    assert (Hs2 : well_formed_prompt
                    (prompt (run_detect_device_type O upper
                               (set_shell true (set_ssh_client true self)) w1).1)).
    { unfold run_detect_device_type. step_io; exact Hwf. }
    destruct (run_detect_device_type O upper _ w1) as [s2 w2].
    specialize (Hdp s2 w2 Hs2).
    destruct (_detect_prompt O s2 w2) as [s3 w3]. exact Hdp.
  - intros command wait_time w.
    destruct (send_command_session self command wait_time w)
      as [[_ Hs]|[_ (raw & Hs & _)]]; rewrite Hs; [exact Hwf|].
    cbn [prompt set_last_activity set_prompt]. unfold clean_output. cbn [snd].
    apply clean_loop_prompt_well_formed. exact Hwf.
  - intros w. apply Hdp, Hwf.
Qed.

End SessionExtras.

Lemma connect_detects_known_type_witness :
  let O := sim_device (py "Cisco IOS Software, C2960 Software") true in
  let r := connect O ascii_upper
             (RouterConnection_init (py "10.0.0.1") (py "admin") (py "pw") 22)
             30000 (sim_world (py "Cisco IOS Software, C2960 Software") true) in
  In (device_type r.1.2) detected_types /\
  device_type r.1.2 <> py "unknown" /\
  (device_type r.1.2 = py "juniper"
   \/ has_key (device_type r.1.2) command_templates = true) /\
  assoc (py "device_type") r.1.1 = Some (VStr (device_type r.1.2)).
Proof.
  intros O r.
  apply (connect_detects_known_type O ascii_upper
           (RouterConnection_init (py "10.0.0.1") (py "admin") (py "pw") 22)
           30000 (sim_world (py "Cisco IOS Software, C2960 Software") true)).
  vm_compute. reflexivity.
Defined.

Lemma connect_forgets_device_type_witness :
  let O := sim_device (py "Cisco IOS Software, C2960 Software") true in
  let self := RouterConnection_init (py "10.0.0.1") (py "admin") (py "pw") 22 in
  let w := sim_world (py "Cisco IOS Software, C2960 Software") true in
  connect O ascii_upper (set_device_type (py "generic") self) 30000 w
  = connect O ascii_upper self 30000 w.
Proof.
  intros O self w.
  apply (connect_forgets_device_type O ascii_upper self (py "generic") 30000 w).
  vm_compute. reflexivity.
Defined.

Lemma cached_prompt_well_formed_witness :
  let O := sim_device (py "Cisco IOS Software, C2960 Software") true in
  let self := RouterConnection_init (py "10.0.0.1") (py "admin") (py "pw") 22 in
  let w := sim_world (py "Cisco IOS Software, C2960 Software") true in
  well_formed_prompt (prompt (connect O ascii_upper self 30000 w).1.2).
Proof.
  intros O self w.
  destruct (cached_prompt_well_formed O ascii_upper self) as [H _].
  - intros q Hq. discriminate Hq.
  - apply H.
Defined.

(** A command on the simulated device: the text that the exchange
    read, and what is reported of it. *)
Lemma send_command_session_update_witness :
  let O := sim_device (py "Cisco IOS Software, C2960 Software") true in
  let self := live_session (py "10.0.0.1") (py "cisco_ios") in
  let w := sim_world (py "Cisco IOS Software, C2960 Software") true in
  let r := send_command O self (py "show clock") 2 w in
  exists raw_output,
    exchange O self (strip (py "show clock")) 2 (idle_keepalive O self w)
    = (inl raw_output, r.2) /\
    raw_output = py "show clock" ++ [CR; LF] ++ py "ok" ++ [CR; LF] ++ py "R1#" /\
    assoc (py "output") r.1.1 = Some (VStr (py "ok")).
Proof.
  intros O self w r.
  destruct (send_command_session_update O self (py "show clock") 2 w) as [_ H].
  destruct (H ltac:(vm_compute; reflexivity))
    as (_ & _ & _ & raw & Ex & _).
  exists raw. split; [exact Ex|]. split; [|vm_compute; reflexivity].
  assert (E := Ex). vm_compute in E. injection E as E. symmetry.
  vm_compute. exact E.
Defined.


(** ** Configuration commands *)

Section ConfigFacts.
Context (O : Outside).

Lemma send_command_reports_command (self : RouterConnection) (command : str)
    (wait_time : Z) (w : World O) :
  assoc (py "command") (send_command O self command wait_time w).1.1
  = Some (VStr command).
Proof.
  unfold send_command.
  repeat match goal with
  | |- context [do_send O ?s ?p ?w] => destruct (do_send O s p w) as [? ?]
  | |- context [do_read O ?s ?k ?w] => destruct (do_read O s k w) as [? ?]
  | |- context [match ?x with inl _ => _ | inr _ => _ end] => destruct x
  | |- context [match ?x with Some _ => _ | None => _ end] => destruct x
  | |- context [if ?b then _ else _] => destruct b
  | |- context [let (_, _) := ?x in _] => destruct x
  end; reflexivity.
Qed.

(** One command sent and its result appended. *)
Lemma send_and_append_spec (cmd : str) (results : list pydict)
    (self : RouterConnection) (w : World O) :
  exists res self' w',
    send_and_append O cmd (results, self, w) = (results ++ [res], self', w') /\
    assoc (py "command") res = Some (VStr cmd) /\
    host self' = host self /\ connected self' = connected self /\
    shell self' = shell self /\ ssh_client self' = ssh_client self /\
    device_type self' = device_type self /\
    (healthy O (host self) -> connected self = true -> shell self = true ->
     ssh_client self = true ->
     exists ka rt, trace O w' = trace O w ++ command_sends (host self) cmd ka rt).
Proof.
  unfold send_and_append.
  pose proof (send_command_reports_command self cmd 2 w) as Hc.
  destruct (send_command O self cmd 2 w) as [[res self'] w'] eqn:E.
  exists res, self', w'. split; [reflexivity|]. split; [exact Hc|].
  destruct (send_command_frame O _ _ _ _ _ _ _ E) as (Hh & Hcn & Hs & Hl & Hd & _).
  repeat (split; [assumption|]).
  intros Hhe Hco Hsh Hss.
  exact (send_command_sends O _ _ _ _ _ _ _ Hhe Hco Hsh Hss E).
Qed.

(** A run of commands: one result for each, in order, whatever became of
    the commands before; on a healthy session each is sent in its turn. *)
Lemma send_each_spec (commands : list str) (results : list pydict)
    (self : RouterConnection) (w : World O) :
  exists results' self' w',
    send_each O commands (results, self, w) = (results ++ results', self', w') /\
    map (assoc (py "command")) results' = map (fun c => Some (VStr c)) commands /\
    host self' = host self /\ connected self' = connected self /\
    shell self' = shell self /\ ssh_client self' = ssh_client self /\
    device_type self' = device_type self /\
    (healthy O (host self) -> connected self = true -> shell self = true ->
     ssh_client self = true ->
     exists evs, trace O w' = trace O w ++ evs /\ issues (host self) commands evs).
Proof.
  revert results self w.
  induction commands as [|cmd commands IH]; intros results self w.
  - exists [], self, w. rewrite app_nil_r. repeat split.
    intros _ _ _ _. exists []. rewrite app_nil_r. split; constructor.
  - unfold send_each. cbn [fold_left].
    destruct (send_and_append_spec cmd results self w)
      as (res & s1 & w1 & E1 & Hc1 & Hh1 & Hcn1 & Hs1 & Hl1 & Hd1 & Ht1).
    rewrite E1.
    destruct (IH (results ++ [res]) s1 w1)
      as (rs & s2 & w2 & E2 & Hc2 & Hh2 & Hcn2 & Hs2 & Hl2 & Hd2 & Ht2).
    unfold send_each in E2. rewrite E2.
    exists (res :: rs), s2, w2.
    split; [rewrite <- app_assoc; reflexivity|].
    split; [cbn [map]; rewrite Hc1, Hc2; reflexivity|].
    repeat (split; [congruence|]).
    intros Hhe Hco Hsh Hss.
    destruct (Ht1 Hhe Hco Hsh Hss) as (ka & rt & Htr1).
    destruct Ht2 as (evs & Htr2 & Hi); try congruence.
    exists (command_sends (host self) cmd ka rt ++ evs).
    rewrite Htr2, Htr1, <- app_assoc. split; [reflexivity|].
    constructor. rewrite <- Hh1. exact Hi.
Qed.

Lemma send_each_app (a b : list str)
    (st : list pydict * RouterConnection * World O) :
  send_each O (a ++ b) st = send_each O b (send_each O a st).
Proof. unfold send_each. apply fold_left_app. Qed.

Lemma config_script_eq (d : str) (commands : list str) :
  config_script d commands
  = match config_mode d with
    | [] => commands
    | m => m :: commands ++ [exit_cmd d]
    end.
Proof.
  unfold config_script, config_mode, exit_cmd.
  destruct (str_eqb d (py "mikrotik")) eqn:Em.
  { apply str_eqb_eq in Em. rewrite Em. reflexivity. }
  destruct (str_eqb d (py "cisco_ios") || str_eqb d (py "cisco_ios_xe"));
    [reflexivity|].
  destruct (str_eqb d (py "huawei")); reflexivity.
Qed.

(** [send_config_commands] is the run of its script. *)
Lemma send_config_commands_script (self : RouterConnection)
    (commands : list str) (w : World O) :
  send_config_commands O self commands w
  = let '(results, self', w') :=
      send_each O (config_script (device_type self) commands) ([], self, w) in
    (ConfigResult true commands results (timestamp O w'), self', w').
Proof.
  unfold send_config_commands.
  assert (Hd : forall cs st,
             device_type (send_each O cs st).1.2 = device_type st.1.2).
  { intros cs [[rs s] w0].
    destruct (send_each_spec cs rs s w0)
      as (rs' & s' & w' & E & _ & _ & _ & _ & _ & H & _).
    rewrite E. exact H. }
  assert (Hone : forall c st, send_and_append O c st = send_each O [c] st)
    by reflexivity.
  rewrite config_script_eq.
  destruct (config_mode (device_type self)) as [|c m]; [reflexivity|].
  match goal with
  | |- context [exit_cmd ?x] =>
      replace x with (device_type self)
        by (symmetry; etransitivity; [apply Hd|]; rewrite Hone; apply Hd)
  end.
  change ((c :: m) :: commands ++ [exit_cmd (device_type self)])
    with ([c :: m] ++ commands ++ [exit_cmd (device_type self)]).
  rewrite !send_each_app, <- !Hone. reflexivity.
Qed.

(** X12 (send_config_commands): the call reports success whatever
    becomes of its commands and never stops at a failure: there is one
    result for each command of the script, in order, each carrying its
    command.  The script is the given commands between the command that
    enters configuration mode and the one that leaves it
    ([configure terminal] and [end] for cisco_ios and cisco_ios_xe,
    [system-view] and [quit] for huawei, [configure terminal] and [exit]
    for any other type), and the given commands alone for mikrotik.  On a
    usable session with a healthy transport the commands of the script
    are sent in that order, and nothing else is. *)
Theorem send_config_commands_runs_script (self : RouterConnection)
    (commands : list str) (w : World O) :
  let r := send_config_commands O self commands w in
  let script := config_script (device_type self) commands in
  cfg_success r.1.1 = true /\
  cfg_commands r.1.1 = commands /\
  map (assoc (py "command")) (cfg_results r.1.1)
  = map (fun c => Some (VStr c)) script /\
  (healthy O (host self) -> connected self = true -> shell self = true ->
   ssh_client self = true ->
   exists evs, trace O r.2 = trace O w ++ evs /\ issues (host self) script evs).
Proof.
  cbv zeta. rewrite send_config_commands_script.
  destruct (send_each_spec (config_script (device_type self) commands) [] self w)
    as (rs & s' & w' & E & Hc & _ & _ & _ & _ & _ & Ht).
  rewrite E. cbn [fst snd cfg_success cfg_commands cfg_results app].
  repeat split; assumption.
Qed.
End ConfigFacts.

Example config_script_each :
  map (fun d => config_script (py d) [py "hostname R2"])
    ["cisco_ios"; "cisco_ios_xe"; "huawei"; "mikrotik"; "generic"; "juniper"]%string
  = [ [py "configure terminal"; py "hostname R2"; py "end"];
      [py "configure terminal"; py "hostname R2"; py "end"];
      [py "system-view"; py "hostname R2"; py "quit"];
      [py "hostname R2"];
      [py "configure terminal"; py "hostname R2"; py "exit"];
      [py "configure terminal"; py "hostname R2"; py "exit"] ].
Proof. reflexivity. Qed.

Example send_config_commands_trace :
  let O := sim_device (py "Cisco IOS Software, C2960 Software") true in
  let w := sim_world (py "Cisco IOS Software, C2960 Software") true in
  let r := send_config_commands O (live_session (py "10.0.0.1") (py "huawei"))
             [py "sysname R2"; py "undo info-center enable"] w in
  trace O r.2
  = map (fun c => Send (py "10.0.0.1") (framed (py c)))
      ["system-view"; "sysname R2"; "undo info-center enable"; "quit"]%string /\
  map succeeded (cfg_results r.1.1) = [true; true; true; true].
Proof. vm_compute. split; reflexivity. Qed.

(** ** The registry: adding and removing sessions *)

Section RegistryExtras.
Context (O : Outside) (upper : str -> str).

Lemma connect_type_detected (self : RouterConnection) (timeout : Z)
    (w : World O) :
  succeeded (connect O upper self timeout w).1.1 = true ->
  In (device_type (connect O upper self timeout w).1.2) detected_types.
Proof.
  unfold connect.
  destruct (ssh_connect O _ _ _ _ _ _) as [[ex|] e1]; [discriminate|].
  destruct (invoke_shell O _ _) as [[ex|] e2]; [discriminate|].
  destruct (do_read O _ InitialRecv _) as [[buf|ex] w1]; [|discriminate].
  pose proof (run_detect_device_type_range O upper
                (set_shell true (set_ssh_client true self)) w1) as Hd.
  destruct (run_detect_device_type O upper _ w1) as [s2 w2].
  destruct (_detect_prompt O s2 w2) as [s3 w3] eqn:E3.
  apply detect_prompt_spec in E3 as (_ & _ & _ & Ht & _).
  intros _. cbn [fst snd device_type set_connected set_last_activity] in *.
  rewrite Ht. exact Hd.
Qed.

(** X13 (add_router): a call makes one connection attempt, to the given
    host and port as the given user, and apart from it only sends: it
    closes nothing and writes no file, so a session already registered
    under the name is replaced without being closed.  A failure leaves
    the registry as it was; a success registers under the name a
    connected session with the given address and credentials, and leaves
    every other name as it was.  The device type given by hand is taken
    when it is not empty and has a command map: the session registered
    is then the one that [connect] left, with that type; otherwise, and
    so for a type without a command map such as [juniper], the session
    registered is the one that [connect] left, with the type that it
    detected.  The result reports the type registered. *)
Theorem add_router_registers (conns : Connections)
    (name h u pw : str) (pt : Z) (dt : option str) (w : World O) :
  let r := add_router O upper conns name h u pw pt dt w in
  let c := connect O upper (RouterConnection_init h u pw pt) 30000 w in
  files O r.2 = files O w /\
  (exists evs,
     trace O r.2 = trace O w ++ Connect h pt u :: evs /\
     Forall (fun ev => is_send ev = true) evs) /\
  (forall n, n <> name -> r.1.2 !! n = conns !! n) /\
  (succeeded r.1.1 = false -> r.1.2 = conns) /\
  (succeeded r.1.1 = true ->
   exists router,
     r.1.2 = <[name := router]> conns /\
     host router = h /\ username router = u /\ password router = pw /\
     port router = pt /\
     connected router = true /\ shell router = true /\
     ssh_client router = true /\
     assoc (py "device_type") r.1.1 = Some (VStr (device_type router)) /\
     (forall d, dt = Some d -> d <> [] ->
                has_key d command_templates = true ->
                router = set_device_type d c.1.2 /\ device_type router = d) /\
     ((forall d, dt = Some d -> d = [] \/ has_key d command_templates = false) ->
      router = c.1.2 /\ In (device_type router) detected_types)).
Proof.
  cbv zeta. unfold add_router.
  set (init := RouterConnection_init h u pw pt).
  destruct (connect_session O upper init 30000 w) as [Htr Hss].
  pose proof (connect_type_detected init 30000 w) as Hty.
  pose proof (connect_spec O upper init 30000 w
                (connect O upper init 30000 w).1.1
                (connect O upper init 30000 w).1.2
                (connect O upper init 30000 w).2) as Hsp.
  destruct (connect O upper init 30000 w) as [[res router] w'].
  destruct (Hsp eq_refl) as (_ & Hf & _ & _ & _). clear Hsp.
  cbn [fst snd] in *.
  destruct (succeeded res) eqn:Hok; cbn [fst snd].
  - specialize (Hss eq_refl). specialize (Hty eq_refl).
    split; [exact Hf|]. split; [exact Htr|].
    split; [intros n Hn; apply lookup_insert_ne; congruence|].
    split; [discriminate|]. intros _.
    assert (Hfields : forall d,
               host (set_device_type d router) = h /\
               username (set_device_type d router) = u /\
               password (set_device_type d router) = pw /\
               port (set_device_type d router) = pt /\
               connected (set_device_type d router) = true /\
               shell (set_device_type d router) = true /\
               ssh_client (set_device_type d router) = true).
    { intros d. rewrite Hss. repeat split. }
    assert (Hsame : set_device_type (device_type router) router = router)
      by (destruct router; reflexivity).
    assert (Hplain :
              exists router0,
                <[name := router]> conns = <[name := router0]> conns /\
                host router0 = h /\ username router0 = u /\
                password router0 = pw /\ port router0 = pt /\
                connected router0 = true /\ shell router0 = true /\
                ssh_client router0 = true /\
                Some (VStr (device_type router)) = Some (VStr (device_type router0)) /\
                router0 = router /\ In (device_type router0) detected_types).
    { exists router. split; [reflexivity|].
      rewrite <- Hsame at 1 2 3 4 5 6 7.
      repeat (split; [apply Hfields|]). auto. }
    destruct dt as [[|c d]|].
    + destruct Hplain as (r0 & E & H1 & H2 & H3 & H4 & H5 & H6 & H7 & H8 & H9 & H10).
      exists r0. repeat (split; [assumption|]).
      split; [intros d H; injection H as <-; congruence | auto].
    + destruct (has_key (c :: d) command_templates) eqn:Hk.
      * exists (set_device_type (c :: d) router). split; [reflexivity|].
        repeat (split; [apply Hfields|]).
        split; [reflexivity|].
        split; [intros d' H; injection H as <-; auto|].
        intros H. destruct (H (c :: d) eq_refl) as [H'|H']; congruence.
      * destruct Hplain as (r0 & E & H1 & H2 & H3 & H4 & H5 & H6 & H7 & H8 & H9 & H10).
        exists r0. repeat (split; [assumption|]).
        split; [intros d' H; injection H as <-; congruence | auto].
    + destruct Hplain as (r0 & E & H1 & H2 & H3 & H4 & H5 & H6 & H7 & H8 & H9 & H10).
      exists r0. repeat (split; [assumption|]).
      split; [discriminate | auto].
  - split; [exact Hf|]. split; [exact Htr|].
    split; [reflexivity|]. split; [reflexivity|]. congruence.
Qed.

(** X14 (remove_router, disconnect): removing a registered session
    closes its shell and its client, each when the session holds one, in
    that order, and nothing else happens; the name is gone from the
    registry and every other name is as it was.  After that the name is
    unknown: a second removal and a command for it are refused with the
    not-found result and do nothing. *)
Theorem remove_router_closes_and_forgets (conns : Connections) (name : str)
    (router : RouterConnection) (w : World O) :
  conns !! name = Some router ->
  let r := remove_router O conns name w in
  succeeded r.1.1 = true /\
  r.1.2 = delete name conns /\
  r.1.2 !! name = None /\
  (forall n, n <> name -> r.1.2 !! n = conns !! n) /\
  trace O r.2
  = trace O w ++ (if shell router then [CloseShell (host router)] else [])
              ++ (if ssh_client router then [CloseClient (host router)] else []) /\
  files O r.2 = files O w /\
  remove_router O r.1.2 name r.2 = (not_found name, r.1.2, r.2) /\
  (forall command,
     execute_command O upper r.1.2 name command r.2
     = (not_found name, r.1.2, r.2)).
Proof.
  intros Hl. cbv zeta.
  assert (E : remove_router O conns name w
              = ([(py "success", VBool true);
                  (py "message", VStr (py "Router " ++ name ++ py " removed"))],
                 delete name conns, (disconnect O router w).2)).
  { unfold remove_router. rewrite Hl.
    destruct (disconnect O router w). reflexivity. }
  rewrite E. unfold disconnect. cbn [fst snd].
  split; [reflexivity|]. split; [reflexivity|].
  split; [apply lookup_delete_eq|].
  split; [intros n Hn; apply lookup_delete_ne; congruence|].
  split; [destruct (shell router), (ssh_client router); cbn;
          rewrite <- ?app_assoc, ?app_nil_r; reflexivity|].
  split; [destruct (shell router), (ssh_client router); reflexivity|].
  split.
  - unfold remove_router. rewrite lookup_delete_eq. reflexivity.
  - intros command. unfold execute_command. rewrite lookup_delete_eq.
    reflexivity.
Qed.

(** X15 (add_router, remove_router): a router that was added and is then
    removed has its shell and its client closed, the two events that end
    the trace, and the registry is what it was without the name. *)
Theorem add_then_remove_closes_session (conns : Connections)
    (name h u pw : str) (pt : Z) (dt : option str) (w : World O) :
  let a := add_router O upper conns name h u pw pt dt w in
  let r := remove_router O a.1.2 name a.2 in
  succeeded a.1.1 = true ->
  succeeded r.1.1 = true /\
  r.1.2 = delete name conns /\
  files O r.2 = files O w /\
  exists evs,
    trace O r.2
    = trace O w ++ Connect h pt u :: evs ++ [CloseShell h; CloseClient h] /\
    Forall (fun ev => is_send ev = true) evs.
Proof.
  cbv zeta. unfold add_router.
  set (init := RouterConnection_init h u pw pt).
  destruct (connect_session O upper init 30000 w) as [(evs & Htr & Hev) Hss].
  pose proof (connect_spec O upper init 30000 w
                (connect O upper init 30000 w).1.1
                (connect O upper init 30000 w).1.2
                (connect O upper init 30000 w).2) as Hsp.
  destruct (connect O upper init 30000 w) as [[res router] w'].
  destruct (Hsp eq_refl) as (_ & Hf & _ & _ & _). clear Hsp.
  cbn [fst snd] in *.
  destruct (succeeded res) eqn:Hok; cbn [fst snd]; [|congruence].
  intros _. specialize (Hss eq_refl).
  unfold remove_router. rewrite lookup_insert_eq. unfold disconnect.
  assert (Hflags : forall x,
             shell x = shell router -> ssh_client x = ssh_client router ->
             host x = host router ->
             shell x = true /\ ssh_client x = true /\ host x = h).
  { intros x -> -> ->. rewrite Hss. repeat split. }
  match goal with
  | |- context [shell ?x] =>
      destruct (Hflags x) as (-> & -> & ->);
        [destruct dt as [[|? ?]|]; try reflexivity;
         destruct (has_key _ command_templates); reflexivity ..|]
  end.
  cbn [fst snd]. split; [reflexivity|].
  split; [apply delete_insert_eq|].
  split; [exact Hf|].
  exists evs. split; [|exact Hev].
  cbn. rewrite Htr, <- !app_assoc. reflexivity.
Qed.
End RegistryExtras.

Lemma remove_router_closes_and_forgets_witness :
  let O := sim_device (py "Cisco IOS Software, C2960 Software") true in
  let router := live_session (py "10.0.0.1") (py "cisco_ios") in
  let conns := one_session (py "r1") router in
  let w := sim_world (py "Cisco IOS Software, C2960 Software") true in
  let r := remove_router O conns (py "r1") w in
  r.1.2 !! py "r1" = None /\
  trace O r.2 = [CloseShell (py "10.0.0.1"); CloseClient (py "10.0.0.1")].
Proof.
  intros O router conns w r.
  destruct (remove_router_closes_and_forgets O ascii_upper conns (py "r1")
              router w ltac:(vm_compute; reflexivity))
    as (_ & _ & Hn & _ & Ht & _).
  split; [exact Hn | exact Ht].
Defined.

Lemma add_then_remove_closes_session_witness :
  let O := sim_device (py "Cisco IOS Software, C2960 Software") true in
  let w := sim_world (py "Cisco IOS Software, C2960 Software") true in
  let a := add_router O ascii_upper ∅ (py "r1") (py "10.0.0.1") (py "admin")
             (py "pw") 22 None w in
  let r := remove_router O a.1.2 (py "r1") a.2 in
  exists evs,
    trace O r.2
    = trace O w ++ Connect (py "10.0.0.1") 22 (py "admin")
                   :: evs ++ [CloseShell (py "10.0.0.1"); CloseClient (py "10.0.0.1")] /\
    Forall (fun ev => is_send ev = true) evs.
Proof.
  intros O w a r.
  destruct (add_then_remove_closes_session O ascii_upper ∅ (py "r1")
              (py "10.0.0.1") (py "admin") (py "pw") 22 None w
              ltac:(vm_compute; reflexivity))
    as (_ & _ & _ & H).
  exact H.
Defined.

(** ** Listing the sessions refreshes their flags *)

Section ListFacts.
Context (O : Outside) (upper : str -> str).

Lemma is_connected_spec (conn : RouterConnection) (w : World O) :
  let alive := connected conn && ssh_client conn
               && transport_active O (host conn) (env O w) in
  is_connected O conn w = (alive, set_connected alive conn).
Proof.
  cbv zeta. unfold is_connected, _check_connection_alive.
  destruct conn as [h u pw pt cl sh co dt pr la]. cbn.
  destruct co; [|reflexivity].
  destruct cl; [|reflexivity].
  destruct (transport_active O h (env O w)); reflexivity.
Qed.

(** X16 (list_routers, _check_connection_alive): the call reports
    success and one entry for each registered session, [total] being
    their number; a session is reported connected exactly when its flag
    was set, it holds a client and its transport is active, and its flag
    in the registry is set to what is reported.  No session is added or
    removed. *)
Theorem list_routers_refreshes_flags (conns : Connections) (w : World O) :
  let r := list_routers O conns w in
  lr_success r.1 = true /\
  lr_total r.1 = size conns /\ length (lr_routers r.1) = size conns /\
  (forall name conn, conns !! name = Some conn ->
     let alive := connected conn && ssh_client conn
                  && transport_active O (host conn) (env O w) in
     r.2 !! name = Some (set_connected alive conn) /\
     In (RouterEntry name (host conn) alive (device_type conn)
           (username conn) (port conn)) (lr_routers r.1)) /\
  (forall name, conns !! name = None -> r.2 !! name = None) /\
  (forall e, In e (lr_routers r.1) ->
     exists conn, conns !! entry_name e = Some conn /\
       entry_host e = host conn /\
       entry_connected e
       = connected conn && ssh_client conn
         && transport_active O (host conn) (env O w)).
Proof.
  cbv zeta. unfold list_routers. cbn [fst snd lr_success lr_total lr_routers].
  split; [reflexivity|].
  split; [rewrite length_map; apply length_map_to_list|].
  split; [rewrite length_map; apply length_map_to_list|].
  split; [|split].
  - intros name conn Hl. rewrite lookup_fmap, Hl. cbn.
    rewrite is_connected_spec. cbn [fst snd]. split; [reflexivity|].
    apply in_map_iff. exists (name, conn). split.
    + rewrite is_connected_spec. reflexivity.
    + apply list_elem_of_In, elem_of_map_to_list, Hl.
  - intros name Hl. rewrite lookup_fmap, Hl. reflexivity.
  - intros e He. apply in_map_iff in He as ([name conn] & <- & Hin).
    apply list_elem_of_In, elem_of_map_to_list in Hin.
    exists conn. cbn. rewrite is_connected_spec. cbn [fst]. auto.
Qed.

(** X17 (list_routers, execute_command): a session whose transport has
    dropped while its flag still says connected is found out by
    [list_routers], which clears the flag; the next command for it then
    begins with one attempt to connect again.  When the attempt fails
    its result is returned and nothing is sent; when it succeeds the
    command is handed to [send_command] on the session as [connect] left
    it, and on a transport that is active again, with reads that come
    back, the command goes out, after the attempt. *)
Theorem list_routers_then_execute_reconnects (conns : Connections)
    (name command : str) (conn : RouterConnection) (w : World O) :
  conns !! name = Some conn ->
  transport_active O (host conn) (env O w) = false ->
  let listed := (list_routers O conns w).2 in
  let stale := set_connected false conn in
  let c := connect O upper stale 30000 w in
  let r := execute_command O upper listed name command w in
  listed !! name = Some stale /\
  (exists evs,
     trace O c.2
     = trace O w ++ Connect (host conn) (port conn) (username conn) :: evs /\
     Forall (fun ev => is_connect ev = false) evs) /\
  (succeeded c.1.1 = false -> r = (c.1.1, <[name := c.1.2]> listed, c.2)) /\
  (succeeded c.1.1 = true ->
   r = (let '(res, router', w') := send_command O c.1.2 command 2 c.2 in
        (res, <[name := router']> listed, w')) /\
   (transport_active O (host conn) (env O c.2) = true ->
    reads_come_back O (host conn) ->
    exists ka rt,
      trace O r.2 = trace O c.2 ++ command_sends (host conn) command ka rt)).
Proof.
  intros Hl Ht. cbv zeta.
  assert (Hl' : (list_routers O conns w).2 !! name
                = Some (set_connected false conn)).
  { unfold list_routers. cbn [snd]. rewrite lookup_fmap, Hl. cbn.
    rewrite is_connected_spec, Ht, andb_false_r. reflexivity. }
  destruct (execute_command_reconnect O upper _ name command _ w Hl' eq_refl)
    as (_ & Hev & Hfail & Hok).
  split; [exact Hl'|]. split; [exact Hev|]. split; [exact Hfail|].
  intros Hs. destruct (Hok Hs) as (Hr & _ & Hsends).
  split; [exact Hr | exact Hsends].
Qed.
End ListFacts.

(** The transport of a session has dropped; the device is back when it
    is asked again. *)
Lemma list_routers_then_execute_reconnects_witness :
  let O := recovering_device (py "Cisco IOS Software, C2960 Software") in
  let conn := live_session (py "10.0.0.1") (py "cisco_ios") in
  let conns := one_session (py "r1") conn in
  let w := mkWorld O (mkSim 0 [], false) [] ∅ in
  let listed := (list_routers O conns w).2 in
  let r := execute_command O ascii_upper listed (py "r1") (py "show clock") w in
  listed !! py "r1" = Some (set_connected false conn) /\
  (exists ka rt,
     trace O r.2
     = [Connect (py "10.0.0.1") 22 (py "admin");
        Send (py "10.0.0.1") (py "show version" ++ [LF]);
        Send (py "10.0.0.1") [CR]]
       ++ command_sends (py "10.0.0.1") (py "show clock") ka rt) /\
  assoc (py "output") r.1.1 = Some (VStr (py "ok")).
Proof.
  intros O conn conns w listed r.
  destruct (list_routers_then_execute_reconnects O ascii_upper conns (py "r1")
              (py "show clock") conn w ltac:(vm_compute; reflexivity) eq_refl)
    as (Hlisted & _ & _ & Hok).
  split; [exact Hlisted|].
  destruct (Hok ltac:(vm_compute; reflexivity)) as (_ & Hsends).
  split.
  - destruct (Hsends eq_refl ltac:(intros k e; eexists; reflexivity))
      as (ka & rt & Ht).
    exists ka, rt. exact Ht.
  - vm_compute. reflexivity.
Defined.

(** ** The composite operations of the manager *)

Section ManagerExtras.
Context (O : Outside) (upper : str -> str).

(** [execute_command] writes no file. *)
Lemma execute_command_files (conns : Connections) (name command : str)
    (w : World O) :
  files O (execute_command O upper conns name command w).2 = files O w.
Proof.
  unfold execute_command.
  destruct (conns !! name) as [router|]; [|reflexivity].
  destruct (connected router); cbn [negb].
  - destruct (send_command O router command 2 w) as [[res r'] w'] eqn:E.
    apply send_command_frame in E as (_ & _ & _ & _ & _ & Hf & _). exact Hf.
  - destruct (connect O upper router 30000 w) as [[rr r1] w1] eqn:E1.
    apply connect_spec in E1 as (_ & Hf1 & _).
    destruct (succeeded rr); cbn [negb]; [|exact Hf1].
    destruct (send_command O r1 command 2 w1) as [[res r2] w2] eqn:E2.
    apply send_command_frame in E2 as (_ & _ & _ & _ & _ & Hf & _).
    cbn. congruence.
Qed.

Lemma disable_paging_files (conns : Connections) (name D : str) (w : World O) :
  files O (_disable_paging O upper conns name D w).2 = files O w.
Proof.
  unfold _disable_paging.
  destruct (assoc D paging_cmds) as [[|c cmd]|]; try reflexivity.
  pose proof (execute_command_files conns name (c :: cmd) w) as H.
  destruct (execute_command O upper conns name (c :: cmd) w) as [[? ?] ?].
  exact H.
Qed.

(** On a usable, healthy session whose sends go through, a command
    succeeds with the text that its exchange with the shell gave, and
    the session stays usable. *)
Lemma execute_command_succeeds (conns : Connections) (name command : str)
    (router : RouterConnection) (w : World O) :
  usable conns name router -> healthy O (host router) ->
  sends_ok O (host router) ->
  let x := exchange O router (strip command) 2 (idle_keepalive O router w) in
  exists raw_output ka rt,
    x.1 = inl raw_output /\
    execute_command O upper conns name command w
    = (command_result O router command raw_output x.2,
       <[name := after_command O router command raw_output x.2]> conns, x.2) /\
    usable (<[name := after_command O router command raw_output x.2]> conns)
      name (after_command O router command raw_output x.2) /\
    files O x.2 = files O w /\
    trace O x.2 = trace O w ++ command_sends (host router) command ka rt.
Proof.
  intros (Hl & Hc & Hs & Hcl) Hh Hok. cbv zeta.
  assert (He : _ensure_connected O router w = None)
    by (apply ensure_connected_healthy; assumption).
  unfold execute_command. rewrite Hl, Hc. cbn [negb].
  rewrite (send_command_exchange O router command 2 w Hc Hs He).
  destruct (idle_keepalive_spec O router w) as (ka & Hka & Hkf).
  destruct (exchange_sends O router (strip command) 2 (idle_keepalive O router w))
    as (Hxf & Hx).
  destruct (Hx (proj2 Hh)) as (rt & Ht & Hraw). destruct (Hraw Hok) as (raw & Er).
  destruct (exchange O router (strip command) 2 (idle_keepalive O router w))
    as [[raw'|ex] w']; cbn [fst snd] in *; [|discriminate Er].
  injection Er as ->. exists raw, ka, rt.
  split; [reflexivity|]. split; [reflexivity|].
  split; [repeat split; try assumption; apply lookup_insert_eq|].
  split; [congruence|].
  rewrite Ht, Hka. unfold command_sends. rewrite <- !app_assoc. reflexivity.
Qed.

(** With the flag set and the transport inactive the command is refused
    by [send_command] and nothing happens. *)
Lemma execute_command_inactive (conns : Connections) (name command : str)
    (router : RouterConnection) (w : World O) :
  conns !! name = Some router ->
  connected router = true -> shell router = true -> ssh_client router = true ->
  transport_active O (host router) (env O w) = false ->
  execute_command O upper conns name command w
  = (send_failure O command (RuntimeError (py "SSH transport inactive")) w,
     conns, w).
Proof.
  intros Hl Hc Hs Hcl Ha. unfold execute_command. rewrite Hl, Hc. cbn [negb].
  unfold send_command, _ensure_connected.
  rewrite Hc, Hs, Hcl, Ha. cbn. rewrite (insert_id _ _ _ Hl). reflexivity.
Qed.

Lemma disable_paging_inactive (conns : Connections) (name D : str)
    (router : RouterConnection) (w : World O) :
  conns !! name = Some router ->
  connected router = true -> shell router = true -> ssh_client router = true ->
  transport_active O (host router) (env O w) = false ->
  _disable_paging O upper conns name D w = (conns, w).
Proof.
  intros Hl Hc Hs Hcl Ha. unfold _disable_paging.
  destruct (assoc D paging_cmds) as [[|c cmd]|]; try reflexivity.
  rewrite (execute_command_inactive conns name (c :: cmd) router w Hl Hc Hs Hcl Ha).
  reflexivity.
Qed.

(** X18 (backup_config): what a call does to the files.  A result that
    reports success comes with one file written, in [../logs/], under
    the name that the result reports (the router name, [_config_], the
    time stamp and [.txt]), and the file holds the header followed by
    the output that the result of the [show_running] command carries.
    A result that reports a failure leaves the files as they were, or is
    the failure of the handler of the method with one file changed: the
    file had been opened when writing failed.  When the method raises,
    the files are as they were. *)
Theorem backup_config_files (conns : Connections) (name : str) (w : World O) :
  let r := backup_config O upper conns name w in
  match r.1.1 with
  | inl res =>
      if succeeded res then
        exists router M cmd output,
          conns !! name = Some router /\
          assoc (device_type router) command_templates = Some M /\
          assoc (py "show_running") M = Some cmd /\
          let p := _disable_paging O upper conns name (device_type router) w in
          let x := execute_command O upper p.1 name cmd p.2 in
          let filename :=
            backup_filename name (strftime O (time_time O (env O x.2))) in
          assoc (py "output") x.1.1 = Some (VStr output) /\
          files O x.2 = files O w /\
          r.2 = write_file O (py "../logs/" ++ filename)
                  (backup_header O name (host router) (device_type router) cmd x.2
                   ++ output) x.2 /\
          assoc (py "filename") res = Some (VStr filename) /\
          assoc (py "filepath") res = Some (VStr (py "../logs/" ++ filename))
      else
        files O r.2 = files O w \/
        exists e path partial,
          res = save_failed e /\
          files O r.2 = <[path := partial]> (files O w)
  | inr _ => files O r.2 = files O w
  end.
Proof.
  cbv zeta.
  destruct (conns !! name) as [router|] eqn:Hl;
    [|unfold backup_config; rewrite Hl; left; reflexivity].
  destruct (assoc (device_type router) command_templates) as [M|] eqn:HM;
    [|unfold backup_config; rewrite Hl, HM; left; reflexivity].
  destruct (assoc (py "show_running") M) as [cmd|] eqn:Hcmd;
    [|unfold backup_config; rewrite Hl, HM, Hcmd; reflexivity].
  rewrite (backup_config_steps O upper _ _ _ _ _ _ Hl HM Hcmd).
  pose proof (disable_paging_files conns name (device_type router) w) as Hf1.
  assert (Hp : exists c1 w1,
            _disable_paging O upper conns name (device_type router) w = (c1, w1))
    by (destruct (_disable_paging O upper conns name (device_type router) w);
        eauto).
  destruct Hp as (conns1 & w1 & Ep). rewrite Ep in Hf1 |- *. cbn [snd] in Hf1.
  pose proof (execute_command_files conns1 name cmd w1) as Hf2.
  assert (Hx : exists res c2 w2,
            execute_command O upper conns1 name cmd w1 = (res, c2, w2))
    by (destruct (execute_command O upper conns1 name cmd w1) as [[? ?] ?];
        eauto).
  destruct Hx as (res & conns2 & w2 & Ex). rewrite Ex in Hf2 |- *.
  cbn [fst snd] in Hf2.
  destruct (succeeded res) eqn:Hs; [|cbn [fst snd]; rewrite Hs; left; congruence].
  cbv zeta.
  destruct (open_refused O _ (env O w2));
    [cbn [fst snd]; left; congruence|].
  destruct (assoc (py "output") res) as [[b|output|d]|] eqn:Ho.
  2:{ destruct (write_fails O _ _ (env O w2)) as [[e partial]|];
        cbn [fst snd].
      - right. eexists e, _, partial. split; [reflexivity|].
        cbn [files write_file]. rewrite Hf2, Hf1. reflexivity.
      - change (succeeded _) with true. cbv iota.
        exists router, M, cmd, output.
        split; [reflexivity|]. split; [exact HM|]. split; [exact Hcmd|].
        rewrite Ep. cbn [fst snd]. rewrite Ex. cbn [fst snd].
        split; [exact Ho|]. split; [congruence|].
        split; [reflexivity|]. split; reflexivity. }
  all: destruct (write_fails O _ _ (env O w2)) as [[e partial]|];
    cbn [fst snd]; right; eexists _, _, _; (split; [reflexivity|]);
    cbn [files write_file]; rewrite Hf2, Hf1; reflexivity.
Qed.

(** X19 (backup_config): on a usable session with a healthy transport
    whose sends go through, for a device type with a command map and a
    logs directory in which files can be opened and written, the backup
    succeeds: the pagination command of the type, if any, and then the
    [show_running] command of the type are issued, and the file holds
    the header followed by the cleaned form of the text that the
    exchange of that command with the shell gave. *)
Theorem backup_config_succeeds (conns : Connections) (name : str)
    (router : RouterConnection) (M : list (str * str)) (w : World O) :
  usable conns name router -> healthy O (host router) ->
  sends_ok O (host router) ->
  assoc (device_type router) command_templates = Some M ->
  (forall path e, open_refused O path e = None) ->
  (forall path content e, write_fails O path content e = None) ->
  let p := _disable_paging O upper conns name (device_type router) w in
  exists cmd router1 raw_output evs,
    assoc (py "show_running") M = Some cmd /\
    usable p.1 name router1 /\
    let x := exchange O router1 (strip cmd) 2 (idle_keepalive O router1 p.2) in
    let filename :=
      backup_filename name (strftime O (time_time O (env O x.2))) in
    let content :=
      backup_header O name (host router) (device_type router) cmd x.2
      ++ (clean_output cmd raw_output (prompt router1)).1 in
    x.1 = inl raw_output /\
    backup_config O upper conns name w
    = (inl [(py "success", VBool true);
            (py "message", VStr (py "Configuration backed up successfully"));
            (py "filename", VStr filename);
            (py "filepath", VStr (py "../logs/" ++ filename));
            (py "router_name", VStr name);
            (py "timestamp", timestamp O x.2)],
       <[name := after_command O router1 cmd raw_output x.2]> p.1,
       write_file O (py "../logs/" ++ filename) content x.2) /\
    files O x.2 = files O w /\
    trace O x.2 = trace O w ++ evs /\
    issues (host router) (paging_of (device_type router) ++ [cmd]) evs.
Proof.
  intros Hu Hh Hok HM Hopen Hwrite. cbv zeta.
  destruct (command_templates_ops _ _ HM) as (_ & Hr & _).
  apply has_key_assoc in Hr as (cmd & Hcmd).
  destruct Hu as (Hl & Hu).
  rewrite (backup_config_steps O upper _ _ _ _ _ _ Hl HM Hcmd).
  destruct (disable_paging_healthy O upper conns name (device_type router)
              router w (conj Hl Hu) Hh)
    as (conns1 & r1 & w1 & evs1 & E1 & Hu1 & Hh1 & Hd1 & Hf1 & Ht1 & Hi1).
  rewrite E1. cbn [fst snd].
  assert (Hh1' : healthy O (host r1)) by (rewrite Hh1; exact Hh).
  assert (Hok1 : sends_ok O (host r1)) by (rewrite Hh1; exact Hok).
  destruct (execute_command_succeeds conns1 name cmd r1 w1 Hu1 Hh1' Hok1)
    as (raw & ka & rt & Ex & E2 & Hu2 & Hf2 & Ht2).
  rewrite E2. unfold command_result at 1. cbn [succeeded assoc str_eqb].
  change (succeeded _) with true. cbv iota zeta.
  rewrite Hopen. unfold command_result.
  change (assoc (py "output") _)
    with (Some (VStr (clean_output cmd raw (prompt r1)).1)).
  cbv iota. rewrite Hwrite.
  exists cmd, r1, raw, (evs1 ++ command_sends (host r1) cmd ka rt).
  split; [exact Hcmd|]. split; [exact Hu1|].
  split; [exact Ex|]. split; [reflexivity|].
  split; [congruence|]. split.
  - rewrite Ht2, Ht1, <- app_assoc. reflexivity.
  - apply issues_app; [exact Hi1|]. rewrite Hh1. apply issues_one.
Qed.

(** The loop of [get_logs], when the command map has every operation
    asked for, runs the commands of the entries one after the other and
    files each result under the key of its entry. *)
Lemma collect_logs_run (M : list (str * str)) (name : str)
    (entries : list (str * str)) (logs : list (str * pyval))
    (conns : Connections) (w : World O) :
  Forall (fun e => has_key e.2 M = true) entries ->
  let cmds := omap (fun e => assoc e.2 M) entries in
  let x := run_each O upper name cmds conns w in
  length cmds = length entries /\
  length x.1.1 = length entries /\
  fold_left (fun st e => collect_log O upper M name e.1 e.2 st) entries
    (inl logs, conns, w)
  = (inl (logs ++ combine (map fst entries) (map VDict x.1.1)), x.1.2, x.2).
Proof.
  intros Hall. revert logs conns w.
  induction Hall as [|[key op] entries Hk _ IH]; intros logs conns w.
  - cbn. rewrite app_nil_r. auto.
  - cbn [fold_left fst snd] in *. unfold collect_log at 2.
    apply has_key_assoc in Hk as (cmd & Hcmd). rewrite Hcmd.
    unfold omap. cbn [list_omap snd]. rewrite Hcmd. fold (@omap list _).
    cbn [run_each length].
    destruct (execute_command O upper conns name cmd w) as [[res conns1] w1].
    destruct (IH (logs ++ [(key, VDict res)]) conns1 w1) as (L1 & L2 & E).
    unfold omap in *. rewrite E.
    destruct (run_each O upper name _ conns1 w1) as [[rs c2] w2].
    cbn [fst snd length map combine] in *.
    split; [lia|]. split; [lia|].
    rewrite <- app_assoc. reflexivity.
Qed.

(** What the loop sends on a usable, healthy session. *)
Lemma collect_logs_spec (M : list (str * str)) (name : str)
    (entries : list (str * str)) (logs : list (str * pyval))
    (conns : Connections) (w : World O) :
  Forall (fun e => has_key e.2 M = true) entries ->
  exists logs' conns' w',
    fold_left (fun st e => collect_log O upper M name e.1 e.2 st) entries
      (inl logs, conns, w)
    = (inl (logs ++ logs'), conns', w') /\
    map fst logs' = map fst entries /\
    files O w' = files O w /\
    (forall router, usable conns name router -> healthy O (host router) ->
       exists evs, trace O w' = trace O w ++ evs /\
         issues (host router) (omap (fun e => assoc e.2 M) entries) evs).
Proof.
  intros Hall. revert logs conns w.
  induction Hall as [|[key op] entries Hk _ IH]; intros logs conns w.
  - exists [], conns, w. rewrite app_nil_r. repeat split.
    intros router _ _. exists []. rewrite app_nil_r. split; constructor.
  - cbn [fold_left fst snd] in *. unfold collect_log at 2.
    apply has_key_assoc in Hk as (cmd & Hcmd). rewrite Hcmd.
    pose proof (execute_command_files conns name cmd w) as Hf1.
    pose proof (fun router => execute_command_healthy O upper conns name cmd router w)
      as Hh1.
    destruct (execute_command O upper conns name cmd w) as [[res conns1] w1].
    cbn [snd] in Hf1.
    destruct (IH (logs ++ [(key, VDict res)]) conns1 w1)
      as (logs' & conns' & w' & E & Hm & Hf & Ht).
    rewrite E. exists ((key, VDict res) :: logs'), conns', w'.
    split; [rewrite <- app_assoc; reflexivity|].
    split; [cbn [map fst]; rewrite Hm; reflexivity|].
    split; [congruence|].
    intros router Hu Hhe.
    destruct (Hh1 router Hu Hhe)
      as (res0 & conns0 & r' & w0 & ka & rt & E0 & Hu' & Hh' & _ & _ & Ht0).
    injection E0 as <- <- <-.
    destruct (Ht r' Hu') as (evs & Htr & Hi); [rewrite Hh'; exact Hhe|].
    exists (command_sends (host router) cmd ka rt ++ evs).
    rewrite Htr, Ht0, <- app_assoc. split; [reflexivity|].
    cbn [omap]. unfold omap in *. cbn [list_omap snd]. rewrite Hcmd.
    constructor. rewrite <- Hh'. exact Hi.
Qed.

Lemma log_entries_supported (D : str) (M : list (str * str)) (log_type : str) :
  assoc D command_templates = Some M ->
  Forall (fun e => has_key e.2 M = true) (log_entries log_type).
Proof.
  intros HM.
  destruct (command_templates_ops _ _ HM) as (_ & _ & Hi & Hlog & Hr & Ha).
  unfold log_entries.
  destruct (str_eqb log_type (py "all") || str_eqb log_type (py "system")),
    (str_eqb log_type (py "all") || str_eqb log_type (py "interface")),
    (str_eqb log_type (py "all") || str_eqb log_type (py "routing"));
    repeat constructor; assumption.
Qed.

(** X20 (get_logs): for a session whose device type has a command map,
    [get_logs] does not raise and reports success whatever becomes of
    its commands.  After the pagination command of the type, if any, the
    commands of the entries of the log type are run by
    [execute_command], one after the other: [system] for [system],
    [interfaces] for [interface], [routes] and [arp] for [routing], all
    four for [all], and none for any other log type; [logs] holds the
    result of each of them, failures included, under the key of its
    entry, in that order.  No file is written.  On a usable session with
    a healthy transport what is sent is the pagination command and then
    those commands, in order. *)
Theorem get_logs_collects (conns : Connections) (name log_type : str)
    (router : RouterConnection) (M : list (str * str)) (w : World O) :
  conns !! name = Some router ->
  assoc (device_type router) command_templates = Some M ->
  let r := get_logs O upper conns name log_type w in
  let p := _disable_paging O upper conns name (device_type router) w in
  let cmds := omap (fun e => assoc e.2 M) (log_entries log_type) in
  let x := run_each O upper name cmds p.1 p.2 in
  length cmds = length (log_entries log_type) /\
  length x.1.1 = length (log_entries log_type) /\
  r = (inl [(py "success", VBool true);
            (py "router_name", VStr name);
            (py "log_type", VStr log_type);
            (py "logs",
             VDict (combine (map fst (log_entries log_type)) (map VDict x.1.1)));
            (py "timestamp", timestamp O x.2)],
       x.1.2, x.2) /\
  files O r.2 = files O w /\
  (connected router = true -> shell router = true ->
   ssh_client router = true -> healthy O (host router) ->
   exists evs,
     trace O r.2 = trace O w ++ evs /\
     issues (host router) (paging_of (device_type router) ++ cmds) evs).
Proof.
  intros Hl HM. cbv zeta. rewrite (get_logs_fold O upper _ _ _ _ _ _ Hl HM).
  pose proof (disable_paging_files conns name (device_type router) w) as Hf1.
  pose proof (disable_paging_healthy O upper conns name (device_type router)
                router w) as Hp.
  destruct (_disable_paging O upper conns name (device_type router) w)
    as [conns1 w1]. cbn [fst snd] in *.
  pose proof (log_entries_supported _ _ log_type HM) as Hsup.
  destruct (collect_logs_run M name (log_entries log_type) [] conns1 w1 Hsup)
    as (L1 & L2 & E).
  destruct (collect_logs_spec M name (log_entries log_type) [] conns1 w1 Hsup)
    as (logs & conns2 & w2 & E' & Hm & Hf2 & Ht2).
  rewrite E in E'. rewrite E. cbn [app fst snd] in *.
  injection E' as _ Ec Ew.
  split; [exact L1|]. split; [exact L2|]. split; [reflexivity|].
  split; [rewrite Ew; congruence|].
  intros Hc Hs Hcl Hh.
  destruct (Hp (conj Hl (conj Hc (conj Hs Hcl))) Hh)
    as (conns0 & r1 & w0 & evs1 & E0 & Hu1 & Hh1 & _ & _ & Ht1 & Hi1).
  injection E0 as <- <-.
  destruct (Ht2 r1 Hu1) as (evs2 & Htr & Hi2); [rewrite Hh1; exact Hh|].
  exists (evs1 ++ evs2). rewrite Ew, Htr, Ht1, <- app_assoc.
  split; [reflexivity|]. apply issues_app; [exact Hi1|].
  rewrite <- Hh1. exact Hi2.
Qed.

(** X21 (get_router_info): for a session whose device type has a command
    map, [get_router_info] does not raise and reports success whatever
    its two commands return: after the pagination command the
    [show_version] command and then the [show_interfaces] command of the
    type are run by [execute_command], and the result of each, failures
    included, is passed on as [version_info] and [interfaces_info], with
    the router name, the host and the device type of the session.  No
    file is written.  So for a session flagged as connected whose
    transport is inactive the answer is a success that holds the two
    failures "SSH transport inactive", and nothing was sent. *)
Theorem get_router_info_reports_success (conns : Connections) (name : str)
    (router : RouterConnection) (M : list (str * str)) (w : World O) :
  conns !! name = Some router ->
  assoc (device_type router) command_templates = Some M ->
  exists cv ci,
    assoc (py "show_version") M = Some cv /\
    assoc (py "show_interfaces") M = Some ci /\
    let p := _disable_paging O upper conns name (device_type router) w in
    let v := execute_command O upper p.1 name cv p.2 in
    let i := execute_command O upper v.1.2 name ci v.2 in
    get_router_info O upper conns name w
    = (inl [(py "success", VBool true);
            (py "router_name", VStr name);
            (py "host", VStr (host router));
            (py "device_type", VStr (device_type router));
            (py "version_info", VDict v.1.1);
            (py "interfaces_info", VDict i.1.1);
            (py "timestamp", timestamp O i.2)],
       i.1.2, i.2) /\
    files O i.2 = files O w /\
    (connected router = true -> shell router = true ->
     ssh_client router = true ->
     transport_active O (host router) (env O w) = false ->
     v.1.1 = send_failure O cv (RuntimeError (py "SSH transport inactive")) w /\
     i.1.1 = send_failure O ci (RuntimeError (py "SSH transport inactive")) w /\
     i.1.2 = conns /\ i.2 = w).
Proof.
  intros Hl HM.
  destruct (command_templates_ops _ _ HM) as (Hv & _ & Hi & _).
  apply has_key_assoc in Hv as (cv & Hv), Hi as (ci & Hi).
  exists cv, ci. split; [exact Hv|]. split; [exact Hi|]. cbv zeta.
  split; [|split].
  - unfold get_router_info. rewrite Hl, HM, Hv, Hi.
    destruct (_disable_paging O upper conns name (device_type router) w)
      as [conns1 w1]. cbn [fst snd].
    destruct (execute_command O upper conns1 name cv w1) as [[vr conns2] w2].
    cbn [fst snd].
    destruct (execute_command O upper conns2 name ci w2) as [[ir conns3] w3].
    reflexivity.
  - rewrite !execute_command_files. apply disable_paging_files.
  - intros Hc Hs Hcl Ha.
    rewrite (disable_paging_inactive conns name _ router w Hl Hc Hs Hcl Ha).
    cbn [fst snd].
    rewrite (execute_command_inactive conns name cv router w Hl Hc Hs Hcl Ha).
    cbn [fst snd].
    rewrite (execute_command_inactive conns name ci router w Hl Hc Hs Hcl Ha).
    cbn [fst snd]. auto.
Qed.
End ManagerExtras.

(** A backup on the simulated device: the file holds the header and the
    one line that the device answers. *)
Lemma backup_config_succeeds_witness :
  let O := sim_device (py "Cisco IOS Software, C2960 Software") true in
  let router := live_session (py "10.0.0.1") (py "cisco_ios") in
  let conns := one_session (py "r1") router in
  let w := sim_world (py "Cisco IOS Software, C2960 Software") true in
  let r := backup_config O ascii_upper conns (py "r1") w in
  (exists res, r.1.1 = inl res /\ succeeded res = true) /\
  files O r.2 !! py "../logs/r1_config_20240101_000000.txt"
  = Some (backup_header O (py "r1") (py "10.0.0.1") (py "cisco_ios")
            (py "show running-config") r.2 ++ py "ok") /\
  map (fun ev => match ev with Send _ payload => payload | _ => [] end)
    (trace O r.2)
  = [framed (py "terminal length 0"); framed (py "show running-config")].
Proof.
  intros O router conns w r.
  edestruct (backup_config_succeeds O ascii_upper conns (py "r1") router)
    as (cmd & r1 & raw & evs & _ & _ & _ & E & _).
  - repeat split; vm_compute; reflexivity.
  - apply sim_healthy.
  - apply sim_sends_ok.
  - vm_compute. reflexivity.
  - intros path e. reflexivity.
  - intros path content e. reflexivity.
  - split; [|split].
    + unfold r. rewrite E. eexists. split; reflexivity.
    + vm_compute. reflexivity.
    + vm_compute. reflexivity.
Defined.

Example log_entries_each :
  map (fun t => map fst (log_entries (py t)))
    ["all"; "system"; "interface"; "routing"; "interfaces"; ""]%string
  = [ map py ["system"; "interfaces"; "routes"; "arp"]%string;
      [py "system"]; [py "interfaces"]; map py ["routes"; "arp"]%string;
      []; [] ].
Proof. reflexivity. Qed.

(** The routing logs of the simulated device: the two commands, and the
    answer of the device to each under its key. *)
Lemma get_logs_collects_witness :
  let O := sim_device (py "Cisco IOS Software, C2960 Software") true in
  let router := live_session (py "10.0.0.1") (py "cisco_ios") in
  let conns := one_session (py "r1") router in
  let w := sim_world (py "Cisco IOS Software, C2960 Software") true in
  let r := get_logs O ascii_upper conns (py "r1") (py "routing") w in
  match r.1.1 with
  | inl res =>
      match assoc (py "logs") res with
      | Some (VDict logs) =>
          map (fun kv => (kv.1,
                          match kv.2 with
                          | VDict d => (assoc (py "command") d, assoc (py "output") d)
                          | _ => (None, None)
                          end)) logs
          = [(py "routes", (Some (VStr (py "show ip route")), Some (VStr (py "ok"))));
             (py "arp", (Some (VStr (py "show arp")), Some (VStr (py "ok"))))]
      | _ => False
      end
  | inr _ => False
  end.
Proof.
  intros O router conns w r.
  edestruct (get_logs_collects O ascii_upper conns (py "r1") (py "routing")
               router) as (_ & _ & E & _).
  - vm_compute. reflexivity.
  - vm_compute. reflexivity.
  - unfold r. rewrite E. vm_compute. reflexivity.
Defined.

(** A device whose transport is down: both commands fail, and the
    information is still reported as a success. *)
Lemma get_router_info_reports_success_witness :
  let O := sim_device (py "Cisco IOS Software, C2960 Software") false in
  let router := live_session (py "10.0.0.1") (py "cisco_ios") in
  let conns := one_session (py "r1") router in
  let w := sim_world (py "Cisco IOS Software, C2960 Software") false in
  get_router_info O ascii_upper conns (py "r1") w
  = (inl [(py "success", VBool true);
          (py "router_name", VStr (py "r1"));
          (py "host", VStr (py "10.0.0.1"));
          (py "device_type", VStr (py "cisco_ios"));
          (py "version_info",
           VDict (send_failure O (py "show version")
                    (RuntimeError (py "SSH transport inactive")) w));
          (py "interfaces_info",
           VDict (send_failure O (py "show ip interface brief")
                    (RuntimeError (py "SSH transport inactive")) w));
          (py "timestamp", timestamp O w)],
     conns, w).
Proof.
  intros O router conns w.
  edestruct (get_router_info_reports_success O ascii_upper conns (py "r1")
               router) as (cv & ci & Hv & Hi & E & _ & Hdown).
  - vm_compute. reflexivity.
  - vm_compute. reflexivity.
  - injection Hv as <-. injection Hi as <-.
    destruct (Hdown eq_refl eq_refl eq_refl eq_refl) as (E1 & E2 & E3 & E4).
    rewrite E, E1, E2, E3, E4. reflexivity.
Defined.

(** ** The token bucket of the console bridge *)







Lemma detach_is_no_other_notice :
  ws_info_detach <> ws_warn_rate /\ ws_info_detach <> ws_warn_large /\
  (forall e, ws_info_detach <> ws_send_failed e) /\
  (forall e, ws_info_detach <> ws_error e).
Proof.
  repeat split; try discriminate; intros e H;
    apply (f_equal (firstn 2)) in H; vm_compute in H; discriminate H.
Qed.

Lemma ends_at_detach_cons (ev : ws_event) (evs : list ws_event) :
  ev <> ToClient ws_info_detach -> ends_at_detach evs ->
  ends_at_detach (ev :: evs).
Proof.
  intros Hev H [|e1 before] after E.
  - injection E as E _. congruence.
  - injection E as _ E. exact (H _ _ E).
Qed.

Lemma on_failure_shape (msgs : list arrival) (f : ws_failure) :
  Forall (console_event msgs) (Binary64.on_failure f) /\
  ends_at_detach (Binary64.on_failure f).
Proof.
  destruct f as [|e]; cbn [Binary64.on_failure].
  - split; [constructor|]. intros [|? ?] after H; discriminate H.
  - split.
    + constructor; [|constructor]. right; right; right; right. exists e.
      reflexivity.
    + apply ends_at_detach_cons; [|intros [|? ?] after H; discriminate H].
      intros H. assert (E : ws_error e = ws_info_detach) by congruence.
      destruct detach_is_no_other_notice as (_ & _ & _ & Hd).
      exact (Hd e (eq_sym E)).
Qed.

Lemma notify_shape (msgs : list arrival) (a : arrival) (i : nat) (notice : str)
    (next : list ws_event) :
  console_event msgs (ToClient notice) -> notice <> ws_info_detach ->
  Forall (console_event msgs) next -> ends_at_detach next ->
  Forall (console_event msgs) (Binary64.notify a i notice next) /\
  ends_at_detach (Binary64.notify a i notice next).
Proof.
  intros Hn Hd Hnext Dnext. unfold Binary64.notify.
  destruct (on_failure_shape msgs Disconnected) as [_ _].
  destruct (notice_error a i) as [f|].
  - destruct (on_failure_shape msgs f) as [Hf Df]. split.
    + constructor; assumption.
    + apply ends_at_detach_cons; [congruence | exact Df].
  - split.
    + constructor; assumption.
    + apply ends_at_detach_cons; [congruence | exact Dnext].
Qed.

Lemma console_event_more (a : arrival) (msgs : list arrival) (ev : ws_event) :
  console_event msgs ev -> console_event (a :: msgs) ev.
Proof.
  destruct ev as [t|m]; [auto|]. intros [Hl (a0 & Hin & Hm)].
  split; [exact Hl|]. exists a0. split; [right; exact Hin | exact Hm].
Qed.

(** X24 (websocket_ssh_console): what the receive loop does with the
    messages of the operator, whatever the bucket holds and whatever
    fails: what it hands to [shell.send] is one of the messages, cut to
    its first 2000 characters, and so never longer than that; what it
    hands to [websocket.send_text] is one of its three notices, the
    report of a send that failed, or the report of the exception that
    ended the loop; and after the notice of detaching nothing follows
    but, when sending that notice failed, the report of the failure. *)
Theorem console_events_shape (capacity rate : float) (msgs : list arrival)
    (ending : ws_failure) (b : Binary64.bucket) :
  let evs := Binary64.console_loop capacity rate msgs ending b in
  Forall (fun ev =>
            match ev with
            | ToShell m =>
                (length m <= 2000)%nat /\
                exists a, In a msgs /\ m = slice_to 2000 (message a)
            | ToClient t =>
                t = ws_warn_rate \/ t = ws_warn_large \/ t = ws_info_detach \/
                (exists e, t = ws_send_failed e) \/ (exists e, t = ws_error e)
            end) evs /\
  (forall before after,
     evs = before ++ ToClient ws_info_detach :: after ->
     after = [] \/ exists e, after = [ToClient (ws_error e)]).
Proof.
  cbv zeta.
  change (Forall (console_event msgs)
            (Binary64.console_loop capacity rate msgs ending b) /\
          ends_at_detach (Binary64.console_loop capacity rate msgs ending b)).
  destruct detach_is_no_other_notice as (D1 & D2 & D3 & D4).
  revert b. induction msgs as [|a rest IH]; intros b.
  - cbn [Binary64.console_loop]. apply on_failure_shape.
  - cbn [Binary64.console_loop].
    destruct (Binary64.take_tokens capacity rate (at_time a)
                (length (message a)) b) as [ok b'].
    destruct (IH b') as [IH1 IH2].
    assert (Hnext : Forall (console_event (a :: rest))
                      (Binary64.console_loop capacity rate rest ending b')).
    { eapply List.Forall_impl; [|exact IH1]. apply console_event_more. }
    destruct ok; cbn [negb].
    2:{ apply notify_shape; try assumption; [left; reflexivity | congruence]. }
    destruct (str_eqb (strip (message a)) (py "/exit")
              || str_eqb (strip (message a)) (py "exit")).
    { unfold Binary64.notify. destruct (notice_error a 0%nat) as [f|].
      - destruct (on_failure_shape (a :: rest) f) as [Hf Df]. split.
        + constructor; [right; right; left; reflexivity | exact Hf].
        + intros [|e1 before] after E.
          * injection E as <-. destruct f as [|e]; cbn [Binary64.on_failure]; eauto.
          * injection E as _ E. exact (Df _ _ E).
      - split; [constructor; [right; right; left; reflexivity | constructor]|].
        intros [|e1 [|e2 before]] after E; try discriminate E.
        injection E as <-. auto. }
    assert (Hsent :
              forall i,
                Forall (console_event (a :: rest))
                  (ToShell (if (2000 <? length (message a))%nat
                            then slice_to 2000 (message a) else message a) ::
                   match send_error a with
                   | Some e =>
                       Binary64.notify a i (ws_send_failed e)
                         (Binary64.console_loop capacity rate rest ending b')
                   | None => Binary64.console_loop capacity rate rest ending b'
                   end) /\
                ends_at_detach
                  (ToShell (if (2000 <? length (message a))%nat
                            then slice_to 2000 (message a) else message a) ::
                   match send_error a with
                   | Some e =>
                       Binary64.notify a i (ws_send_failed e)
                         (Binary64.console_loop capacity rate rest ending b')
                   | None => Binary64.console_loop capacity rate rest ending b'
                   end)).
    { intros i.
      assert (Hrest :
                Forall (console_event (a :: rest))
                  match send_error a with
                  | Some e =>
                      Binary64.notify a i (ws_send_failed e)
                        (Binary64.console_loop capacity rate rest ending b')
                  | None => Binary64.console_loop capacity rate rest ending b'
                  end /\
                ends_at_detach
                  match send_error a with
                  | Some e =>
                      Binary64.notify a i (ws_send_failed e)
                        (Binary64.console_loop capacity rate rest ending b')
                  | None => Binary64.console_loop capacity rate rest ending b'
                  end).
      { destruct (send_error a) as [e|]; [|split; assumption].
        apply notify_shape; try assumption;
          [right; right; right; left; exists e; reflexivity|].
        intros H. exact (D3 e (eq_sym H)). }
      destruct Hrest as [R1 R2]. split.
      - constructor; [|exact R1]. cbn [console_event]. split.
        + destruct (2000 <? length (message a))%nat eqn:El.
          * unfold slice_to. rewrite length_firstn. lia.
          * apply Nat.ltb_ge in El. exact El.
        + exists a. split; [left; reflexivity|].
          destruct (2000 <? length (message a))%nat eqn:El; [reflexivity|].
          apply Nat.ltb_ge in El. unfold slice_to. symmetry.
          apply firstn_all2. exact El.
      - apply ends_at_detach_cons; [discriminate | exact R2]. }
    destruct (2000 <? length (message a))%nat eqn:El.
    + destruct (Hsent 1%nat) as [S1 S2].
      apply notify_shape; try assumption;
        [right; left; reflexivity | congruence].
    + destruct (Hsent 0%nat) as [S1 S2].
      split; assumption.
Qed.

(** ** From a backup to its download *)

Lemma startswith_nil (s : str) : startswith s [] = true.
Proof. destruct s; reflexivity. Qed.

Lemma contains_char_app (a : char) (x y : str) :
  contains [a] (x ++ y) = contains [a] x || contains [a] y.
Proof.
  induction x as [|h x IH]; [reflexivity|].
  cbn [app contains startswith]. rewrite IH, !startswith_nil.
  destruct (a =? h); reflexivity.
Qed.

Lemma contains_pair_app (a b c : char) (x y : str) :
  c <> b ->
  contains [a; b] (x ++ c :: y)
  = contains [a; b] x || contains [a; b] (c :: y).
Proof.
  intros Hc. induction x as [|h x IH]; [reflexivity|].
  cbn [app]. cbn [contains]. fold (contains [a; b] (x ++ c :: y)).
  fold (contains [a; b] x). rewrite IH.
  assert (E : startswith (h :: x ++ c :: y) [a; b] = startswith (h :: x) [a; b]).
  { cbn [startswith]. destruct x as [|h' x'].
    - cbn [app startswith]. apply N.eqb_neq in Hc.
      rewrite N.eqb_sym in Hc. rewrite Hc, !andb_false_r. reflexivity.
    - cbn [app startswith]. rewrite !startswith_nil. reflexivity. }
  rewrite E. destruct (startswith (h :: x) [a; b]); reflexivity.
Qed.

Lemma is_digit_plain (c : char) :
  is_digit c = true ->
  (47 =? c) = false /\ (46 =? c) = false /\ (92 =? c) = false.
Proof.
  unfold is_digit. intros H. apply andb_prop in H as [H1 H2].
  apply N.leb_le in H1, H2.
  repeat split; apply N.eqb_neq; lia.
Qed.

(** The part of a backup name after the router name holds nothing that
    the download refuses. *)
Lemma backup_suffix_plain (ts : str) :
  is_timestamp ts = true ->
  has_traversal (py "_config_" ++ ts ++ py ".txt") = false.
Proof.
  intros H. unfold is_timestamp in H.
  do 15 (destruct ts as [|? ts]; [discriminate H|]).
  destruct ts; [|discriminate H].
  cbn [length Nat.eqb firstn skipn forallb andb str_eqb] in H.
  change (py "_") with [95] in H. cbn [str_eqb] in H.
  repeat match goal with
         | Hc : _ && _ = true |- _ => apply andb_prop in Hc as [? ?]
         end.
  repeat match goal with
         | Hd : is_digit ?c = true |- _ =>
             destruct (is_digit_plain c Hd) as (? & ? & ?); clear Hd
         | Hd : (?c =? 95) = true |- _ => apply N.eqb_eq in Hd; subst c
         | Hd : true = true |- _ => clear Hd
         end.
  unfold has_traversal.
  change (py "_config_") with [95; 99; 111; 110; 102; 105; 103; 95].
  change (py ".txt") with [46; 116; 120; 116].
  change (py "/") with [47]. change (py "..") with [46; 46].
  cbn [app contains startswith].
  repeat match goal with
         | Hd : (_ =? ?c) = false |- _ => rewrite !Hd; clear Hd
         end.
  reflexivity.
Qed.

Lemma has_traversal_backup_filename (name ts : str) :
  is_timestamp ts = true ->
  has_traversal (backup_filename name ts) = has_traversal name.
Proof.
  intros H. pose proof (backup_suffix_plain ts H) as Hs.
  unfold backup_filename, has_traversal in *.
  set (S := py "_config_" ++ ts ++ py ".txt") in *.
  assert (E1 : contains (py "/") (name ++ S)
               = contains (py "/") name || contains (py "/") S)
    by exact (contains_char_app 47 name S).
  assert (E2 : contains [92] (name ++ S)
               = contains [92] name || contains [92] S)
    by exact (contains_char_app 92 name S).
  assert (E3 : contains (py "..") (name ++ S)
               = contains (py "..") name || contains (py "..") S)
    by exact (contains_pair_app 46 46 95 name (py "config_" ++ ts ++ py ".txt")
                ltac:(discriminate)).
  rewrite E1, E2, E3.
  apply orb_false_elim in Hs as [Hs H3]. apply orb_false_elim in Hs as [H1 H2].
  rewrite H1, H2, H3, !orb_false_r. reflexivity.
Qed.

(** X25 (backup_config, download_backup_file): a backup can be fetched
    again exactly when the router name holds none of [/], [..] and
    backslash: the name that [backup_config] gives the file, with a time
    stamp of [strftime], passes the checks of the download if and only
    if the router name holds none of them; otherwise the download
    refuses the file it was given by the backup with status 400. *)
Theorem backup_filename_downloadable (name ts : str) :
  is_timestamp ts = true ->
  filename_accepted (backup_filename name ts) = negb (has_traversal name) /\
  (has_traversal name = true ->
   forall logs_dir,
     download_backup_file logs_dir (backup_filename name ts)
     = HTTPError 400 (py "Invalid filename")) /\
  (has_traversal name = false ->
   forall logs_dir content,
     logs_dir (backup_filename name ts) = Some (DirAnswer true (Some content)) ->
     download_backup_file logs_dir (backup_filename name ts)
     = FileResponse (backup_filename name ts) content).
Proof.
  intros H.
  pose proof (has_traversal_backup_filename name ts H) as Ht.
  assert (Hs : has_backup_shape (backup_filename name ts) = true)
    by (apply has_backup_shape_spec; eauto).
  split; [|split].
  - unfold filename_accepted. rewrite Ht, Hs, andb_true_r. reflexivity.
  - intros Hn logs_dir. unfold download_backup_file. rewrite Ht, Hn. reflexivity.
  - intros Hn logs_dir content Hd. unfold download_backup_file.
    rewrite Ht, Hn, Hs, Hd. reflexivity.
Qed.

Lemma backup_filename_downloadable_witness :
  filename_accepted (backup_filename (py "edge-1") (py "20240131_235959")) = true /\
  download_backup_file (fun _ => None)
    (backup_filename (py "lab/r1") (py "20240131_235959"))
  = HTTPError 400 (py "Invalid filename").
Proof.
  split.
  - destruct (backup_filename_downloadable (py "edge-1") (py "20240131_235959")
                eq_refl) as [H _]. exact H.
  - destruct (backup_filename_downloadable (py "lab/r1") (py "20240131_235959")
                eq_refl) as (_ & H & _). apply H. reflexivity.
Defined.

(** ** One session at a time *)

Lemma same_device_refl (r : RouterConnection) : same_device r r.
Proof. repeat split. Qed.

Lemma same_device_trans (a b c : RouterConnection) :
  same_device a b -> same_device b c -> same_device a c.
Proof.
  intros (H1 & H2 & H3 & H4) (G1 & G2 & G3 & G4). repeat split; congruence.
Qed.

Lemma only_session_changed_refl (name : str) (conns : Connections) :
  only_session_changed name conns conns.
Proof.
  split; [reflexivity|]. destruct (conns !! name) as [r|]; [|reflexivity].
  exists r. split; [reflexivity | apply same_device_refl].
Qed.

Lemma only_session_changed_trans (name : str) (c1 c2 c3 : Connections) :
  only_session_changed name c1 c2 -> only_session_changed name c2 c3 ->
  only_session_changed name c1 c3.
Proof.
  intros [H1 G1] [H2 G2]. split.
  - intros n Hn. rewrite (H2 n Hn). apply H1, Hn.
  - destruct (c1 !! name) as [r1|].
    + destruct G1 as (r2 & E2 & S2). rewrite E2 in G2.
      destruct G2 as (r3 & E3 & S3). exists r3. split; [exact E3|].
      eapply same_device_trans; eassumption.
    + rewrite G1 in G2. exact G2.
Qed.

Lemma only_session_changed_insert (name : str) (conns : Connections)
    (r r' : RouterConnection) :
  conns !! name = Some r -> same_device r' r ->
  only_session_changed name conns (<[name := r']> conns).
Proof.
  intros Hl Hs. split.
  - intros n Hn. apply lookup_insert_ne. congruence.
  - rewrite Hl. exists r'. split; [apply lookup_insert_eq | exact Hs].
Qed.

Section Isolation.
Context (O : Outside) (upper : str -> str).

Lemma send_command_same_device (self : RouterConnection) (command : str)
    (wait_time : Z) (w : World O) :
  same_device (send_command O self command wait_time w).1.2 self.
Proof.
  destruct (send_command_session O self command wait_time w)
    as [[_ ->]|[_ (raw & -> & _)]]; repeat split.
Qed.

Lemma connect_same_device (self : RouterConnection) (timeout : Z) (w : World O) :
  same_device (connect O upper self timeout w).1.2 self.
Proof.
  unfold connect.
  destruct (ssh_connect O _ _ _ _ _ _) as [[ex|] e1]; [repeat split|].
  destruct (invoke_shell O _ _) as [[ex|] e2]; [repeat split|].
  destruct (do_read O _ InitialRecv _) as [[buf|ex] w1]; [|repeat split].
  destruct (run_detect_device_type_only_sends O upper
              (set_shell true (set_ssh_client true self)) w1) as (Hs2 & _).
  destruct (run_detect_device_type O upper _ w1) as [s2 w2].
  destruct (detect_prompt_only_sends O s2 w2) as (Hs3 & _).
  destruct (_detect_prompt O s2 w2) as [s3 w3].
  cbn [fst snd] in *. rewrite Hs3, Hs2. repeat split.
Qed.

Lemma execute_command_only_session (conns : Connections)
    (name command : str) (w : World O) :
  only_session_changed name conns
    (execute_command O upper conns name command w).1.2.
Proof.
  unfold execute_command.
  destruct (conns !! name) as [router|] eqn:Hl;
    [|apply only_session_changed_refl].
  destruct (connected router); cbn [negb].
  - pose proof (send_command_same_device router command 2 w) as Hs.
    destruct (send_command O router command 2 w) as [[res r'] w'].
    apply (only_session_changed_insert _ _ _ _ Hl Hs).
  - pose proof (connect_same_device router 30000 w) as Hc.
    destruct (connect O upper router 30000 w) as [[rr r1] w1].
    cbn [fst snd] in Hc.
    destruct (succeeded rr); cbn [negb];
      [|apply (only_session_changed_insert _ _ _ _ Hl Hc)].
    pose proof (send_command_same_device r1 command 2 w1) as Hs.
    destruct (send_command O r1 command 2 w1) as [[res r2] w2].
    cbn [fst snd] in *. rewrite insert_insert_eq.
    apply (only_session_changed_insert _ _ _ _ Hl).
    eapply same_device_trans; eassumption.
Qed.

Lemma disable_paging_only_session (conns : Connections) (name D : str)
    (w : World O) :
  only_session_changed name conns (_disable_paging O upper conns name D w).1.
Proof.
  unfold _disable_paging.
  destruct (assoc D paging_cmds) as [[|c cmd]|];
    try apply only_session_changed_refl.
  pose proof (execute_command_only_session conns name (c :: cmd) w) as H.
  destruct (execute_command O upper conns name (c :: cmd) w) as [[? ?] ?].
  exact H.
Qed.

Lemma collect_log_only_session (M : list (str * str)) (name key op : str)
    (c0 : Connections)
    (st : (list (str * pyval) + exc) * Connections * World O) :
  only_session_changed name c0 st.1.2 ->
  only_session_changed name c0 (collect_log O upper M name key op st).1.2.
Proof.
  destruct st as [[logs conns] w]. cbn [fst snd]. intros H0.
  unfold collect_log. destruct logs as [logs|e]; [|exact H0].
  destruct (assoc op M) as [cmd|]; [|exact H0].
  pose proof (execute_command_only_session conns name cmd w) as H.
  destruct (execute_command O upper conns name cmd w) as [[? ?] ?].
  eapply only_session_changed_trans; eassumption.
Qed.

(** X26 (execute_command, get_router_info, backup_config, get_logs): an
    operation on one router changes at most the session of that router:
    every other name of the registry is left with the session it had,
    and the name itself stays registered, with a session for the same
    host, port, user and password, or stays unknown. *)
Theorem operations_change_one_session (conns : Connections) (name : str)
    (w : World O) :
  (forall command,
     only_session_changed name conns
       (execute_command O upper conns name command w).1.2) /\
  only_session_changed name conns (get_router_info O upper conns name w).1.2 /\
  only_session_changed name conns (backup_config O upper conns name w).1.2 /\
  (forall log_type,
     only_session_changed name conns
       (get_logs O upper conns name log_type w).1.2).
Proof.
  split; [intros command; apply execute_command_only_session|].
  split; [|split].
  - unfold get_router_info.
    destruct (conns !! name) as [router|]; [|apply only_session_changed_refl].
    destruct (assoc (device_type router) command_templates) as [M|];
      [|apply only_session_changed_refl].
    pose proof (disable_paging_only_session conns name (device_type router) w) as H1.
    destruct (_disable_paging O upper conns name (device_type router) w)
      as [conns1 w1]. cbn [fst] in H1.
    destruct (assoc (py "show_version") M) as [cv|]; [|exact H1].
    pose proof (execute_command_only_session conns1 name cv w1) as H2.
    destruct (execute_command O upper conns1 name cv w1) as [[vr conns2] w2].
    cbn [fst snd] in H2.
    assert (H12 : only_session_changed name conns conns2)
      by (eapply only_session_changed_trans; eassumption).
    destruct (assoc (py "show_interfaces") M) as [ci|]; [|exact H12].
    pose proof (execute_command_only_session conns2 name ci w2) as H3.
    destruct (execute_command O upper conns2 name ci w2) as [[ir conns3] w3].
    cbn [fst snd] in *. eapply only_session_changed_trans; eassumption.
  - unfold backup_config.
    destruct (conns !! name) as [router|]; [|apply only_session_changed_refl].
    destruct (assoc (device_type router) command_templates) as [M|];
      [|apply only_session_changed_refl].
    destruct (assoc (py "show_running") M) as [cmd|];
      [|apply only_session_changed_refl].
    pose proof (disable_paging_only_session conns name (device_type router) w) as H1.
    destruct (_disable_paging O upper conns name (device_type router) w)
      as [conns1 w1]. cbn [fst] in H1.
    pose proof (execute_command_only_session conns1 name cmd w1) as H2.
    destruct (execute_command O upper conns1 name cmd w1) as [[res conns2] w2].
    cbn [fst snd] in H2.
    assert (H12 : only_session_changed name conns conns2)
      by (eapply only_session_changed_trans; eassumption).
    destruct (succeeded res); [|exact H12].
    destruct (open_refused O _ _); [exact H12|].
    destruct (assoc (py "output") res) as [[| |]|];
      destruct (write_fails O _ _ _) as [[? ?]|]; exact H12.
  - intros log_type.
    destruct (conns !! name) as [router|] eqn:Hl;
      [|unfold get_logs; rewrite Hl; apply only_session_changed_refl].
    destruct (assoc (device_type router) command_templates) as [M|] eqn:HM;
      [|unfold get_logs; rewrite Hl, HM; apply only_session_changed_refl].
    rewrite (get_logs_fold O upper _ _ _ _ _ _ Hl HM).
    pose proof (disable_paging_only_session conns name (device_type router) w) as H1.
    destruct (_disable_paging O upper conns name (device_type router) w)
      as [conns1 w1]. cbn [fst] in H1.
    assert (H : forall entries st,
               only_session_changed name conns st.1.2 ->
               only_session_changed name conns
                 (fold_left (fun st e => collect_log O upper M name e.1 e.2 st)
                    entries st).1.2).
    { induction entries as [|e entries IH]; intros st Hst; [exact Hst|].
      cbn [fold_left]. apply IH, collect_log_only_session, Hst. }
    specialize (H (log_entries log_type) (inl [], conns1, w1) H1).
    destruct (fold_left _ (log_entries log_type) _) as [[[logs|e] c] w'];
      exact H.
Qed.
End Isolation.

(** ** What [connect] puts on the wire *)

Section ConnectWire.
Context (O : Outside) (upper : str -> str).

(** A connection that fails has sent nothing, and leaves the flag of the
    session as it was. *)
Lemma connect_failure_silent (self : RouterConnection) (timeout : Z)
    (w : World O) :
  let r := connect O upper self timeout w in
  succeeded r.1.1 = false ->
  trace O r.2 = trace O w ++ [Connect (host self) (port self) (username self)] /\
  connected r.1.2 = connected self /\
  has_key (py "command") r.1.1 = false.
Proof.
  cbv zeta. unfold connect.
  destruct (ssh_connect O _ _ _ _ _ _) as [[ex|] e1];
    [intros _; repeat split|].
  destruct (invoke_shell O _ _) as [[ex|] e2]; [intros _; repeat split|].
  destruct (do_read O _ InitialRecv _) as [[buf|ex] w1] eqn:E1;
    apply do_read_spec in E1 as (Ht1 & _ & _).
  - destruct (run_detect_device_type O upper _ w1) as [s2 w2].
    destruct (_detect_prompt O s2 w2) as [s3 w3]. discriminate.
  - intros _. cbn [fst snd]. rewrite Ht1. repeat split.
Qed.

(** X28 (connect, _detect_device_type, _detect_prompt): what [connect]
    puts on the wire.  A connection that fails has sent nothing: one
    attempt to connect and no more.  One that succeeds, on a session
    whose reads come back, has sent the probe [show version] and then a
    bare CR for the prompt, and nothing else, whether or not these sends
    went through. *)
Theorem connect_wire (self : RouterConnection) (timeout : Z) (w : World O) :
  let r := connect O upper self timeout w in
  let attempt := Connect (host self) (port self) (username self) in
  (succeeded r.1.1 = false -> trace O r.2 = trace O w ++ [attempt]) /\
  (succeeded r.1.1 = true -> healthy O (host self) ->
   trace O r.2
   = trace O w ++ [attempt; Send (host self) (py "show version" ++ [LF]);
                   Send (host self) [CR]]).
Proof.
  cbv zeta. split.
  { intros H. apply (connect_failure_silent self timeout w H). }
  unfold connect.
  destruct (ssh_connect O _ _ _ _ _ _) as [[ex|] e1]; [discriminate|].
  destruct (invoke_shell O _ _) as [[ex|] e2]; [discriminate|].
  destruct (do_read O _ InitialRecv _) as [[buf|ex] w1] eqn:E1;
    [|discriminate].
  apply do_read_spec in E1 as (Ht1 & _ & _).
  intros _ Hh.
  set (s1 := set_shell true (set_ssh_client true self)) in *.
  assert (Hh1 : healthy O (host s1)) by exact Hh.
  assert (Hd : exists s2 w2,
             run_detect_device_type O upper s1 w1 = (s2, w2) /\
             host s2 = host self /\
             trace O w2 = trace O w1 ++ [Send (host self) (py "show version" ++ [LF])]).
  { unfold run_detect_device_type.
    destruct (do_read O s1 DrainReady w1) as [r0 w0] eqn:E0.
    destruct (do_read_healthy O _ _ _ _ _ Hh1 E0) as (x & ->).
    apply do_read_spec in E0 as (Ht0 & _ & _).
    destruct (do_send O s1 (py "show version" ++ [LF]) w0) as [sr w2] eqn:E2.
    apply do_send_spec in E2 as (Ht2 & _ & _).
    change (host s1) with (host self) in Ht2.
    destruct sr as [ex|].
    - eexists _, _. split; [reflexivity|]. split; [reflexivity|]. congruence.
    - destruct (do_read O s1 DetectRead w2) as [r3 w3] eqn:E3.
      apply do_read_spec in E3 as (Ht3 & _ & _).
      destruct r3; eexists _, _; (split; [reflexivity|]);
        (split; [reflexivity|]); congruence. }
  destruct Hd as (s2 & w2 & -> & Hh2 & Ht2).
  assert (Hp : exists s3 w3,
             _detect_prompt O s2 w2 = (s3, w3) /\
             trace O w3 = trace O w2 ++ [Send (host self) [CR]]).
  { unfold _detect_prompt.
    destruct (do_send O s2 [CR] w2) as [sr w3] eqn:E3.
    apply do_send_spec in E3 as (Ht3 & _ & _). rewrite Hh2 in Ht3.
    destruct sr as [ex|]; [eauto|].
    destruct (do_read O s2 PromptRead w3) as [r4 w4] eqn:E4.
    apply do_read_spec in E4 as (Ht4 & _ & _).
    destruct r4 as [buf4|ex]; [|eexists _, _; split; [reflexivity|congruence]].
    destruct (find_prompt (rev (splitlines buf4)));
      eexists _, _; (split; [reflexivity|congruence]). }
  destruct Hp as (s3 & w3 & -> & Ht3).
  cbn [fst snd]. rewrite Ht3, Ht2, Ht1. cbn [trace with_env log].
  rewrite <- !app_assoc. reflexivity.
Qed.

(** X29 (execute_command): when the session is flagged as not connected
    and the attempt to connect again fails, the command is not sent:
    [execute_command] returns the failure of the connection, which names
    no command, nothing goes to the device after the one attempt, and the
    session stays registered, still flagged as not connected, so that
    the next command tries again. *)
Theorem execute_command_failed_reconnect (conns : Connections)
    (name command : str) (router : RouterConnection) (w : World O) :
  conns !! name = Some router ->
  connected router = false ->
  succeeded (connect O upper router 30000 w).1.1 = false ->
  let r := execute_command O upper conns name command w in
  r.1.1 = (connect O upper router 30000 w).1.1 /\
  has_key (py "command") r.1.1 = false /\
  trace O r.2
  = trace O w ++ [Connect (host router) (port router) (username router)] /\
  exists router',
    r.1.2 !! name = Some router' /\ connected router' = false /\
    same_device router' router.
Proof.
  intros Hl Hc Hf. cbv zeta.
  destruct (connect_failure_silent router 30000 w Hf) as (Ht & Hcn & Hk).
  pose proof (connect_same_device O upper router 30000 w) as Hs.
  unfold execute_command. rewrite Hl, Hc. cbn [negb].
  destruct (connect O upper router 30000 w) as [[rr r1] w1].
  cbn [fst snd] in *. rewrite Hf. cbn [negb fst snd].
  repeat split; try assumption.
  exists r1. split; [apply lookup_insert_eq|]. split; [congruence | exact Hs].
Qed.
End ConnectWire.

Lemma connect_wire_witness :
  let O := sim_device (py "Cisco IOS Software, C2960 Software") true in
  let self := RouterConnection_init (py "10.0.0.1") (py "admin") (py "pw") 22 in
  let w := sim_world (py "Cisco IOS Software, C2960 Software") true in
  trace O (connect O ascii_upper self 30000 w).2
  = [Connect (py "10.0.0.1") 22 (py "admin");
     Send (py "10.0.0.1") (py "show version" ++ [LF]);
     Send (py "10.0.0.1") [CR]].
Proof.
  intros O self w.
  destruct (connect_wire O ascii_upper self 30000 w) as [_ H].
  apply H; [vm_compute; reflexivity | apply sim_healthy].
Defined.

Lemma execute_command_failed_reconnect_witness :
  let O := unreachable_device in
  let router := set_connected false (live_session (py "10.0.0.1") (py "cisco_ios")) in
  let conns := one_session (py "r1") router in
  let w := mkWorld O (mkSim 0 []) [] ∅ in
  let r := execute_command O ascii_upper conns (py "r1") (py "show clock") w in
  assoc (py "error") r.1.1
  = Some (VStr (py "Connection timeout to 10.0.0.1:22")) /\
  trace O r.2 = [Connect (py "10.0.0.1") 22 (py "admin")].
Proof.
  intros O router conns w r.
  destruct (execute_command_failed_reconnect O ascii_upper conns (py "r1")
              (py "show clock") router w
              ltac:(vm_compute; reflexivity) eq_refl
              ltac:(vm_compute; reflexivity))
    as (Hres & _ & Ht & _).
  split; [|exact Ht].
  fold r in Hres. rewrite Hres. vm_compute. reflexivity.
Defined.

(** ** The reader in general *)

(** X30 (_read_until_quiet): the outcome of the reader for any shell and
    any clock is settled at the first turn of its loop at which the poll
    raises or one of the two tests holds as the code computes it on its
    readings of the clock (the reading less the one at the last chunk is
    [quiet_time] or more, or the next reading less the first one is
    [max_total] or more).  When the poll of that turn raises, the call
    raises with it and the text gathered before is lost; otherwise the
    call returns all the text received up to and with that turn. *)
Theorem read_until_quiet_outcome (shell : nat -> poll) (clock : nat -> float)
    (quiet_time max_total : float) (n : nat) :
  (forall j, (j < n)%nat ->
     is_broken (shell j) = false /\
     leaves_at shell clock quiet_time max_total j = false) ->
  (forall e, shell n = Broken e ->
     forall fuel, (n < fuel)%nat ->
       _read_until_quiet shell clock quiet_time max_total fuel
       = Some (ReadResult (Raised e) n)) /\
  (is_broken (shell n) = false ->
   leaves_at shell clock quiet_time max_total n = true ->
   forall fuel, (n < fuel)%nat ->
     _read_until_quiet shell clock quiet_time max_total fuel
     = Some (ReadResult (Returned (received shell (S n))) n)).
Proof.
  intros Hbefore. split.
  - intros e He fuel Hf. unfold _read_until_quiet.
    apply (read_loop_first_break shell clock quiet_time max_total n e
             ltac:(intros; apply Hbefore; assumption)
             ltac:(intros; apply Hbefore; assumption) He n 0%nat fuel); lia.
  - intros Hn Hl fuel Hf. unfold _read_until_quiet.
    assert (Hnb : forall j, (j <= n)%nat -> is_broken (shell j) = false).
    { intros j Hj. destruct (Nat.eq_dec j n) as [->|Hne]; [exact Hn|].
      apply Hbefore. lia. }
    apply (read_loop_first_stop shell clock quiet_time max_total n Hnb
             ltac:(intros; apply Hbefore; assumption) Hl n 0%nat fuel); lia.
Qed.

(** A burst of one chunk and then silence, with a [quiet_time] of 0.15 s
    at a clock that reads 1762310721.575 s when the call begins: the
    readings 150 ms after the chunk differ from its reading by
    0.14999985..., so the call goes on for one more turn. *)
Lemma read_until_quiet_outcome_witness :
  let shell := fun j => match j with
                        | O => Chunk (py "Building configuration")
                        | _ => NotReady
                        end in
  let clock := ms_clock 1762310721575 shell in
  _read_until_quiet shell clock 0.15 0.8 10
  = Some (ReadResult (Returned (py "Building configuration")) 4) /\
  (clock (quiet_reading shell 3) - clock 2%nat = 0.14999985694885254)%float /\
  _read_until_quiet
    (fun j => match j with
              | O => Chunk (py "Building configuration")
              | _ => Broken (py "Socket is closed")
              end) clock 0.5 3 5
  = Some (ReadResult (Raised (py "Socket is closed")) 1).
Proof.
  intros shell clock. split; [|split].
  - destruct (read_until_quiet_outcome shell clock 0.15 0.8 4) as [_ H].
    + intros j Hj.
      do 4 (destruct j as [|j]; [split; vm_compute; reflexivity|]). lia.
    + apply (H eq_refl ltac:(vm_compute; reflexivity) 10%nat). lia.
  - vm_compute. reflexivity.
  - destruct (read_until_quiet_outcome
                (fun j => match j with
                          | O => Chunk (py "Building configuration")
                          | _ => Broken (py "Socket is closed")
                          end) clock 0.5 3 1) as [H _].
    + intros [|j] Hj; [split; vm_compute; reflexivity | lia].
    + apply (H (py "Socket is closed") eq_refl 5%nat). lia.
Defined.

(** ** The bucket after a pause *)


